(** * SCORE2 cardiovascular risk calculator: the scoring engine

    A shallow embedding of [src/utils/score2Calculator.js] and the
    properties its specification states about it, followed by further
    properties of the engine and of the two components that call it or
    draw its result, [src/components/WhatIfSimulation.jsx] and
    [src/components/RiskGauge.jsx].

    Numbers.  A JavaScript number is modelled by [JS.num]: the three
    non-finite values [NaN], [+Infinity], [-Infinity], and the finite values
    as exact reals.  Arithmetic on finite values is exact: binary64 rounding,
    overflow and underflow are not modelled, and zero carries no sign.  The
    non-finite cases follow ECMAScript ([Math.log] of a negative number is
    [NaN], every comparison with [NaN] is false, [Math.max] and [Math.min]
    return [NaN] when an argument is [NaN], ...).

    Objects.  [Parameters] has one field per property the engine reads.  A
    numeric property that is missing ([undefined]) behaves in every
    expression of this file exactly like [NaN] (it is falsy, every comparison
    with it is false, arithmetic on it yields [NaN]), so [age], [systolicBP]
    and [totalCholesterol] are plain [JS.num].  [hdlCholesterol] is optional
    and the callers pass [null] for it, hence [option JS.num].  String
    properties are [string]; a missing one behaves like the empty string. *)

From Stdlib Require Import Reals Lra Lia ZArith Bool List String Ascii.
From Stdlib Require Import DecimalString.
Import ListNotations.

Local Open Scope R_scope.

(** ** JavaScript numbers *)

Module JS.

Inductive num : Type :=
| NaN
| PInf
| NInf
| Fin (r : R).

Definition neg (a : num) : num :=
  match a with
  | NaN => NaN
  | PInf => NInf
  | NInf => PInf
  | Fin x => Fin (- x)
  end.

Definition add (a b : num) : num :=
  match a, b with
  | NaN, _ | _, NaN => NaN
  | PInf, NInf | NInf, PInf => NaN
  | PInf, _ | _, PInf => PInf
  | NInf, _ | _, NInf => NInf
  | Fin x, Fin y => Fin (x + y)
  end.

Definition sub (a b : num) : num := add a (neg b).

(** An infinity scaled by a finite factor: [NaN] for a zero factor, else
    the infinity with the product's sign. *)
Definition scale_inf (i : num) (x : R) : num :=
  if Req_dec_T x 0 then NaN
  else if Rlt_dec 0 x then i else neg i.

Definition mul (a b : num) : num :=
  match a, b with
  | NaN, _ | _, NaN => NaN
  | Fin x, Fin y => Fin (x * y)
  | Fin x, i => scale_inf i x
  | i, Fin y => scale_inf i y
  | PInf, PInf | NInf, NInf => PInf
  | PInf, NInf | NInf, PInf => NInf
  end.

(** Division.  Zeros are unsigned here, so a finite non-zero dividend over
    zero takes the dividend's sign.  The engine never divides by zero: each
    divisor is a non-zero literal or the reference percentage, which is
    [NaN] or at least 0.1. *)
Definition div (a b : num) : num :=
  match a, b with
  | NaN, _ | _, NaN => NaN
  | Fin x, Fin y =>
      if Req_dec_T y 0
      then (if Req_dec_T x 0 then NaN else if Rlt_dec 0 x then PInf else NInf)
      else Fin (x / y)
  | Fin _, _ => Fin 0
  | i, Fin y => if Rlt_dec y 0 then neg i else i
  | _, _ => NaN
  end.

(** The relational operators [<] and [<=] on numbers; [a > b] is [lt b a]
    and [a >= b] is [le b a]. *)
Definition lt (a b : num) : bool :=
  match a, b with
  | NaN, _ | _, NaN => false
  | _, NInf | PInf, _ => false
  | NInf, _ | _, PInf => true
  | Fin x, Fin y => if Rlt_dec x y then true else false
  end.

Definition le (a b : num) : bool :=
  match a, b with
  | NaN, _ | _, NaN => false
  | NInf, _ | _, PInf => true
  | _, NInf | PInf, _ => false
  | Fin x, Fin y => if Rle_dec x y then true else false
  end.

Definition gt (a b : num) : bool := lt b a.
Definition ge (a b : num) : bool := le b a.

(** ToBoolean on a number: zero and [NaN] are falsy. *)
Definition truthy (a : num) : bool :=
  match a with
  | NaN => false
  | Fin x => if Req_dec_T x 0 then false else true
  | _ => true
  end.

(** ToString on the integer-valued results of [Math.round].  The engine
    only prints such values, and they lie in [0, 50], far below the 1e21
    where JavaScript switches to exponent notation. *)
Definition intToString (a : num) : string :=
  match a with
  | NaN => "NaN"
  | PInf => "Infinity"
  | NInf => "-Infinity"
  | Fin x => NilZero.string_of_int (Z.to_int (Zfloor x))
  end.

End JS.

Import JS.

(** ** The [Math] functions the engine calls *)

Module Math.

(** [Math.log] *)
Definition log (a : num) : num :=
  match a with
  | NaN | NInf => NaN
  | PInf => PInf
  | Fin x =>
      if Rlt_dec x 0 then NaN
      else if Req_dec_T x 0 then NInf
      else Fin (ln x)
  end.

(** [Math.exp] *)
Definition exp (a : num) : num :=
  match a with
  | NaN => NaN
  | PInf => PInf
  | NInf => Fin 0
  | Fin x => Fin (Rtrigo_def.exp x)
  end.

(** [Math.min] and [Math.max] of two arguments. *)
Definition min (a b : num) : num :=
  match a, b with
  | NaN, _ | _, NaN => NaN
  | _, _ => if le a b then a else b
  end.

Definition max (a b : num) : num :=
  match a, b with
  | NaN, _ | _, NaN => NaN
  | _, _ => if le a b then b else a
  end.

(** [Math.round] on a real: the nearest integer, a tie going up. *)
Definition roundZ (x : R) : Z := Zfloor (x + / 2).

Definition round (a : num) : num :=
  match a with
  | Fin x => Fin (IZR (roundZ x))
  | _ => a
  end.

End Math.

Coercion Fin : R >-> num.

Local Open Scope string_scope.

(** ** Data model *)

Record Parameters : Type := mkParameters {
  age : num;
  sex : string;
  region : string;
  smoking : string;
  systolicBP : num;
  totalCholesterol : num;
  cholesterolUnit : string;
  hdlCholesterol : option num;   (* [None]: absent or [null] *)
  diabetes : string;
  bmi : option num               (* carried along, never read *)
}.

Record RiskResult : Type := mkRiskResult {
  riskPercentage : num;
  riskCategory : string;
  heartAge : num;
  interpretation : string;
  recommendations : list string;
  algorithm : string
}.

(** ** The engine *)

(** [x || null] for an optional number. *)
Definition orNull (x : option num) : option num :=
  match x with
  | Some n => if truthy n then Some n else None
  | None => None
  end.

(** [if (hdlChol) hdlChol = hdlChol / 38.67] *)
Definition hdlToMmol (hdlChol : option num) : option num :=
  match hdlChol with
  | Some n => if truthy n then Some (div n 38.67) else hdlChol
  | None => None
  end.

(** The argument the HDL block hands to [Math.log]; [None] when the block
    [if (hdlChol) { ... }] is skipped and no logarithm is taken. *)
Definition hdlLogArg (hdlChol : option num) : option num :=
  match hdlChol with
  | Some n => if truthy n then Some (div n 1.3) else None
  | None => None
  end.

(** [if (hdlChol) { riskScore += -Math.log(hdlChol / 1.3) * 0.2 }] *)
Definition addHdlComponent (riskScore : num) (hdlChol : option num) : num :=
  match hdlLogArg hdlChol with
  | Some a => add riskScore (mul (neg (Math.log a)) 0.2)
  | None => riskScore
  end.

(** Property names every object literal inherits from [Object.prototype]:
    looked up in [regionalFactors] they give a function or an object, which
    is truthy and turns the score into [NaN] when multiplied. *)
Definition objectPrototypeKeys : list string :=
  [ "constructor"; "hasOwnProperty"; "isPrototypeOf"; "propertyIsEnumerable";
    "toLocaleString"; "toString"; "valueOf"; "__proto__";
    "__defineGetter__"; "__defineSetter__"; "__lookupGetter__";
    "__lookupSetter__" ].

(** [regionalFactors[region] || 1.0], as the number the score is multiplied
    by. *)
Definition regionalFactor (region : string) : num :=
  if region =? "low" then Fin 0.7
  else if region =? "moderate" then Fin 1.0
  else if region =? "high" then Fin 1.4
  else if region =? "very-high" then Fin 1.8
  else if existsb (String.eqb region) objectPrototypeKeys then NaN
  else Fin 1.0.

(** [categorizeRisk] *)
Definition categorizeRisk (riskPercentage age : num) : string :=
  if lt age 50 then
    if lt riskPercentage 2.5 then "low"
    else if lt riskPercentage 7.5 then "moderate"
    else if lt riskPercentage 10 then "high"
    else "very-high"
  else
    if lt riskPercentage 5 then "low"
    else if lt riskPercentage 10 then "moderate"
    else if lt riskPercentage 15 then "high"
    else "very-high".

(** The conversion to mmol/L: lines 22-28 of [calculateSCORE2Risk], which
    [calculateHeartAge] repeats word for word on [referenceParams] as its
    lines 150-156.  The result is the pair of locals [totalChol] and
    [hdlChol]. *)
Definition normalizeUnits (params : Parameters) : num * option num :=
  let totalChol := totalCholesterol params in
  let hdlChol := orNull (hdlCholesterol params) in
  if cholesterolUnit params =? "mg/dL"
  then (div totalChol 38.67, hdlToMmol hdlChol)
  else (totalChol, hdlChol).

(** Lines 21-92 of [calculateSCORE2Risk]: the local [riskPercentage] after
    the bounds are applied and before it is rounded for the result. *)
Definition clampedRisk (params : Parameters) : num :=
  let '(totalChol, hdlChol) := normalizeUnits params in
  let useScore2OP := ge (age params) 70 in
  let riskScore := Fin 0 in
  let ageComponent :=
    mul (Math.log (div (age params) 40))
        (if sex params =? "male" then 0.8 else 0.7) in
  let riskScore := add riskScore ageComponent in
  let sexComponent := if sex params =? "male" then Fin 0.5 else Fin 0 in
  let riskScore := add riskScore sexComponent in
  let smokingComponent :=
    if smoking params =? "smoker" then Fin 0.6 else Fin 0 in
  let riskScore := add riskScore smokingComponent in
  let bpComponent := mul (Math.log (div (systolicBP params) 120)) 0.4 in
  let riskScore := add riskScore bpComponent in
  let cholComponent := mul (Math.log (div totalChol 5.0)) 0.3 in
  let riskScore := add riskScore cholComponent in
  let riskScore := addHdlComponent riskScore hdlChol in
  let riskScore :=
    if diabetes params =? "yes" then add riskScore 0.4 else riskScore in
  let riskScore := mul riskScore (regionalFactor (region params)) in
  let riskScore := if useScore2OP then mul riskScore 1.2 else riskScore in
  let baselineRisk := if useScore2OP then Fin 0.15 else Fin 0.08 in
  let riskPercentage :=
    mul (sub 1 (Math.exp (mul (neg (Math.exp riskScore)) baselineRisk)))
        100 in
  Math.max 0.1 (Math.min 50 riskPercentage).

(** Lines 21-84 of [calculateSCORE2Risk]: the local [riskScore] once the
    regional factor and the SCORE2-OP multiplier are applied. *)
Definition riskScore (params : Parameters) : num :=
  let '(totalChol, hdlChol) := normalizeUnits params in
  let useScore2OP := ge (age params) 70 in
  let riskScore := Fin 0 in
  let ageComponent :=
    mul (Math.log (div (age params) 40))
        (if sex params =? "male" then 0.8 else 0.7) in
  let riskScore := add riskScore ageComponent in
  let sexComponent := if sex params =? "male" then Fin 0.5 else Fin 0 in
  let riskScore := add riskScore sexComponent in
  let smokingComponent :=
    if smoking params =? "smoker" then Fin 0.6 else Fin 0 in
  let riskScore := add riskScore smokingComponent in
  let bpComponent := mul (Math.log (div (systolicBP params) 120)) 0.4 in
  let riskScore := add riskScore bpComponent in
  let cholComponent := mul (Math.log (div totalChol 5.0)) 0.3 in
  let riskScore := add riskScore cholComponent in
  let riskScore := addHdlComponent riskScore hdlChol in
  let riskScore :=
    if diabetes params =? "yes" then add riskScore 0.4 else riskScore in
  let riskScore := mul riskScore (regionalFactor (region params)) in
  if useScore2OP then mul riskScore 1.2 else riskScore.

(** Lines 88-89: the local [riskPercentage] before the bounds of line 92
    are applied to it. *)
Definition unboundedRisk (params : Parameters) : num :=
  let useScore2OP := ge (age params) 70 in
  let baselineRisk := if useScore2OP then Fin 0.15 else Fin 0.08 in
  mul (sub 1 (Math.exp (mul (neg (Math.exp (riskScore params)))
                            baselineRisk)))
      100.

(** The object [referenceParams] of [calculateHeartAge]: the spread
    [...params] with four properties overwritten. *)
Definition referenceParams (params : Parameters) : Parameters :=
  {| age := age params;
     sex := sex params;
     region := region params;
     smoking := "non-smoker";
     systolicBP := 120;
     totalCholesterol := 5.0;
     cholesterolUnit := cholesterolUnit params;
     hdlCholesterol := hdlCholesterol params;
     diabetes := "no";
     bmi := bmi params |}.

(** Lines 146-211 of [calculateHeartAge]: the percentage of the reference
    profile.  The source repeats the score formula here, with the smoking,
    blood-pressure and cholesterol terms written as constants; the converted
    [totalChol] is computed and never read. *)
Definition referenceRiskPercentage (referenceParams : Parameters) : num :=
  let referenceRiskScore := Fin 0 in
  let '(totalChol, hdlChol) := normalizeUnits referenceParams in
  let useScore2OP := ge (age referenceParams) 70 in
  let ageComponent :=
    mul (Math.log (div (age referenceParams) 40))
        (if sex referenceParams =? "male" then 0.8 else 0.7) in
  let referenceRiskScore := add referenceRiskScore ageComponent in
  let sexComponent :=
    if sex referenceParams =? "male" then Fin 0.5 else Fin 0 in
  let referenceRiskScore := add referenceRiskScore sexComponent in
  let smokingComponent := Fin 0 in
  let referenceRiskScore := add referenceRiskScore smokingComponent in
  let bpComponent := mul (Math.log (div 120 120)) 0.4 in
  let referenceRiskScore := add referenceRiskScore bpComponent in
  let cholComponent := mul (Math.log (div 5.0 5.0)) 0.3 in
  let referenceRiskScore := add referenceRiskScore cholComponent in
  let referenceRiskScore := addHdlComponent referenceRiskScore hdlChol in
  let referenceRiskScore :=
    mul referenceRiskScore (regionalFactor (region referenceParams)) in
  let referenceRiskScore :=
    if useScore2OP then mul referenceRiskScore 1.2 else referenceRiskScore in
  let baselineRisk := if useScore2OP then Fin 0.15 else Fin 0.08 in
  let referenceRiskPercentage :=
    mul (sub 1 (Math.exp (mul (neg (Math.exp referenceRiskScore))
                              baselineRisk)))
        100 in
  Math.max 0.1 (Math.min 50 referenceRiskPercentage).

(** [calculateHeartAge] *)
Definition calculateHeartAge (params : Parameters) (riskPercentage : num)
  : num :=
  let referenceParams := referenceParams params in
  let referenceRiskPercentage := referenceRiskPercentage referenceParams in
  let riskRatio := div riskPercentage referenceRiskPercentage in
  let heartAge := Math.round (add (age params) (mul (sub riskRatio 1) 10)) in
  Math.max (age params) (Math.min 100 heartAge).

(** [recommendations.push(s)] *)
Definition push (recommendations : list string) (s : string) : list string :=
  recommendations ++ [s].

(** [generateRecommendations] *)
Definition generateRecommendations (params : Parameters)
    (riskCategory : string) : list string :=
  let recommendations := [] in
  let recommendations :=
    if smoking params =? "smoker" then
      let r := push recommendations
        "Quit smoking - this is the single most important step to reduce your cardiovascular risk" in
      push r
        "Consider nicotine replacement therapy or consult your doctor about smoking cessation aids"
    else recommendations in
  let recommendations :=
    if gt (systolicBP params) 140 then
      let r := push recommendations
        "Discuss blood pressure management with your doctor" in
      let r := push r
        "Reduce salt intake and increase physical activity" in
      push r
        "Consider antihypertensive medication if lifestyle changes are insufficient"
    else if gt (systolicBP params) 130 then
      push recommendations
        "Monitor blood pressure regularly and maintain a healthy lifestyle"
    else recommendations in
  let totalCholMmol :=
    if cholesterolUnit params =? "mg/dL"
    then div (totalCholesterol params) 38.67
    else totalCholesterol params in
  let recommendations :=
    if gt totalCholMmol 5.5 then
      let r := push recommendations
        "Discuss cholesterol management with your doctor" in
      let r := push r
        "Follow a Mediterranean-style diet rich in fruits, vegetables, and healthy fats" in
      push r
        "Consider statin therapy if dietary changes are insufficient"
    else recommendations in
  let recommendations :=
    if diabetes params =? "yes" then
      let r := push recommendations
        "Maintain optimal blood glucose control" in
      let r := push r
        "Regular monitoring of HbA1c levels" in
      push r
        "Consider additional cardiovascular protection medications"
    else recommendations in
  let recommendations :=
    if (riskCategory =? "moderate") || (riskCategory =? "high")
       || (riskCategory =? "very-high") then
      let r := push recommendations
        "Engage in regular physical activity (at least 150 minutes of moderate exercise per week)" in
      let r := push r
        "Maintain a healthy weight (BMI 18.5-24.9)" in
      let r := push r
        "Limit alcohol consumption" in
      push r
        "Consider low-dose aspirin therapy (consult your doctor)"
    else recommendations in
  let recommendations :=
    if riskCategory =? "low" then
      let r := push recommendations
        "Maintain your current healthy lifestyle" in
      let r := push r
        "Continue regular physical activity and healthy diet" in
      push r
        "Regular health check-ups every 2-3 years"
    else recommendations in
  recommendations.

(** [generateInterpretation] *)
Definition generateInterpretation (riskPercentage : num) (sex : string)
  : string :=
  let roundedRisk := Math.round riskPercentage in
  let pronoun := if sex =? "male" then "men" else "women" in
  "This means out of 100 " ++ pronoun ++ " like you, about "
    ++ intToString roundedRisk
    ++ " will have a heart attack or stroke in the next 10 years.".

(** [calculateSCORE2Risk] *)
Definition calculateSCORE2Risk (params : Parameters) : RiskResult :=
  let useScore2OP := ge (age params) 70 in
  let riskPercentage := clampedRisk params in
  let riskCategory := categorizeRisk riskPercentage (age params) in
  let heartAge := calculateHeartAge params riskPercentage in
  let recommendations := generateRecommendations params riskCategory in
  let interpretation := generateInterpretation riskPercentage (sex params) in
  {| riskPercentage := div (Math.round (mul riskPercentage 10)) 10;
     riskCategory := riskCategory;
     heartAge := heartAge;
     interpretation := interpretation;
     recommendations := recommendations;
     algorithm := if useScore2OP then "SCORE2-OP" else "SCORE2" |}.

(** [!s] for a string property: true when it is empty (or missing). *)
Definition notStr (s : string) : bool := s =? "".

(** [list.includes(s)] *)
Definition includes (l : list string) (s : string) : bool :=
  existsb (String.eqb s) l.

(** [validateSCORE2Inputs] *)
Definition validateSCORE2Inputs (params : Parameters) : list string :=
  let errors := [] in
  let errors :=
    if negb (truthy (age params)) || lt (age params) 40
       || gt (age params) 100
    then push errors "Age must be between 40 and 100 years"
    else errors in
  let errors :=
    if notStr (sex params) || negb (includes ["male"; "female"] (sex params))
    then push errors "Sex must be specified as male or female"
    else errors in
  let errors :=
    if notStr (region params)
       || negb (includes ["low"; "moderate"; "high"; "very-high"]
                         (region params))
    then push errors "Risk region must be specified"
    else errors in
  let errors :=
    if notStr (smoking params)
       || negb (includes ["smoker"; "non-smoker"] (smoking params))
    then push errors "Smoking status must be specified"
    else errors in
  let errors :=
    if negb (truthy (systolicBP params)) || lt (systolicBP params) 80
       || gt (systolicBP params) 250
    then push errors "Systolic blood pressure must be between 80 and 250 mmHg"
    else errors in
  let errors :=
    if negb (truthy (totalCholesterol params))
       || le (totalCholesterol params) 0
    then push errors "Total cholesterol must be specified and greater than 0"
    else errors in
  errors.

(** ** The formula over the reals

    What stages A to D of the specification compute when every input is a
    finite number inside its validated range.  The engine is compared with
    these definitions below. *)

Local Open Scope R_scope.

(** The real number a finite [num] stands for. *)
Definition realOf (a : num) : R :=
  match a with
  | Fin x => x
  | _ => 0
  end.

Definition isFin (a : num) : Prop :=
  match a with
  | Fin _ => True
  | _ => False
  end.

(** The input constraints of the validation rules. *)
Definition ageOk (p : Parameters) : Prop :=
  isFin (age p) /\ 40 <= realOf (age p) <= 100.

Definition sexOk (p : Parameters) : Prop :=
  sex p = "male"%string \/ sex p = "female"%string.

Definition regionOk (p : Parameters) : Prop :=
  region p = "low"%string \/ region p = "moderate"%string
  \/ region p = "high"%string \/ region p = "very-high"%string.

Definition smokingOk (p : Parameters) : Prop :=
  smoking p = "smoker"%string \/ smoking p = "non-smoker"%string.

Definition bpOk (p : Parameters) : Prop :=
  isFin (systolicBP p) /\ 80 <= realOf (systolicBP p) <= 250.

(** [totalCholesterol > 0]; the comparison also holds for [+Infinity],
    which the validation therefore lets through. *)
Definition cholOk (p : Parameters) : Prop :=
  match totalCholesterol p with
  | Fin c => 0 < c
  | PInf => True
  | _ => False
  end.

Definition valid (p : Parameters) : Prop :=
  ageOk p /\ sexOk p /\ regionOk p /\ smokingOk p /\ bpOk p /\ cholOk p.

(** A supplied HDL value is a finite number that is not negative.  No
    validation rule asks for it. *)
Definition hdlOk (p : Parameters) : Prop :=
  match hdlCholesterol p with
  | None => True
  | Some (Fin x) => 0 <= x
  | Some _ => False
  end.

(** Stage A on one value. *)
Definition toMmol (unit : string) (x : R) : R :=
  if (unit =? "mg/dL")%string then x / 38.67 else x.

(** The HDL term: present for a supplied non-zero HDL value only. *)
Definition hdlTerm (p : Parameters) : R :=
  match hdlCholesterol p with
  | Some (Fin x) =>
      if Req_dec_T x 0 then 0
      else - ln (toMmol (cholesterolUnit p) x / 1.3) * 0.2
  | _ => 0
  end.

Definition ageTerm (p : Parameters) : R :=
  ln (realOf (age p) / 40) * (if (sex p =? "male")%string then 0.8 else 0.7).

Definition sexTerm (p : Parameters) : R :=
  if (sex p =? "male")%string then 0.5 else 0.

Definition smokingTerm (p : Parameters) : R :=
  if (smoking p =? "smoker")%string then 0.6 else 0.

Definition bpTerm (p : Parameters) : R :=
  ln (realOf (systolicBP p) / 120) * 0.4.

Definition cholTerm (p : Parameters) : R :=
  ln (toMmol (cholesterolUnit p) (realOf (totalCholesterol p)) / 5.0) * 0.3.

Definition diabetesTerm (p : Parameters) : R :=
  if (diabetes p =? "yes")%string then 0.4 else 0.

(** Stage C before calibration: the sum of the terms. *)
Definition linearScore (p : Parameters) : R :=
  ageTerm p + sexTerm p + smokingTerm p + bpTerm p + cholTerm p
  + hdlTerm p + diabetesTerm p.

(** The regional factor of a recognised region. *)
Definition regionFactor (region : string) : R :=
  if (region =? "low")%string then 0.7
  else if (region =? "moderate")%string then 1
  else if (region =? "high")%string then 1.4
  else if (region =? "very-high")%string then 1.8
  else 1.

(** Stage B. *)
Definition useOP (p : Parameters) : bool :=
  if Rle_dec 70 (realOf (age p)) then true else false.

(** The score after the regional factor and before the SCORE2-OP
    multiplier. *)
Definition regionalScore (p : Parameters) : R :=
  linearScore p * regionFactor (region p).

(** Stage C. *)
Definition score (p : Parameters) : R :=
  regionalScore p * (if useOP p then 1.2 else 1).

Definition baseline (p : Parameters) : R :=
  if useOP p then 0.15 else 0.08.

(** Stage D: the percentage transform, its bounds, and the rounding of the
    reported value. *)
Definition pct (b s : R) : R := (1 - exp (- exp s * b)) * 100.

Definition clamp (x : R) : R := Rmax 0.1 (Rmin 50 x).

Definition round1 (x : R) : R := IZR (Math.roundZ (x * 10)) / 10.

Definition rawRisk (p : Parameters) : R := pct (baseline p) (score p).

(** The clamped percentage.  An infinite total cholesterol makes the score
    infinite and the percentage hits the upper bound. *)
Definition risk (p : Parameters) : R :=
  match totalCholesterol p with
  | PInf => 50
  | _ => clamp (rawRisk p)
  end.

(** ** The validation rules

    The six constraints as the specification words them, decided with the
    JavaScript comparisons (false on [NaN]), and the messages of the
    violated ones. *)

Definition ageOkb (p : Parameters) : bool :=
  le 40 (age p) && le (age p) 100.

Definition sexOkb (p : Parameters) : bool :=
  (sex p =? "male")%string || (sex p =? "female")%string.

Definition regionOkb (p : Parameters) : bool :=
  (region p =? "low")%string || (region p =? "moderate")%string
  || (region p =? "high")%string || (region p =? "very-high")%string.

Definition smokingOkb (p : Parameters) : bool :=
  (smoking p =? "smoker")%string || (smoking p =? "non-smoker")%string.

Definition bpOkb (p : Parameters) : bool :=
  le 80 (systolicBP p) && le (systolicBP p) 250.

Definition cholOkb (p : Parameters) : bool :=
  lt 0 (totalCholesterol p).

(** Each constraint with the message reported when it is violated, in the
    order the checks run. *)
Definition rules : list ((Parameters -> bool) * string) :=
  [ (ageOkb, "Age must be between 40 and 100 years"%string);
    (sexOkb, "Sex must be specified as male or female"%string);
    (regionOkb, "Risk region must be specified"%string);
    (smokingOkb, "Smoking status must be specified"%string);
    (bpOkb, "Systolic blood pressure must be between 80 and 250 mmHg"%string);
    (cholOkb,
      "Total cholesterol must be specified and greater than 0"%string) ].

(** The messages of the violated constraints, one each. *)
Definition violations (p : Parameters) : list string :=
  map snd (filter (fun r => negb (fst r p)) rules).

(** ** The gates of the recommendations

    The advisory strings of stage H and the six gates that contribute
    them. *)

Definition smokingAdvice : list string :=
  [ "Quit smoking - this is the single most important step to reduce your cardiovascular risk";
    "Consider nicotine replacement therapy or consult your doctor about smoking cessation aids"
  ]%string.

Definition pressureAdvice : list string :=
  [ "Discuss blood pressure management with your doctor";
    "Reduce salt intake and increase physical activity";
    "Consider antihypertensive medication if lifestyle changes are insufficient"
  ]%string.

Definition pressureMonitorAdvice : list string :=
  [ "Monitor blood pressure regularly and maintain a healthy lifestyle"
  ]%string.

Definition cholesterolAdvice : list string :=
  [ "Discuss cholesterol management with your doctor";
    "Follow a Mediterranean-style diet rich in fruits, vegetables, and healthy fats";
    "Consider statin therapy if dietary changes are insufficient" ]%string.

Definition diabetesAdvice : list string :=
  [ "Maintain optimal blood glucose control";
    "Regular monitoring of HbA1c levels";
    "Consider additional cardiovascular protection medications" ]%string.

Definition lifestyleAdvice : list string :=
  [ "Engage in regular physical activity (at least 150 minutes of moderate exercise per week)";
    "Maintain a healthy weight (BMI 18.5-24.9)";
    "Limit alcohol consumption";
    "Consider low-dose aspirin therapy (consult your doctor)" ]%string.

Definition maintenanceAdvice : list string :=
  [ "Maintain your current healthy lifestyle";
    "Continue regular physical activity and healthy diet";
    "Regular health check-ups every 2-3 years" ]%string.

(** The six gates of stage H, each giving the strings it contributes. *)
Definition smokingGate (p : Parameters) : list string :=
  if (smoking p =? "smoker")%string then smokingAdvice else [].

Definition pressureGate (p : Parameters) : list string :=
  if gt (systolicBP p) 140 then pressureAdvice
  else if gt (systolicBP p) 130 then pressureMonitorAdvice
  else [].

Definition cholesterolGate (p : Parameters) : list string :=
  if gt (fst (normalizeUnits p)) 5.5 then cholesterolAdvice else [].

Definition diabetesGate (p : Parameters) : list string :=
  if (diabetes p =? "yes")%string then diabetesAdvice else [].

Definition elevatedGate (category : string) : list string :=
  if (category =? "moderate")%string || (category =? "high")%string
     || (category =? "very-high")%string
  then lifestyleAdvice else [].

Definition lowGate (category : string) : list string :=
  if (category =? "low")%string then maintenanceAdvice else [].

(** ** The interpretation sentence *)

(** The sentence of stage G for a sex and a printed count. *)
Definition sentence (sex count : string) : string :=
  ("This means out of 100 "
   ++ (if sex =? "male" then "men" else "women")
   ++ " like you, about " ++ count
   ++ " will have a heart attack or stroke in the next 10 years.")%string.

Definition printZ (z : Z) : string := NilZero.string_of_int (Z.to_int z).

(** ** Variations of an input *)

(** The input with its HDL property replaced. *)
Definition withHdl (p : Parameters) (h : option num) : Parameters :=
  {| age := age p; sex := sex p; region := region p; smoking := smoking p;
     systolicBP := systolicBP p; totalCholesterol := totalCholesterol p;
     cholesterolUnit := cholesterolUnit p; hdlCholesterol := h;
     diabetes := diabetes p; bmi := bmi p |}.

Definition withRegion (p : Parameters) (rg : string) : Parameters :=
  {| age := age p; sex := sex p; region := rg; smoking := smoking p;
     systolicBP := systolicBP p; totalCholesterol := totalCholesterol p;
     cholesterolUnit := cholesterolUnit p;
     hdlCholesterol := hdlCholesterol p; diabetes := diabetes p;
     bmi := bmi p |}.

Definition withAge (p : Parameters) (a : num) : Parameters :=
  {| age := a; sex := sex p; region := region p; smoking := smoking p;
     systolicBP := systolicBP p; totalCholesterol := totalCholesterol p;
     cholesterolUnit := cholesterolUnit p;
     hdlCholesterol := hdlCholesterol p; diabetes := diabetes p;
     bmi := bmi p |}.

Definition withSmoking (p : Parameters) (sm : string) : Parameters :=
  {| age := age p; sex := sex p; region := region p; smoking := sm;
     systolicBP := systolicBP p; totalCholesterol := totalCholesterol p;
     cholesterolUnit := cholesterolUnit p;
     hdlCholesterol := hdlCholesterol p; diabetes := diabetes p;
     bmi := bmi p |}.

(** ** Reference profiles *)

(** The reference profile the engine really scores: the reference total
    cholesterol is 5.0 mmol/L whatever the unit of the input, that is
    5.0 * 38.67 when the input is in mg/dL. *)
Definition referenceProfile (p : Parameters) : Parameters :=
  {| age := age p;
     sex := sex p;
     region := region p;
     smoking := "non-smoker";
     systolicBP := 120;
     totalCholesterol :=
       if (cholesterolUnit p =? "mg/dL")%string
       then Fin (5.0 * 38.67) else Fin 5.0;
     cholesterolUnit := cholesterolUnit p;
     hdlCholesterol := hdlCholesterol p;
     diabetes := "no";
     bmi := bmi p |}.

(** The heart age as the specification words it: stages A to D, unit
    conversion included, run on [referenceParams]. *)
Definition heartAgeOnReferenceParams (p : Parameters) : num :=
  let riskRatio := div (clampedRisk p) (clampedRisk (referenceParams p)) in
  Math.max (age p)
    (Math.min 100 (Math.round (add (age p) (mul (sub riskRatio 1) 10)))).

(** ** Integer bounds for the exponential

    From [1 + y <= exp y] at [y = x / 2^k], squared [k] times:
    [(1 + x / 2^k)^(2^k) <= exp x].  The power is computed on integers
    scaled by [2^64], every squaring rounded down, so the numbers stay
    small. *)

Definition scale : Z := 2 ^ 64.

Definition sqDown (m : Z) : Z := (m * m / scale)%Z.

Fixpoint powDown (k : nat) (m : Z) : Z :=
  match k with
  | O => m
  | S k' => powDown k' (sqDown m)
  end.

(** [expDown k xs / scale] is a lower bound on [exp x] whenever
    [xs / scale <= x]. *)
Definition expDown (k : nat) (xs : Z) : Z :=
  powDown k (scale + xs / 2 ^ Z.of_nat k)%Z.

(** ** Concrete patients *)

Definition patient (a : R) (sx rg sm : string) (bp chol : R) (unit : string)
    (hdl : option num) (diab : string) : Parameters :=
  {| age := a; sex := sx; region := rg; smoking := sm; systolicBP := bp;
     totalCholesterol := chol; cholesterolUnit := unit;
     hdlCholesterol := hdl; diabetes := diab; bmi := None |}.

(** A middle-aged woman with every validated field in range and an HDL
    value of -1. *)
Definition negativeHdlPatient : Parameters :=
  patient 55 "female" "moderate" "non-smoker" 120 5.0 "mmol/L"
          (Some (Fin (-1))) "no".

(** The end-to-end example of the specification: age 55, male, moderate
    region, non-smoker, systolic pressure 130 mmHg, total cholesterol
    5.0 mmol/L, no HDL, diabetes or BMI entry. *)
Definition examplePatient : Parameters :=
  patient 55 "male" "moderate" "non-smoker" 130 5.0 "mmol/L" None "".

(** A woman of 40, non-smoker, systolic pressure 80 mmHg, total cholesterol
    5.0 mmol/L, no HDL value, no diabetes, in region [rg]. *)
Definition lowPressurePatient (rg : string) : Parameters :=
  patient 40 "female" rg "non-smoker" 80 5.0 "mmol/L" None "no".

(** A man of 70 in the very-high region, systolic pressure 120 mmHg, total
    cholesterol 5.0 mmol/L, no HDL value, no diabetes. *)
Definition saturatedPatient (sm : string) : Parameters :=
  patient 70 "male" "very-high" sm 120 5.0 "mmol/L" None "no".

(** A woman in the very-high region, non-smoker, systolic pressure
    120 mmHg, total cholesterol 0.001 mmol/L (the validation only asks for
    a positive value), no HDL value, no diabetes, at age [a]. *)
Definition tinyCholesterolPatient (a : R) : Parameters :=
  patient a "female" "very-high" "non-smoker" 120 0.001 "mmol/L" None "no".

(** A woman of 50 in the high region, non-smoker, systolic pressure
    120 mmHg, total cholesterol 5.0 mmol/L, no HDL value, no diabetes. *)
Definition roundingPatient : Parameters :=
  patient 50 "female" "high" "non-smoker" 120 5.0 "mmol/L" None "no".

(** A woman of 50 in the moderate region, non-smoker, systolic pressure
    120 mmHg, total cholesterol 200 mg/dL, no HDL value, no diabetes. *)
Definition unitPatient : Parameters :=
  patient 50 "female" "moderate" "non-smoker" 120 200 "mg/dL" None "no".

(** ** Further variations of an input *)

Definition withSystolicBP (p : Parameters) (b : num) : Parameters :=
  {| age := age p; sex := sex p; region := region p; smoking := smoking p;
     systolicBP := b; totalCholesterol := totalCholesterol p;
     cholesterolUnit := cholesterolUnit p;
     hdlCholesterol := hdlCholesterol p; diabetes := diabetes p;
     bmi := bmi p |}.

Definition withTotalCholesterol (p : Parameters) (c : num) : Parameters :=
  {| age := age p; sex := sex p; region := region p; smoking := smoking p;
     systolicBP := systolicBP p; totalCholesterol := c;
     cholesterolUnit := cholesterolUnit p;
     hdlCholesterol := hdlCholesterol p; diabetes := diabetes p;
     bmi := bmi p |}.

Definition withDiabetes (p : Parameters) (d : string) : Parameters :=
  {| age := age p; sex := sex p; region := region p; smoking := smoking p;
     systolicBP := systolicBP p; totalCholesterol := totalCholesterol p;
     cholesterolUnit := cholesterolUnit p;
     hdlCholesterol := hdlCholesterol p; diabetes := d; bmi := bmi p |}.

Definition withSex (p : Parameters) (sx : string) : Parameters :=
  {| age := age p; sex := sx; region := region p; smoking := smoking p;
     systolicBP := systolicBP p; totalCholesterol := totalCholesterol p;
     cholesterolUnit := cholesterolUnit p;
     hdlCholesterol := hdlCholesterol p; diabetes := diabetes p;
     bmi := bmi p |}.

(** The lipid values of an input divided by 38.67 by the caller and handed
    over as mmol/L. *)
Definition inMmol (p : Parameters) : Parameters :=
  {| age := age p; sex := sex p; region := region p; smoking := smoking p;
     systolicBP := systolicBP p;
     totalCholesterol := div (totalCholesterol p) 38.67;
     cholesterolUnit := "mmol/L";
     hdlCholesterol := option_map (fun h => div h 38.67) (hdlCholesterol p);
     diabetes := diabetes p; bmi := bmi p |}.

(** The four categories in increasing order of severity. *)
Definition categoryRank (category : string) : nat :=
  if (category =? "low")%string then 0
  else if (category =? "moderate")%string then 1
  else if (category =? "high")%string then 2
  else 3.

(** The thresholds of [categorizeRisk] for an age. *)
Definition thresholds (a : num) : list R :=
  if lt a 50 then [2.5; 7.5; 10] else [5; 10; 15].

(** A list of strings without a repeated entry. *)
Fixpoint distinct (l : list string) : bool :=
  match l with
  | [] => true
  | s :: l' => negb (existsb (String.eqb s) l') && distinct l'
  end.

(** ** The risk gauge

    [src/components/RiskGauge.jsx], lines 3-24: the two slices handed to the
    pie chart. *)

Module RiskGauge.

Record Slice : Type := mkSlice {
  name : string;
  value : num;
  color : option string   (* [None]: not a string *)
}.

(** [riskColors[riskCategory] || '#6b7280'].  The table is an object
    literal: a name inherited from [Object.prototype] finds a function or an
    object, which is truthy and is no colour string. *)
Definition riskColor (riskCategory : string) : option string :=
  if (riskCategory =? "low")%string then Some "#22c55e"%string
  else if (riskCategory =? "moderate")%string then Some "#eab308"%string
  else if (riskCategory =? "high")%string then Some "#f97316"%string
  else if (riskCategory =? "very-high")%string then Some "#ef4444"%string
  else if existsb (String.eqb riskCategory) objectPrototypeKeys then None
  else Some "#6b7280"%string.

Definition gaugeData (riskPercentage : num) (riskCategory : string)
  : list Slice :=
  [ {| name := "Risk"; value := riskPercentage;
       color := riskColor riskCategory |};
    {| name := "Remaining"; value := sub 100 riskPercentage;
       color := Some "#f3f4f6"%string |} ].

End RiskGauge.

(** ** The what-if simulation

    [src/components/WhatIfSimulation.jsx], lines 9-44.  The component keeps
    [simulationParams] and [isNonSmoker] as state; an effect recomputes
    [simulatedRisk] from them after every change, so once the effect has
    run [simulatedRisk] is a function of the two.  The sliders hand their
    value over as a one-element array, of which the handlers read entry 0;
    the handlers below take that entry. *)

Module WhatIf.

Record State : Type := mkState {
  simulationParams : Parameters;
  isNonSmoker : bool
}.

(** The initial values of the two [useState] calls. *)
Definition initialState (originalParams : Parameters) : State :=
  {| simulationParams := originalParams;
     isNonSmoker := (smoking originalParams =? "non-smoker")%string |}.

(** The object [newParams] of the effect. *)
Definition newParams (st : State) : Parameters :=
  withSmoking (simulationParams st)
    (if isNonSmoker st then "non-smoker" else "smoker")%string.

(** [simulatedRisk] after the effect has run. *)
Definition simulatedRisk (st : State) : RiskResult :=
  calculateSCORE2Risk (newParams st).

Definition handleBPChange (st : State) (value0 : num) : State :=
  {| simulationParams := withSystolicBP (simulationParams st) value0;
     isNonSmoker := isNonSmoker st |}.

Definition handleCholesterolChange (st : State) (value0 : num) : State :=
  {| simulationParams := withTotalCholesterol (simulationParams st) value0;
     isNonSmoker := isNonSmoker st |}.

Definition setIsNonSmoker (st : State) (checked : bool) : State :=
  {| simulationParams := simulationParams st; isNonSmoker := checked |}.

Definition riskDifference (simulatedRisk originalRisk : RiskResult) : num :=
  sub (riskPercentage simulatedRisk) (riskPercentage originalRisk).

Definition isImprovement (simulatedRisk originalRisk : RiskResult) : bool :=
  lt (riskDifference simulatedRisk originalRisk) 0.

(** What the user can do: move one of the two sliders or flip the
    switch. *)
Inductive Event : Type :=
| BPChange (value0 : num)
| CholesterolChange (value0 : num)
| SmokingSwitch (checked : bool).

Definition handle (st : State) (e : Event) : State :=
  match e with
  | BPChange v => handleBPChange st v
  | CholesterolChange v => handleCholesterolChange st v
  | SmokingSwitch b => setIsNonSmoker st b
  end.

Definition run (st : State) (events : list Event) : State :=
  fold_left handle events st.

(** The values the sliders can emit: 90 to 200 for the pressure, 3 to 10
    for the cholesterol. *)
Definition inRange (e : Event) : Prop :=
  match e with
  | BPChange (Fin v) => 90 <= v <= 200
  | CholesterolChange (Fin v) => 3 <= v <= 10
  | SmokingSwitch _ => True
  | _ => False
  end.

(** What the handlers keep of the original input: every field but the
    pressure and the total cholesterol, which stay inside the validated
    ranges. *)
Definition tracks (originalParams : Parameters) (st : State) : Prop :=
  let sp := simulationParams st in
  age sp = age originalParams /\ sex sp = sex originalParams
  /\ region sp = region originalParams
  /\ cholesterolUnit sp = cholesterolUnit originalParams
  /\ hdlCholesterol sp = hdlCholesterol originalParams
  /\ diabetes sp = diabetes originalParams
  /\ bpOk sp /\ cholOk sp.

End WhatIf.

(** ** Arithmetic on finite numbers *)

Lemma div_Fin (x y : R) : y <> 0 -> div (Fin x) (Fin y) = Fin (x / y).
Proof.
  intros Hy. unfold div. destruct (Req_dec_T y 0) as [E|_]; [contradiction|].
  reflexivity.
Qed.

Lemma log_Fin (x : R) : 0 < x -> Math.log (Fin x) = Fin (ln x).
Proof.
  intros Hx. unfold Math.log.
  destruct (Rlt_dec x 0) as [H|_]; [lra|].
  destruct (Req_dec_T x 0) as [H|_]; [lra|]. reflexivity.
Qed.

Lemma le_Fin (x y : R) : le (Fin x) (Fin y) = true <-> x <= y.
Proof.
  unfold le. destruct (Rle_dec x y); split; intros; try discriminate;
    auto; contradiction.
Qed.

Lemma lt_Fin (x y : R) : lt (Fin x) (Fin y) = true <-> x < y.
Proof.
  unfold lt. destruct (Rlt_dec x y); split; intros; try discriminate;
    auto; contradiction.
Qed.

Lemma le_Fin_false (x y : R) : le (Fin x) (Fin y) = false <-> y < x.
Proof.
  unfold le. destruct (Rle_dec x y); split; intros; try discriminate;
    auto; lra.
Qed.

Lemma lt_Fin_false (x y : R) : lt (Fin x) (Fin y) = false <-> y <= x.
Proof.
  unfold lt. destruct (Rlt_dec x y); split; intros; try discriminate;
    auto; lra.
Qed.

Lemma min_Fin (x y : R) : Math.min (Fin x) (Fin y) = Fin (Rmin x y).
Proof.
  unfold Math.min, le, Rmin. destruct (Rle_dec x y); reflexivity.
Qed.

Lemma max_Fin (x y : R) : Math.max (Fin x) (Fin y) = Fin (Rmax x y).
Proof.
  unfold Math.max, le, Rmax. destruct (Rle_dec x y); reflexivity.
Qed.

Lemma truthy_Fin (x : R) : x <> 0 -> truthy (Fin x) = true.
Proof.
  intros Hx. unfold truthy. destruct (Req_dec_T x 0); [contradiction|].
  reflexivity.
Qed.

Lemma if_Fin (b : bool) (x y : R) :
  (if b then Fin x else Fin y) = Fin (if b then x else y).
Proof. destruct b; reflexivity. Qed.

Lemma isFin_inv (a : num) : isFin a -> a = Fin (realOf a).
Proof. destruct a; simpl; intros H; try contradiction. reflexivity. Qed.

(** The tail of both score computations: the SCORE2-OP multiplier, the
    percentage transform and the bounds, on a finite score. *)
Lemma percentage_Fin (b : bool) (s : R) :
  Math.max 0.1
    (Math.min 50
       (mul (sub 1
               (Math.exp
                  (mul (neg (Math.exp (if b then mul (Fin s) 1.2 else Fin s)))
                       (Fin (if b then 0.15 else 0.08)))))
            100))
  = Fin (clamp (pct (if b then 0.15 else 0.08) (s * (if b then 1.2 else 1)))).
Proof.
  destruct b.
  - assert (E : mul (sub 1 (Math.exp (mul (neg (Math.exp (mul (Fin s) 1.2)))
                                          (Fin 0.15)))) 100
                = Fin (pct 0.15 (s * 1.2)))
      by (unfold pct; simpl; f_equal; ring).
    rewrite E, min_Fin, max_Fin. reflexivity.
  - assert (E : mul (sub 1 (Math.exp (mul (neg (Math.exp (Fin s)))
                                          (Fin 0.08)))) 100
                = Fin (pct 0.08 (s * 1)))
      by (unfold pct; simpl; rewrite Rmult_1_r; f_equal; ring).
    rewrite E, min_Fin, max_Fin. reflexivity.
Qed.

(** ** The engine computes the formula *)

(** The HDL block on a finite running score. *)
Lemma orNull_hdl (p : Parameters) :
  hdlOk p ->
  orNull (hdlCholesterol p) =
    match hdlCholesterol p with
    | Some (Fin x) => if Req_dec_T x 0 then None else Some (Fin x)
    | _ => None
    end.
Proof.
  unfold hdlOk, orNull. destruct (hdlCholesterol p) as [[| | |x]|]; simpl;
    try contradiction; try reflexivity.
  intros _. destruct (Req_dec_T x 0); reflexivity.
Qed.

(** What the HDL block adds, as a finite number. *)
Lemma addHdlComponent_add (p : Parameters) (s : num) :
  hdlOk p ->
  addHdlComponent s
    (if (cholesterolUnit p =? "mg/dL")%string
     then hdlToMmol (orNull (hdlCholesterol p))
     else orNull (hdlCholesterol p))
  = s \/
  addHdlComponent s
    (if (cholesterolUnit p =? "mg/dL")%string
     then hdlToMmol (orNull (hdlCholesterol p))
     else orNull (hdlCholesterol p))
  = add s (Fin (hdlTerm p)).
Proof.
  intros Hok. rewrite (orNull_hdl p Hok). unfold hdlTerm, toMmol.
  unfold hdlOk in Hok.
  assert (Hnone : forall u : bool,
             addHdlComponent s (if u then hdlToMmol None else None) = s).
  { intros [|]; reflexivity. }
  destruct (hdlCholesterol p) as [[| | |x]|]; try contradiction;
    try (left; apply Hnone).
  destruct (Req_dec_T x 0) as [E|N]; [left; apply Hnone|].
  assert (Hx : 0 < x) by lra. right.
  destruct (cholesterolUnit p =? "mg/dL")%string.
  - unfold hdlToMmol, addHdlComponent, hdlLogArg.
    rewrite (truthy_Fin x N), div_Fin by lra.
    rewrite truthy_Fin by lra.
    rewrite div_Fin by lra.
    rewrite log_Fin by lra. reflexivity.
  - unfold addHdlComponent, hdlLogArg.
    rewrite (truthy_Fin x N), div_Fin by lra.
    rewrite log_Fin by lra. reflexivity.
Qed.

Lemma addHdlComponent_Fin (p : Parameters) (s : R) :
  hdlOk p ->
  addHdlComponent (Fin s)
    (if (cholesterolUnit p =? "mg/dL")%string
     then hdlToMmol (orNull (hdlCholesterol p))
     else orNull (hdlCholesterol p))
  = Fin (s + hdlTerm p).
Proof.
  intros Hok. rewrite (orNull_hdl p Hok). unfold hdlTerm, toMmol.
  unfold hdlOk in Hok.
  assert (Hnone : forall u : bool,
             addHdlComponent (Fin s) (if u then hdlToMmol None else None)
             = Fin (s + 0)).
  { intros [|]; unfold addHdlComponent; simpl; f_equal; ring. }
  destruct (hdlCholesterol p) as [[| | |x]|]; try contradiction;
    try apply Hnone.
  destruct (Req_dec_T x 0) as [E|N]; [apply Hnone|].
  assert (Hx : 0 < x) by lra.
  destruct (cholesterolUnit p =? "mg/dL")%string.
  - unfold hdlToMmol, addHdlComponent, hdlLogArg.
    rewrite (truthy_Fin x N), div_Fin by lra.
    rewrite truthy_Fin by lra.
    rewrite div_Fin by lra.
    rewrite log_Fin by lra. reflexivity.
  - unfold addHdlComponent, hdlLogArg.
    rewrite (truthy_Fin x N), div_Fin by lra.
    rewrite log_Fin by lra. reflexivity.
Qed.

Lemma addHdlComponent_PInf (p : Parameters) :
  hdlOk p ->
  addHdlComponent PInf
    (if (cholesterolUnit p =? "mg/dL")%string
     then hdlToMmol (orNull (hdlCholesterol p))
     else orNull (hdlCholesterol p))
  = PInf.
Proof.
  intros Hok.
  destruct (addHdlComponent_add p PInf Hok) as [E|E]; rewrite E; reflexivity.
Qed.

Lemma let_pair_if {A B C : Type} (c : bool) (x u : A) (y v : B)
    (f : A -> B -> C) :
  (let '(a, b) := if c then (x, y) else (u, v) in f a b)
  = f (if c then x else u) (if c then y else v).
Proof. destruct c; reflexivity. Qed.

Lemma regionalFactor_Fin (p : Parameters) :
  regionOk p -> regionalFactor (region p) = Fin (regionFactor (region p)).
Proof.
  intros Hr. unfold regionalFactor, regionFactor.
  destruct Hr as [E|[E|[E|E]]]; rewrite E; simpl; f_equal; lra.
Qed.

Lemma regionFactor_pos (p : Parameters) :
  regionOk p -> 0 < regionFactor (region p).
Proof.
  intros Hr. unfold regionFactor.
  destruct Hr as [E|[E|[E|E]]]; rewrite E; simpl; lra.
Qed.

(** The engine on a finite positive total cholesterol. *)
Lemma clampedRisk_finite (p : Parameters) (c : R) :
  valid p -> hdlOk p -> totalCholesterol p = Fin c ->
  clampedRisk p = Fin (clamp (rawRisk p)).
Proof.
  intros (Ha & Hs & Hr & Hsm & Hb & Hc) Hh Ec.
  destruct Ha as [Fa Ra], Hb as [Fb Rb].
  unfold cholOk in Hc. rewrite Ec in Hc.
  remember (clamp (rawRisk p)) as r eqn:Er.
  unfold clampedRisk, normalizeUnits.
  rewrite (isFin_inv _ Fa), (isFin_inv _ Fb), Ec.
  cbv zeta.
  rewrite let_pair_if. rewrite !div_Fin by lra.
  rewrite (if_Fin _ (_ / 38.67) _).
  fold (toMmol (cholesterolUnit p) c).
  assert (Hm : 0 < toMmol (cholesterolUnit p) c)
    by (unfold toMmol; destruct (_ =? _)%string; lra).
  rewrite !div_Fin by lra. rewrite !log_Fin by lra.
  rewrite !if_Fin. cbn [add mul].
  rewrite (addHdlComponent_Fin p _ Hh).
  rewrite (regionalFactor_Fin p Hr).
  replace (if (diabetes p =? "yes")%string then add _ (Fin 0.4) else Fin _)
    with (Fin (linearScore p)).
  2:{ unfold linearScore, ageTerm, sexTerm, smokingTerm, bpTerm, cholTerm,
        diabetesTerm. rewrite Ec. cbn [realOf].
      destruct (diabetes p =? "yes")%string; cbn [add]; f_equal; ring. }
  change (mul (Fin (linearScore p)) (Fin (regionFactor (region p))))
    with (Fin (regionalScore p)).
  rewrite percentage_Fin. subst r. reflexivity.
Qed.

(** The engine on an infinite total cholesterol: the score is [+Infinity]
    and the percentage is cut at 50. *)
Lemma clampedRisk_infinite (p : Parameters) :
  valid p -> hdlOk p -> totalCholesterol p = PInf ->
  clampedRisk p = Fin 50.
Proof.
  intros (Ha & Hs & Hr & Hsm & Hb & Hc) Hh Ec.
  destruct Ha as [Fa Ra], Hb as [Fb Rb].
  unfold clampedRisk, normalizeUnits.
  rewrite (isFin_inv _ Fa), (isFin_inv _ Fb), Ec.
  cbv zeta.
  rewrite let_pair_if. rewrite !div_Fin by lra. rewrite !log_Fin by lra.
  rewrite !if_Fin. cbn [add mul].
  replace (if (cholesterolUnit p =? "mg/dL")%string
           then div PInf (Fin 38.67) else PInf) with PInf.
  2:{ destruct (_ =? _)%string; [|reflexivity]. unfold div.
      destruct (Rlt_dec 38.67 0); [lra|reflexivity]. }
  replace (mul (Math.log (div PInf (Fin 5.0))) (Fin 0.3)) with PInf.
  2:{ unfold div. destruct (Rlt_dec 5.0 0); [lra|]. cbn [Math.log mul].
      unfold scale_inf. destruct (Req_dec_T 0.3 0); [lra|].
      destruct (Rlt_dec 0 0.3); [reflexivity|lra]. }
  cbn [add]. rewrite (addHdlComponent_PInf p Hh).
  rewrite (regionalFactor_Fin p Hr).
  assert (Hf := regionFactor_pos p Hr).
  replace (mul (if (diabetes p =? "yes")%string then add PInf (Fin 0.4)
                else PInf) (Fin (regionFactor (region p)))) with PInf.
  2:{ destruct (diabetes p =? "yes")%string; cbn [add mul];
        unfold scale_inf;
        (destruct (Req_dec_T (regionFactor (region p)) 0); [lra|]);
        (destruct (Rlt_dec 0 (regionFactor (region p))); [reflexivity|lra]). }
  assert (Hs12 : mul PInf (Fin 1.2) = PInf).
  { cbn [mul]. unfold scale_inf. destruct (Req_dec_T 1.2 0); [lra|].
    destruct (Rlt_dec 0 1.2); [reflexivity|lra]. }
  assert (Hb' : forall b : R, 0 < b -> mul NInf (Fin b) = NInf).
  { intros b Hb'. cbn [mul]. unfold scale_inf.
    destruct (Req_dec_T b 0); [lra|].
    destruct (Rlt_dec 0 b); [reflexivity|lra]. }
  destruct (ge _ _); rewrite ?Hs12; cbn [Math.exp neg]; rewrite Hb' by lra;
    cbn [Math.exp sub neg add mul]; rewrite min_Fin, max_Fin; f_equal;
    unfold Rmin, Rmax; repeat destruct (Rle_dec _ _); lra.
Qed.

(** On validated input with an admissible HDL value the engine's clamped
    percentage is the finite number the formula gives. *)
Lemma clampedRisk_Fin (p : Parameters) :
  valid p -> hdlOk p -> clampedRisk p = Fin (risk p).
Proof.
  intros Hv Hh. unfold risk.
  destruct (totalCholesterol p) as [| | |c] eqn:Ec.
  - destruct Hv as (_ & _ & _ & _ & _ & Hc). unfold cholOk in Hc.
    rewrite Ec in Hc. contradiction.
  - apply clampedRisk_infinite; assumption.
  - destruct Hv as (_ & _ & _ & _ & _ & Hc). unfold cholOk in Hc.
    rewrite Ec in Hc. contradiction.
  - apply (clampedRisk_finite p c); assumption.
Qed.

(** ** Bounds on the exponential and the logarithm *)

Section Analysis.

Lemma exp_nat_pow (n : nat) (y : R) : exp y ^ n = exp (INR n * y).
Proof.
  induction n as [|n IH].
  - simpl. rewrite Rmult_0_l, exp_0. reflexivity.
  - rewrite S_INR. simpl pow. rewrite IH, <- exp_plus. f_equal. ring.
Qed.

Lemma exp_le_mono (x y : R) : x <= y -> exp x <= exp y.
Proof.
  intros [H|H]; [left; apply exp_increasing; exact H|subst; apply Rle_refl].
Qed.

Lemma ln_le_mono (x y : R) : 0 < x -> x <= y -> ln x <= ln y.
Proof.
  intros Hx [H|H]; [left; apply ln_increasing; assumption|].
  subst. apply Rle_refl.
Qed.

Lemma ln_lower (a x : R) : exp a <= x -> a <= ln x.
Proof.
  intros H. rewrite <- (ln_exp a). apply ln_le_mono; [apply exp_pos|exact H].
Qed.

Lemma ln_upper (b x : R) : 0 < x -> x <= exp b -> ln x <= b.
Proof.
  intros Hx H. rewrite <- (ln_exp b). apply ln_le_mono; assumption.
Qed.

Lemma ln_nonneg (x : R) : 1 <= x -> 0 <= ln x.
Proof. intros H. apply ln_lower. rewrite exp_0. exact H. Qed.

Lemma ln_nonpos (x : R) : 0 < x -> x <= 1 -> ln x <= 0.
Proof. intros Hx H. apply ln_upper; [exact Hx|]. rewrite exp_0. exact H. Qed.

End Analysis.

(** ** The percentage transform, the bounds and the rounding *)

Section Transform.

Lemma pct_le_mono (b s s' : R) : 0 < b -> s <= s' -> pct b s <= pct b s'.
Proof.
  intros Hb Hs. unfold pct.
  assert (H1 : exp s <= exp s') by (apply exp_le_mono; exact Hs).
  assert (H2 : exp (- exp s' * b) <= exp (- exp s * b)).
  { apply exp_le_mono.
    assert (exp s * b <= exp s' * b)
      by (apply Rmult_le_compat_r; [lra|exact H1]).
    lra. }
  lra.
Qed.

Lemma pct_lt_mono (b s s' : R) : 0 < b -> s < s' -> pct b s < pct b s'.
Proof.
  intros Hb Hs. unfold pct.
  assert (H1 : exp s < exp s') by (apply exp_increasing; exact Hs).
  assert (H2 : exp (- exp s' * b) < exp (- exp s * b)).
  { apply exp_increasing.
    assert (exp s * b < exp s' * b)
      by (apply Rmult_lt_compat_r; [lra|exact H1]).
    lra. }
  lra.
Qed.

Lemma clamp_bounds (x : R) : 0.1 <= clamp x <= 50.
Proof.
  unfold clamp, Rmax, Rmin.
  destruct (Rle_dec 50 x); destruct (Rle_dec _ _); lra.
Qed.

Lemma clamp_le_mono (x y : R) : x <= y -> clamp x <= clamp y.
Proof.
  intros H. unfold clamp, Rmax, Rmin.
  destruct (Rle_dec 50 x); destruct (Rle_dec 50 y);
    repeat destruct (Rle_dec _ _); lra.
Qed.

Lemma roundZ_le_mono (x y : R) :
  x <= y -> (Math.roundZ x <= Math.roundZ y)%Z.
Proof. intros H. unfold Math.roundZ. apply Zfloor_le. lra. Qed.

Lemma roundZ_IZR (z : Z) : Math.roundZ (IZR z) = z.
Proof. unfold Math.roundZ. apply Zfloor_eq. lra. Qed.

Lemma round1_le_mono (x y : R) : x <= y -> round1 x <= round1 y.
Proof.
  intros H. unfold round1.
  assert (Hz : (Math.roundZ (x * 10) <= Math.roundZ (y * 10))%Z)
    by (apply roundZ_le_mono; lra).
  apply IZR_le in Hz. lra.
Qed.

Lemma round1_bounds (x : R) : 0.1 <= x <= 50 -> 0.1 <= round1 x <= 50.
Proof.
  intros [Hl Hu].
  assert (H1 : round1 0.1 <= round1 x) by (apply round1_le_mono; exact Hl).
  assert (H2 : round1 x <= round1 50) by (apply round1_le_mono; exact Hu).
  assert (E1 : round1 0.1 = 0.1).
  { unfold round1. replace (0.1 * 10) with (IZR 1) by lra.
    rewrite roundZ_IZR. lra. }
  assert (E2 : round1 50 = 50).
  { unfold round1. replace (50 * 10) with (IZR 500) by lra.
    rewrite roundZ_IZR. lra. }
  lra.
Qed.

End Transform.

(** ** Non-finite scores *)

Lemma add_NaN_r (a : num) : add a NaN = NaN.
Proof. destruct a; reflexivity. Qed.

(** The tail of the score computation propagates [NaN]. *)
Lemma percentage_NaN (b d : bool) (f : num) :
  Math.max 0.1
    (Math.min 50
       (mul (sub 1
               (Math.exp
                  (mul (neg (Math.exp
                               (if b
                                then mul (mul (if d then add NaN 0.4 else NaN)
                                              f) 1.2
                                else mul (if d then add NaN 0.4 else NaN) f)))
                       (if b then Fin 0.15 else Fin 0.08))))
            100))
  = NaN.
Proof. destruct b, d; reflexivity. Qed.

(** A negative HDL value reaches [Math.log] and makes the clamped percentage
    [NaN], whatever the other inputs are. *)
Lemma clampedRisk_negative_hdl (p : Parameters) (x : R) :
  hdlCholesterol p = Some (Fin x) -> x < 0 -> clampedRisk p = NaN.
Proof.
  intros Eh Hx. unfold clampedRisk, normalizeUnits. cbv zeta.
  rewrite let_pair_if, Eh.
  assert (Hh : forall s : num,
             addHdlComponent s
               (if cholesterolUnit p =? "mg/dL"
                then hdlToMmol (orNull (Some (Fin x)))
                else orNull (Some (Fin x))) = NaN).
  { intros s. unfold orNull. rewrite truthy_Fin by lra.
    assert (Hlog : forall y : R, y < 0 ->
               addHdlComponent s (Some (Fin y)) = NaN).
    { intros y Hy. unfold addHdlComponent, hdlLogArg.
      rewrite truthy_Fin by lra. rewrite div_Fin by lra.
      unfold Math.log. destruct (Rlt_dec (y / 1.3) 0) as [_|N]; [|lra].
      apply add_NaN_r. }
    destruct (cholesterolUnit p =? "mg/dL").
    - unfold hdlToMmol. rewrite truthy_Fin by lra. rewrite div_Fin by lra.
      apply Hlog. lra.
    - apply Hlog. exact Hx. }
  rewrite Hh. apply percentage_NaN.
Qed.

Lemma riskPercentage_negative_hdl (p : Parameters) (x : R) :
  hdlCholesterol p = Some (Fin x) -> x < 0 ->
  riskPercentage (calculateSCORE2Risk p) = NaN.
Proof.
  intros Eh Hx. unfold calculateSCORE2Risk. cbn [riskPercentage].
  rewrite (clampedRisk_negative_hdl p x Eh Hx). reflexivity.
Qed.

Lemma heartAge_negative_hdl (p : Parameters) (x : R) :
  hdlCholesterol p = Some (Fin x) -> x < 0 ->
  heartAge (calculateSCORE2Risk p) = NaN.
Proof.
  intros Eh Hx. unfold calculateSCORE2Risk, calculateHeartAge.
  cbn [heartAge]. cbv zeta.
  rewrite (clampedRisk_negative_hdl p x Eh Hx).
  cbn [div sub neg add mul]. rewrite add_NaN_r. cbn [Math.round Math.min].
  destruct (age p); reflexivity.
Qed.

(** ** The reported percentage (C1) *)

(** Validity of a concrete patient. *)
Ltac prove_valid :=
  unfold valid, ageOk, sexOk, regionOk, smokingOk, bpOk, cholOk, hdlOk;
  simpl; repeat split; auto; try lra.

Lemma risk_bounds (p : Parameters) : 0.1 <= risk p <= 50.
Proof.
  unfold risk. destruct (totalCholesterol p); try apply clamp_bounds. lra.
Qed.

Lemma riskPercentage_Fin (p : Parameters) :
  valid p -> hdlOk p ->
  riskPercentage (calculateSCORE2Risk p) = Fin (round1 (risk p)).
Proof.
  intros Hv Hh. unfold calculateSCORE2Risk. cbn [riskPercentage].
  rewrite (clampedRisk_Fin p Hv Hh). cbn [mul Math.round].
  rewrite div_Fin by lra. reflexivity.
Qed.

(** C1, refuted as stated: the six validation rules hold and the reported
    percentage is [NaN], so neither [0.1 <= riskPercentage] nor
    [riskPercentage <= 50] is true. *)
Lemma C1_negative_hdl_gives_NaN :
  valid negativeHdlPatient
  /\ riskPercentage (calculateSCORE2Risk negativeHdlPatient) = NaN
  /\ ~ (le 0.1 (riskPercentage (calculateSCORE2Risk negativeHdlPatient)) = true
        /\ le (riskPercentage (calculateSCORE2Risk negativeHdlPatient)) 50
           = true).
Proof.
  assert (E : riskPercentage (calculateSCORE2Risk negativeHdlPatient) = NaN).
  { apply (riskPercentage_negative_hdl _ (-1)); [reflexivity|lra]. }
  split; [prove_valid|]. split; [exact E|].
  rewrite E. intros [H _]. discriminate H.
Qed.

(** C1, amended: for every input that passes the six validation rules and
    whose HDL value, if supplied, is a finite number that is not negative,
    the clamped percentage is a finite number in [0.1, 50], and the
    reported [riskPercentage] is that number rounded to one decimal and lies
    in [0.1, 50] too. *)
Theorem C1_riskPercentage_bounds (p : Parameters) :
  valid p -> hdlOk p ->
  clampedRisk p = Fin (risk p)
  /\ riskPercentage (calculateSCORE2Risk p)
     = Fin (IZR (Math.roundZ (risk p * 10)) / 10)
  /\ 0.1 <= risk p <= 50
  /\ le 0.1 (riskPercentage (calculateSCORE2Risk p)) = true
  /\ le (riskPercentage (calculateSCORE2Risk p)) 50 = true.
Proof.
  intros Hv Hh.
  assert (Hb := risk_bounds p).
  assert (Hr := round1_bounds _ Hb).
  split; [apply clampedRisk_Fin; assumption|].
  rewrite (riskPercentage_Fin p Hv Hh).
  split; [reflexivity|]. split; [exact Hb|].
  split; apply le_Fin; apply Hr.
Qed.

Lemma C1_riskPercentage_bounds_witness :
  valid examplePatient /\ hdlOk examplePatient
  /\ le 0.1 (riskPercentage (calculateSCORE2Risk examplePatient)) = true
  /\ le (riskPercentage (calculateSCORE2Risk examplePatient)) 50 = true.
Proof.
  assert (Hv : valid examplePatient) by prove_valid.
  split; [exact Hv|]. split; [exact I|].
  apply (C1_riskPercentage_bounds examplePatient Hv I).
Defined.

(** Replaces every string literal of the goal by a variable: the goals where
    it is used hold whatever the messages are. *)
Ltac abstract_strings :=
  repeat match goal with
         | |- context [String ?a ?s] =>
             let m := fresh "msg" in generalize (String a s); intro m
         end.

(** ** Validation (C9) *)

Lemma range_check (a : num) (lo hi : R) :
  0 < lo -> lo <= hi ->
  negb (truthy a) || lt a lo || gt a hi = negb (le lo a && le a hi).
Proof.
  intros Hlo Hhi. destruct a as [| | |x]; try reflexivity.
  unfold truthy, lt, gt, le, lt.
  destruct (Req_dec_T x 0); destruct (Rlt_dec x lo); destruct (Rlt_dec hi x);
    destruct (Rle_dec lo x); destruct (Rle_dec x hi); simpl;
    try reflexivity; lra.
Qed.

Lemma positive_check (a : num) :
  negb (truthy a) || le a 0 = negb (lt 0 a).
Proof.
  destruct a as [| | |x]; try reflexivity.
  unfold truthy, le, lt.
  destruct (Req_dec_T x 0); destruct (Rle_dec x 0); destruct (Rlt_dec 0 x);
    simpl; try reflexivity; lra.
Qed.

Lemma enum_check (s : string) (l : list string) :
  notStr s || negb (includes l s) = negb (existsb (String.eqb s) l)
  \/ In ""%string l.
Proof.
  unfold notStr, includes. destruct (s =? "")%string eqn:E.
  - apply String.eqb_eq in E. subst s.
    destruct (existsb (String.eqb "") l) eqn:Ex; [|left; reflexivity].
    right. apply existsb_exists in Ex. destruct Ex as (y & Hy & Ey).
    apply String.eqb_eq in Ey. subst y. exact Hy.
  - left. reflexivity.
Qed.

Lemma ageOkb_spec (p : Parameters) : ageOkb p = true <-> ageOk p.
Proof.
  unfold ageOkb, ageOk. rewrite andb_true_iff.
  destruct (age p) as [| | |a]; simpl; try (split; intros [H1 H2];
    try discriminate; contradiction).
  fold (le 40 a) (le a 100). rewrite !le_Fin. tauto.
Qed.

Lemma bpOkb_spec (p : Parameters) : bpOkb p = true <-> bpOk p.
Proof.
  unfold bpOkb, bpOk. rewrite andb_true_iff.
  destruct (systolicBP p) as [| | |a]; simpl; try (split; intros [H1 H2];
    try discriminate; contradiction).
  fold (le 80 a) (le a 250). rewrite !le_Fin. tauto.
Qed.

Lemma cholOkb_spec (p : Parameters) : cholOkb p = true <-> cholOk p.
Proof.
  unfold cholOkb, cholOk.
  destruct (totalCholesterol p) as [| | |a]; simpl;
    try (split; [discriminate|contradiction]);
    try (split; [trivial|reflexivity]).
  fold (lt 0 a). rewrite lt_Fin. tauto.
Qed.

Lemma sexOkb_spec (p : Parameters) : sexOkb p = true <-> sexOk p.
Proof.
  unfold sexOkb, sexOk. rewrite orb_true_iff, !String.eqb_eq. tauto.
Qed.

Lemma regionOkb_spec (p : Parameters) : regionOkb p = true <-> regionOk p.
Proof.
  unfold regionOkb, regionOk. rewrite !orb_true_iff, !String.eqb_eq. tauto.
Qed.

Lemma smokingOkb_spec (p : Parameters) : smokingOkb p = true <-> smokingOk p.
Proof.
  unfold smokingOkb, smokingOk. rewrite orb_true_iff, !String.eqb_eq. tauto.
Qed.

Lemma valid_rules (p : Parameters) :
  valid p <-> forallb (fun r => fst r p) rules = true.
Proof.
  unfold valid, rules. cbn [forallb fst].
  rewrite !andb_true_iff, ageOkb_spec, sexOkb_spec, regionOkb_spec,
    smokingOkb_spec, bpOkb_spec, cholOkb_spec. tauto.
Qed.

Lemma violations_nil (p : Parameters) :
  violations p = [] <-> forallb (fun r => fst r p) rules = true.
Proof.
  unfold violations. induction rules as [|r l IH]; simpl.
  - tauto.
  - destruct (fst r p); simpl.
    + exact IH.
    + split; discriminate.
Qed.

(** C9: the validation returns, in the order of the checks, exactly the
    messages of the violated constraints, one per violated constraint and
    none for a constraint that holds, so every violation is reported; the
    list is empty exactly when all six constraints hold. *)
Theorem C9_validation_collects_all (p : Parameters) :
  validateSCORE2Inputs p = violations p
  /\ List.length (validateSCORE2Inputs p)
     = List.length (filter (fun r => negb (fst r p)) rules)
  /\ (validateSCORE2Inputs p = [] <-> valid p).
Proof.
  assert (E : validateSCORE2Inputs p = violations p).
  { unfold validateSCORE2Inputs, violations, rules. cbv zeta.
    cbn [filter map fst snd].
    rewrite (range_check (age p) 40 100) by lra.
    rewrite (range_check (systolicBP p) 80 250) by lra.
    rewrite positive_check.
    destruct (enum_check (sex p) ["male"; "female"]%string) as [Es|Es];
      [rewrite Es|simpl in Es; intuition discriminate].
    destruct (enum_check (region p)
                ["low"; "moderate"; "high"; "very-high"]%string) as [Er|Er];
      [rewrite Er|simpl in Er; intuition discriminate].
    destruct (enum_check (smoking p) ["smoker"; "non-smoker"]%string)
      as [Em|Em]; [rewrite Em|simpl in Em; intuition discriminate].
    cbn [existsb]. rewrite !orb_false_r.
    fold (ageOkb p) (bpOkb p) (cholOkb p) (sexOkb p) (smokingOkb p).
    replace ((region p =? "low")%string
             || ((region p =? "moderate")%string
                 || ((region p =? "high")%string
                     || (region p =? "very-high")%string)))
      with (regionOkb p)
      by (unfold regionOkb; rewrite !orb_assoc; reflexivity).
    abstract_strings.
    destruct (ageOkb p), (sexOkb p), (regionOkb p), (smokingOkb p),
      (bpOkb p), (cholOkb p); reflexivity. }
  split; [exact E|]. split.
  - rewrite E. unfold violations. apply length_map.
  - rewrite E, violations_nil. symmetry. apply valid_rules.
Qed.

(** Four violations at once (age 30, no sex, pressure 300, cholesterol 0)
    give four messages, in the order of the checks. *)
Example validation_reports_every_violation :
  validateSCORE2Inputs
    (patient 30 "" "moderate" "smoker" 300 0 "mmol/L" None "")
  = [ "Age must be between 40 and 100 years";
      "Sex must be specified as male or female";
      "Systolic blood pressure must be between 80 and 250 mmHg";
      "Total cholesterol must be specified and greater than 0" ]%string.
Proof.
  unfold validateSCORE2Inputs. cbv zeta.
  rewrite (range_check _ 40 100), (range_check _ 80 250), positive_check
    by lra.
  cbn [patient age sex region smoking systolicBP totalCholesterol].
  rewrite (proj2 (le_Fin_false 40 30)) by lra.
  rewrite (proj2 (le_Fin_false 300 250)) by lra.
  rewrite (proj2 (lt_Fin_false 0 0)) by lra.
  rewrite (proj2 (le_Fin 80 300)) by lra.
  reflexivity.
Qed.

(** ** A zero HDL value (C10) *)

Lemma orNull_zero : orNull (Some (Fin 0)) = None.
Proof.
  unfold orNull, truthy. destruct (Req_dec_T 0 0) as [_|N]; [reflexivity|].
  exfalso. apply N. reflexivity.
Qed.

Lemma normalizeUnits_zero (p : Parameters) :
  normalizeUnits (withHdl p (Some (Fin 0))) = normalizeUnits (withHdl p None).
Proof.
  unfold normalizeUnits. cbn [withHdl hdlCholesterol]. rewrite orNull_zero.
  reflexivity.
Qed.

Lemma normalizeUnits_absent (p : Parameters) :
  snd (normalizeUnits (withHdl p None)) = None.
Proof.
  unfold normalizeUnits. cbn [withHdl hdlCholesterol orNull].
  destruct (_ =? _); reflexivity.
Qed.

(** C10: with HDL equal to 0, as with HDL absent or [null], the local
    [hdlChol] is [null] when the HDL block is reached, in the main
    computation and in the reference computation; the block is skipped, so
    no argument is handed to [Math.log] and the score is left as it is; and
    the whole result equals the result without HDL. *)
Theorem C10_zero_hdl_is_omitted (p : Parameters) :
  let zero := withHdl p (Some (Fin 0)) in
  let absent := withHdl p None in
  snd (normalizeUnits zero) = None
  /\ snd (normalizeUnits absent) = None
  /\ snd (normalizeUnits (referenceParams zero)) = None
  /\ snd (normalizeUnits (referenceParams absent)) = None
  /\ hdlLogArg (snd (normalizeUnits zero)) = None
  /\ hdlLogArg (snd (normalizeUnits (referenceParams zero))) = None
  /\ (forall s : num, addHdlComponent s (snd (normalizeUnits zero)) = s)
  /\ clampedRisk zero = clampedRisk absent
  /\ referenceRiskPercentage (referenceParams zero)
     = referenceRiskPercentage (referenceParams absent)
  /\ calculateSCORE2Risk zero = calculateSCORE2Risk absent.
Proof.
  intros zero absent.
  assert (Ez : snd (normalizeUnits zero) = None)
    by (unfold zero; rewrite normalizeUnits_zero;
        apply normalizeUnits_absent).
  assert (Er : normalizeUnits (referenceParams zero)
               = normalizeUnits (referenceParams absent)).
  { unfold normalizeUnits, zero, absent.
    cbn [referenceParams withHdl hdlCholesterol cholesterolUnit
         totalCholesterol]. rewrite orNull_zero. reflexivity. }
  assert (Era : snd (normalizeUnits (referenceParams absent)) = None).
  { unfold normalizeUnits, absent.
    cbn [referenceParams withHdl hdlCholesterol cholesterolUnit orNull].
    destruct (_ =? _); reflexivity. }
  assert (Ec : clampedRisk zero = clampedRisk absent).
  { unfold clampedRisk, zero. rewrite normalizeUnits_zero. reflexivity. }
  assert (Ef : referenceRiskPercentage (referenceParams zero)
               = referenceRiskPercentage (referenceParams absent)).
  { unfold referenceRiskPercentage. rewrite Er. reflexivity. }
  repeat split.
  - exact Ez.
  - apply normalizeUnits_absent.
  - rewrite Er. exact Era.
  - exact Era.
  - rewrite Ez. reflexivity.
  - rewrite Er, Era. reflexivity.
  - intros s. rewrite Ez. reflexivity.
  - exact Ec.
  - exact Ef.
  - unfold calculateSCORE2Risk, calculateHeartAge. cbv zeta.
    rewrite Ec, Ef. reflexivity.
Qed.

(** ** Recommendations (C8) *)

Lemma categorizeRisk_cases (r a : num) :
  categorizeRisk r a = "low"%string \/ categorizeRisk r a = "moderate"%string
  \/ categorizeRisk r a = "high"%string
  \/ categorizeRisk r a = "very-high"%string.
Proof.
  unfold categorizeRisk.
  destruct (lt a 50);
    repeat match goal with |- context [if ?c then _ else _] => destruct c end;
    auto.
Qed.

Lemma generateRecommendations_gates (p : Parameters) (category : string) :
  generateRecommendations p category
  = (smokingGate p ++ pressureGate p ++ cholesterolGate p ++ diabetesGate p
     ++ elevatedGate category ++ lowGate category)%list.
Proof.
  unfold generateRecommendations, smokingGate, pressureGate, cholesterolGate,
    diabetesGate, elevatedGate, lowGate, normalizeUnits, push,
    smokingAdvice, pressureAdvice, pressureMonitorAdvice, cholesterolAdvice,
    diabetesAdvice, lifestyleAdvice, maintenanceAdvice.
  cbv zeta.
  replace (fst (if (cholesterolUnit p =? "mg/dL")%string
                then (div (totalCholesterol p) 38.67,
                      hdlToMmol (orNull (hdlCholesterol p)))
                else (totalCholesterol p, orNull (hdlCholesterol p))))
    with (if (cholesterolUnit p =? "mg/dL")%string
          then div (totalCholesterol p) 38.67 else totalCholesterol p)
    by (destruct (_ =? _)%string; reflexivity).
  generalize (smoking p =? "smoker")%string (diabetes p =? "yes")%string
    ((category =? "moderate")%string || (category =? "high")%string
     || (category =? "very-high")%string) (category =? "low")%string.
  intros b1 b4 b5 b6. abstract_strings.
  destruct b1, b4, b5, b6;
    destruct (gt (systolicBP p) 140); destruct (gt (systolicBP p) 130);
    destruct (gt _ _); reflexivity.
Qed.

(** C8: the recommendations of a result are the contributions of the six
    gates in the fixed order smoking, blood pressure, cholesterol, diabetes,
    category; exactly one of the two category gates contributes; a smoker
    always gets the two quit-smoking strings and a diabetic the three
    diabetes strings, whatever the other fields are. *)
Theorem C8_recommendations_order_and_inclusion (p : Parameters) :
  let result := calculateSCORE2Risk p in
  recommendations result
  = (smokingGate p ++ pressureGate p ++ cholesterolGate p ++ diabetesGate p
     ++ elevatedGate (riskCategory result)
     ++ lowGate (riskCategory result))%list
  /\ ((elevatedGate (riskCategory result) = lifestyleAdvice
       /\ lowGate (riskCategory result) = [])
      \/ (elevatedGate (riskCategory result) = []
          /\ lowGate (riskCategory result) = maintenanceAdvice))
  /\ (smoking p = "smoker"%string ->
      smokingGate p = smokingAdvice
      /\ incl smokingAdvice (recommendations result))
  /\ (diabetes p = "yes"%string ->
      diabetesGate p = diabetesAdvice
      /\ incl diabetesAdvice (recommendations result)).
Proof.
  intros result.
  assert (E : recommendations result
              = (smokingGate p ++ pressureGate p ++ cholesterolGate p
                 ++ diabetesGate p ++ elevatedGate (riskCategory result)
                 ++ lowGate (riskCategory result))%list)
    by apply generateRecommendations_gates.
  split; [exact E|]. split.
  - unfold result, calculateSCORE2Risk. cbn [riskCategory].
    destruct (categorizeRisk_cases (clampedRisk p) (age p))
      as [C|[C|[C|C]]]; rewrite C; [right|left|left|left]; split; reflexivity.
  - split.
    + intros Hs.
      assert (G : smokingGate p = smokingAdvice)
        by (unfold smokingGate; rewrite Hs; reflexivity).
      split; [exact G|]. rewrite E, G. apply incl_appl, incl_refl.
    + intros Hd.
      assert (G : diabetesGate p = diabetesAdvice)
        by (unfold diabetesGate; rewrite Hd; reflexivity).
      split; [exact G|]. rewrite E, G.
      do 3 apply incl_appr. apply incl_appl, incl_refl.
Qed.

(** ** Comparing two inputs *)

Section Comparison.

Variables p q : Parameters.
Hypothesis (Hp : valid p) (Hhp : hdlOk p) (Hq : valid q) (Hhq : hdlOk q).
Hypothesis Hchol : totalCholesterol p = totalCholesterol q.

(** The reported percentages are ordered like the percentages before the
    bounds and the rounding. *)
Lemma reported_le_of_raw_le :
  rawRisk p <= rawRisk q ->
  le (riskPercentage (calculateSCORE2Risk p))
     (riskPercentage (calculateSCORE2Risk q)) = true.
Proof.
  intros H.
  rewrite (riskPercentage_Fin p Hp Hhp), (riskPercentage_Fin q Hq Hhq).
  apply le_Fin, round1_le_mono. unfold risk. rewrite <- Hchol.
  destruct (totalCholesterol p); try (apply clamp_le_mono; exact H).
  apply Rle_refl.
Qed.

Lemma reported_le_of_score_le :
  useOP p = useOP q -> score p <= score q ->
  le (riskPercentage (calculateSCORE2Risk p))
     (riskPercentage (calculateSCORE2Risk q)) = true.
Proof.
  intros Hop Hs. apply reported_le_of_raw_le. unfold rawRisk, baseline.
  rewrite <- Hop. apply pct_le_mono; [destruct (useOP p); lra|exact Hs].
Qed.

End Comparison.

Lemma valid_withRegion (p : Parameters) (rg : string) :
  valid p -> regionOk (withRegion p rg) -> valid (withRegion p rg).
Proof.
  intros (Ha & Hs & _ & Hsm & Hb & Hc) Hr.
  exact (conj Ha (conj Hs (conj Hr (conj Hsm (conj Hb Hc))))).
Qed.

Lemma valid_withSmoking (p : Parameters) (sm : string) :
  valid p -> smokingOk (withSmoking p sm) -> valid (withSmoking p sm).
Proof.
  intros (Ha & Hs & Hr & _ & Hb & Hc) Hsm.
  exact (conj Ha (conj Hs (conj Hr (conj Hsm (conj Hb Hc))))).
Qed.

Lemma valid_withAge (p : Parameters) (a : R) :
  valid p -> 40 <= a <= 100 -> valid (withAge p (Fin a)).
Proof.
  intros (_ & Hs & Hr & Hsm & Hb & Hc) Ha.
  exact (conj (conj I Ha) (conj Hs (conj Hr (conj Hsm (conj Hb Hc))))).
Qed.

Lemma opMultiplier_pos (p : Parameters) : 0 < (if useOP p then 1.2 else 1).
Proof. destruct (useOP p); lra. Qed.

(** ** Regions (C2) *)

Lemma score_withRegion (p : Parameters) (rg : string) :
  score (withRegion p rg)
  = linearScore p * regionFactor rg * (if useOP p then 1.2 else 1).
Proof. reflexivity. Qed.

Lemma region_step (p : Parameters) (x y : string) :
  valid p -> hdlOk p ->
  regionOk (withRegion p x) -> regionOk (withRegion p y) ->
  linearScore p * regionFactor x <= linearScore p * regionFactor y ->
  le (riskPercentage (calculateSCORE2Risk (withRegion p x)))
     (riskPercentage (calculateSCORE2Risk (withRegion p y))) = true.
Proof.
  intros Hv Hh Hx Hy Hs.
  apply reported_le_of_score_le;
    try (apply valid_withRegion; assumption); try exact Hh;
    try reflexivity.
  rewrite !score_withRegion.
  apply Rmult_le_compat_r; [left; apply opMultiplier_pos|exact Hs].
Qed.

Ltac region_ok := unfold regionOk; simpl; auto.

(** C2, amended: when the accumulated score before the regional factor is
    not negative, the reported percentage is ordered
    low <= moderate <= high <= very-high. *)
Theorem C2_region_order_nonnegative_score (p : Parameters) :
  valid p -> hdlOk p -> 0 <= linearScore p ->
  let r := fun rg => riskPercentage (calculateSCORE2Risk (withRegion p rg)) in
  le (r "low"%string) (r "moderate"%string) = true
  /\ le (r "moderate"%string) (r "high"%string) = true
  /\ le (r "high"%string) (r "very-high"%string) = true.
Proof.
  intros Hv Hh Hs r. unfold r.
  repeat split; apply region_step; try assumption; try region_ok;
    unfold regionFactor; simpl; nra.
Qed.

(** For a negative accumulated score the order is the opposite one: a
    larger factor makes the score more negative. *)
Lemma region_order_negative_score (p : Parameters) :
  valid p -> hdlOk p -> linearScore p <= 0 ->
  let r := fun rg => riskPercentage (calculateSCORE2Risk (withRegion p rg)) in
  le (r "very-high"%string) (r "high"%string) = true
  /\ le (r "high"%string) (r "moderate"%string) = true
  /\ le (r "moderate"%string) (r "low"%string) = true.
Proof.
  intros Hv Hh Hs r. unfold r.
  repeat split; apply region_step; try assumption; try region_ok;
    unfold regionFactor; simpl; nra.
Qed.

(** ** Smoking (C4) *)

Lemma linearScore_withSmoking (p : Parameters) :
  smoking p = "smoker"%string ->
  linearScore p = linearScore (withSmoking p "non-smoker") + 0.6.
Proof.
  intros Hs. unfold linearScore, smokingTerm. cbn [withSmoking smoking].
  rewrite Hs. simpl String.eqb.
  change (ageTerm (withSmoking p "non-smoker")) with (ageTerm p).
  change (sexTerm (withSmoking p "non-smoker")) with (sexTerm p).
  change (bpTerm (withSmoking p "non-smoker")) with (bpTerm p).
  change (cholTerm (withSmoking p "non-smoker")) with (cholTerm p).
  change (hdlTerm (withSmoking p "non-smoker")) with (hdlTerm p).
  change (diabetesTerm (withSmoking p "non-smoker")) with (diabetesTerm p).
  cbv iota. ring.
Qed.

(** The bounds of line 92 are applied to [unboundedRisk], which line 89
    computes from [riskScore]. *)
Lemma clampedRisk_unboundedRisk (p : Parameters) :
  clampedRisk p = Math.max 0.1 (Math.min 50 (unboundedRisk p)).
Proof.
  unfold clampedRisk, unboundedRisk, riskScore.
  destruct (normalizeUnits p) as [totalChol hdlChol]. reflexivity.
Qed.

Lemma useScore2OP_useOP (p : Parameters) :
  ageOk p -> ge (age p) 70 = useOP p.
Proof.
  intros [Fa _]. unfold useOP. destruct (age p); try contradiction.
  reflexivity.
Qed.

(** The engine's score on a finite total cholesterol. *)
Lemma riskScore_Fin (p : Parameters) (c : R) :
  valid p -> hdlOk p -> totalCholesterol p = Fin c ->
  riskScore p = Fin (score p).
Proof.
  intros (Ha & Hs & Hr & Hsm & Hb & Hc) Hh Ec.
  assert (Hop := useScore2OP_useOP p Ha).
  destruct Ha as [Fa Ra], Hb as [Fb Rb].
  unfold cholOk in Hc. rewrite Ec in Hc.
  unfold riskScore, normalizeUnits. rewrite Hop.
  remember (score p) as r eqn:Er. remember (useOP p) as op eqn:Eop.
  rewrite (isFin_inv _ Fa), (isFin_inv _ Fb), Ec.
  cbv zeta.
  rewrite let_pair_if. rewrite !div_Fin by lra.
  rewrite (if_Fin _ (_ / 38.67) _).
  fold (toMmol (cholesterolUnit p) c).
  assert (Hm : 0 < toMmol (cholesterolUnit p) c)
    by (unfold toMmol; destruct (_ =? _)%string; lra).
  rewrite !div_Fin by lra. rewrite !log_Fin by lra.
  rewrite !if_Fin. cbn [add mul].
  rewrite (addHdlComponent_Fin p _ Hh).
  rewrite (regionalFactor_Fin p Hr).
  replace (if (diabetes p =? "yes")%string then add _ (Fin 0.4) else Fin _)
    with (Fin (linearScore p)).
  2:{ unfold linearScore, ageTerm, sexTerm, smokingTerm, bpTerm, cholTerm,
        diabetesTerm. rewrite Ec. cbn [realOf].
      destruct (diabetes p =? "yes")%string; cbn [add]; f_equal; ring. }
  change (mul (Fin (linearScore p)) (Fin (regionFactor (region p))))
    with (Fin (regionalScore p)).
  subst r op. unfold score.
  destruct (useOP p); cbn [mul]; f_equal; ring.
Qed.

(** The engine's percentage before the bounds, on a finite total
    cholesterol. *)
Lemma unboundedRisk_Fin (p : Parameters) (c : R) :
  valid p -> hdlOk p -> totalCholesterol p = Fin c ->
  unboundedRisk p = Fin (rawRisk p).
Proof.
  intros Hv Hh Ec. unfold unboundedRisk.
  rewrite (riskScore_Fin p c Hv Hh Ec), (useScore2OP_useOP p (proj1 Hv)).
  unfold rawRisk, baseline, pct.
  destruct (useOP p); cbn [Math.exp neg mul sub add]; f_equal; ring.
Qed.

(** On an infinite total cholesterol the engine's score is [+Infinity]
    whatever the smoking status. *)
Lemma riskScore_infinite (p : Parameters) :
  valid p -> hdlOk p -> totalCholesterol p = PInf -> riskScore p = PInf.
Proof.
  intros (Ha & Hs & Hr & Hsm & Hb & Hc) Hh Ec.
  destruct Ha as [Fa Ra], Hb as [Fb Rb].
  unfold riskScore, normalizeUnits.
  rewrite (isFin_inv _ Fa), (isFin_inv _ Fb), Ec.
  cbv zeta.
  rewrite let_pair_if. rewrite !div_Fin by lra. rewrite !log_Fin by lra.
  rewrite !if_Fin. cbn [add mul].
  replace (if (cholesterolUnit p =? "mg/dL")%string
           then div PInf (Fin 38.67) else PInf) with PInf.
  2:{ destruct (_ =? _)%string; [|reflexivity]. unfold div.
      destruct (Rlt_dec 38.67 0); [lra|reflexivity]. }
  replace (mul (Math.log (div PInf (Fin 5.0))) (Fin 0.3)) with PInf.
  2:{ unfold div. destruct (Rlt_dec 5.0 0); [lra|]. cbn [Math.log mul].
      unfold scale_inf. destruct (Req_dec_T 0.3 0); [lra|].
      destruct (Rlt_dec 0 0.3); [reflexivity|lra]. }
  cbn [add]. rewrite (addHdlComponent_PInf p Hh).
  rewrite (regionalFactor_Fin p Hr).
  assert (Hf := regionFactor_pos p Hr).
  replace (mul (if (diabetes p =? "yes")%string then add PInf (Fin 0.4)
                else PInf) (Fin (regionFactor (region p)))) with PInf.
  2:{ destruct (diabetes p =? "yes")%string; cbn [add mul];
        unfold scale_inf;
        (destruct (Req_dec_T (regionFactor (region p)) 0); [lra|]);
        (destruct (Rlt_dec 0 (regionFactor (region p))); [reflexivity|lra]). }
  destruct (ge _ _); [|reflexivity].
  cbn [mul]. unfold scale_inf. destruct (Req_dec_T 1.2 0); [lra|].
  destruct (Rlt_dec 0 1.2); [reflexivity|lra].
Qed.

Lemma score_withSmoking (p : Parameters) :
  valid p -> smoking p = "smoker"%string ->
  score (withSmoking p "non-smoker") < score p.
Proof.
  intros Hv Hs. unfold score, regionalScore.
  rewrite (linearScore_withSmoking p Hs).
  change (regionFactor (region (withSmoking p "non-smoker")))
    with (regionFactor (region p)).
  change (useOP (withSmoking p "non-smoker")) with (useOP p).
  assert (Hf := regionFactor_pos p (proj1 (proj2 (proj2 Hv)))).
  assert (Hm := opMultiplier_pos p).
  apply Rmult_lt_compat_r; [exact Hm|].
  apply Rmult_lt_compat_r; [exact Hf|]. lra.
Qed.

(** In the exact arithmetic of this file the percentage before the bounds
    strictly decreases too when the total cholesterol is finite.  (In
    binary64 it is rounded to 100, or to 0, for both when the score is very
    large, or very negative; C4 below only states that it does not
    increase.) *)
Lemma quitting_lowers_unboundedRisk (p : Parameters) (c : R) :
  valid p -> hdlOk p -> smoking p = "smoker"%string ->
  totalCholesterol p = Fin c ->
  exists x y : R,
    unboundedRisk (withSmoking p "non-smoker") = Fin x
    /\ unboundedRisk p = Fin y /\ x < y.
Proof.
  intros Hv Hh Hs Ec.
  assert (Hvq : valid (withSmoking p "non-smoker"))
    by (apply valid_withSmoking; [exact Hv|right; reflexivity]).
  exists (rawRisk (withSmoking p "non-smoker")), (rawRisk p).
  split; [exact (unboundedRisk_Fin _ c Hvq Hh Ec)|].
  split; [exact (unboundedRisk_Fin p c Hv Hh Ec)|].
  unfold rawRisk.
  change (baseline (withSmoking p "non-smoker")) with (baseline p).
  apply pct_lt_mono; [unfold baseline; destruct (useOP p); lra|].
  apply score_withSmoking; assumption.
Qed.

(** C4, amended: for a smoker, switching to non-smoker with every other
    field fixed never increases the reported percentage.  Before the bounds
    and the rounding the engine's own locals are compared: [riskScore]
    (line 84) and [unboundedRisk] (line 89), to which line 92 applies the
    bounds.  For a finite total cholesterol both are finite numbers, the
    score strictly decreases and the percentage before the bounds does not
    increase.  For an infinite total cholesterol, which the validation lets
    through, the score is [+Infinity] for the smoker and the non-smoker
    alike and the percentage before the bounds does not change. *)
Theorem C4_quitting_never_increases (p : Parameters) :
  valid p -> hdlOk p -> smoking p = "smoker"%string ->
  let q := withSmoking p "non-smoker" in
  le (riskPercentage (calculateSCORE2Risk q))
     (riskPercentage (calculateSCORE2Risk p)) = true
  /\ clampedRisk p = Math.max 0.1 (Math.min 50 (unboundedRisk p))
  /\ clampedRisk q = Math.max 0.1 (Math.min 50 (unboundedRisk q))
  /\ (isFin (totalCholesterol p) ->
      isFin (riskScore q) /\ isFin (riskScore p)
      /\ lt (riskScore q) (riskScore p) = true
      /\ isFin (unboundedRisk q) /\ isFin (unboundedRisk p)
      /\ le (unboundedRisk q) (unboundedRisk p) = true)
  /\ (totalCholesterol p = PInf ->
      riskScore q = PInf /\ riskScore p = PInf
      /\ unboundedRisk q = unboundedRisk p).
Proof.
  intros Hv Hh Hs q.
  assert (Hvq : valid q)
    by (apply valid_withSmoking; [exact Hv|right; reflexivity]).
  assert (Hlt : score q < score p) by (apply score_withSmoking; assumption).
  split.
  { apply reported_le_of_score_le; try assumption; try reflexivity.
    left. exact Hlt. }
  split; [apply clampedRisk_unboundedRisk|].
  split; [apply clampedRisk_unboundedRisk|].
  split.
  - intros Fc. apply isFin_inv in Fc.
    rewrite (riskScore_Fin q _ Hvq Hh Fc), (riskScore_Fin p _ Hv Hh Fc).
    rewrite (unboundedRisk_Fin q _ Hvq Hh Fc),
      (unboundedRisk_Fin p _ Hv Hh Fc).
    split; [exact I|]. split; [exact I|].
    split; [apply lt_Fin; exact Hlt|].
    split; [exact I|]. split; [exact I|].
    apply le_Fin. unfold rawRisk. change (baseline q) with (baseline p).
    apply pct_le_mono; [unfold baseline; destruct (useOP p); lra|].
    left. exact Hlt.
  - intros Ec.
    assert (Eq : riskScore q = PInf)
      by (apply riskScore_infinite; [exact Hvq|exact Hh|exact Ec]).
    assert (Ep : riskScore p = PInf)
      by (apply riskScore_infinite; assumption).
    split; [exact Eq|]. split; [exact Ep|].
    unfold unboundedRisk. rewrite Eq, Ep. reflexivity.
Qed.

(** ** Age (C3) *)

Lemma regionalScore_withAge (p : Parameters) (a a' : R) :
  valid p -> age p = Fin a -> a <= a' ->
  regionalScore p <= regionalScore (withAge p (Fin a')).
Proof.
  intros Hv Ea Hlt.
  assert (Ha : 40 <= a).
  { destruct Hv as ((_ & Ha) & _). rewrite Ea in Ha. simpl in Ha. lra. }
  assert (Hf := regionFactor_pos p (proj1 (proj2 (proj2 Hv)))).
  unfold regionalScore.
  change (regionFactor (region (withAge p (Fin a'))))
    with (regionFactor (region p)).
  apply Rmult_le_compat_r; [lra|].
  unfold linearScore.
  change (sexTerm (withAge p (Fin a'))) with (sexTerm p).
  change (smokingTerm (withAge p (Fin a'))) with (smokingTerm p).
  change (bpTerm (withAge p (Fin a'))) with (bpTerm p).
  change (cholTerm (withAge p (Fin a'))) with (cholTerm p).
  change (hdlTerm (withAge p (Fin a'))) with (hdlTerm p).
  change (diabetesTerm (withAge p (Fin a'))) with (diabetesTerm p).
  assert (Hage : ageTerm p <= ageTerm (withAge p (Fin a'))).
  { unfold ageTerm. cbn [withAge age sex realOf]. rewrite Ea. cbn [realOf].
    assert (Hln : ln (a / 40) <= ln (a' / 40)) by (apply ln_le_mono; lra).
    destruct (sex p =? "male")%string; nra. }
  lra.
Qed.

(** Across the switch at 70 the percentage does not drop as long as the
    score is at least [5 * ln (8/15)], about -3.14: there the larger
    baseline outweighs the multiplier 1.2 applied to a negative score. *)
Lemma pct_across_switch (s s' : R) :
  s <= s' -> 5 * ln (8 / 15) <= s' -> pct 0.08 s <= pct 0.15 (s' * 1.2).
Proof.
  intros Hs Hb. unfold pct.
  assert (H1 : exp s <= exp s') by (apply exp_le_mono; exact Hs).
  assert (H2 : 8 / 15 <= exp (s' * 0.2)).
  { rewrite <- (exp_ln (8 / 15)) by lra. apply exp_le_mono. lra. }
  assert (H3 : exp (s' * 1.2) = exp s' * exp (s' * 0.2)).
  { rewrite <- exp_plus. f_equal. lra. }
  assert (H4 := exp_pos s). assert (H5 := exp_pos s').
  assert (H6 : exp (- exp (s' * 1.2) * 0.15) <= exp (- exp s * 0.08)).
  { apply exp_le_mono. rewrite H3. nra. }
  lra.
Qed.

(** C3, amended: for two ages [a < a'] the reported percentage at [a'] is
    at least the one at [a] when both ages lie on the same side of 70, and
    for a pair straddling 70 when the score at [a'] after the regional
    factor (before the multiplier 1.2) is at least [5 * ln (8/15)]. *)
Theorem C3_age_monotone (p : Parameters) (a a' : R) :
  valid p -> hdlOk p -> age p = Fin a -> a < a' <= 100 ->
  (a' < 70 \/ 70 <= a
   \/ 5 * ln (8 / 15) <= regionalScore (withAge p (Fin a'))) ->
  le (riskPercentage (calculateSCORE2Risk p))
     (riskPercentage (calculateSCORE2Risk (withAge p (Fin a')))) = true.
Proof.
  intros Hv Hh Ea Haa Hside.
  assert (Ha : 40 <= a).
  { destruct Hv as ((_ & Ha) & _). rewrite Ea in Ha. simpl in Ha. lra. }
  assert (Hvq : valid (withAge p (Fin a')))
    by (apply valid_withAge; [exact Hv|lra]).
  assert (Hrs := regionalScore_withAge p a a' Hv Ea ltac:(lra)).
  assert (Hop : useOP p = (if Rle_dec 70 a then true else false))
    by (unfold useOP; rewrite Ea; reflexivity).
  assert (Hoq : useOP (withAge p (Fin a'))
                = (if Rle_dec 70 a' then true else false)) by reflexivity.
  destruct (Rle_dec 70 a) as [Ola|Ola]; destruct (Rle_dec 70 a') as [Olb|Olb];
    try lra.
  - apply reported_le_of_score_le; try assumption; try reflexivity.
    + rewrite Hop, Hoq. reflexivity.
    + unfold score. rewrite Hop, Hoq. lra.
  - apply reported_le_of_raw_le; try assumption; try reflexivity.
    unfold rawRisk, baseline, score. rewrite Hop, Hoq.
    rewrite Rmult_1_r. apply pct_across_switch; [exact Hrs|].
    destruct Hside as [H|[H|H]]; [lra|lra|exact H].
  - apply reported_le_of_score_le; try assumption; try reflexivity.
    + rewrite Hop, Hoq. reflexivity.
    + unfold score. rewrite Hop, Hoq. lra.
Qed.

(** ** Numeric enclosures

    Rational bounds on [exp], [ln] and the percentage transform, through
    the integer bounds [expDown]. *)

Section Dyadic.

Lemma scale_pos : 0 < IZR scale.
Proof. apply IZR_lt. reflexivity. Qed.

Lemma sqDown_ok (m : Z) (y : R) :
  (0 <= m)%Z -> IZR m / IZR scale <= y ->
  (0 <= sqDown m)%Z /\ IZR (sqDown m) / IZR scale <= y * y.
Proof.
  intros Hm Hy. unfold sqDown.
  assert (Hs : (0 < scale)%Z) by reflexivity.
  split; [apply Z.div_pos; [nia|exact Hs]|].
  assert (H1 : (scale * (m * m / scale) <= m * m)%Z)
    by (apply Z.mul_div_le; exact Hs).
  apply IZR_le in H1. rewrite !mult_IZR in H1.
  assert (HS := scale_pos).
  assert (Hm' : 0 <= IZR m) by (apply IZR_le; exact Hm).
  set (S := IZR scale) in *. set (q := IZR (m * m / scale)) in *.
  set (M := IZR m) in *.
  assert (H0 : 0 <= M / S).
  { unfold Rdiv. apply Rmult_le_pos; [lra|].
    left. apply Rinv_0_lt_compat. lra. }
  apply Rle_trans with (M / S * (M / S)); [|nra].
  apply Rmult_le_reg_r with (S * S); [nra|].
  replace (q / S * (S * S)) with (S * q) by (field; lra).
  replace (M / S * (M / S) * (S * S)) with (M * M) by (field; lra).
  exact H1.
Qed.

Lemma powDown_ok (k : nat) : forall (m : Z) (y : R),
  (0 <= m)%Z -> IZR m / IZR scale <= y ->
  (0 <= powDown k m)%Z /\ IZR (powDown k m) / IZR scale <= y ^ (2 ^ k).
Proof.
  induction k as [|k IH]; intros m y Hm Hy.
  - simpl. split; [exact Hm|lra].
  - destruct (sqDown_ok m y Hm Hy) as [H0 H1].
    destruct (IH (sqDown m) (y * y) H0 H1) as [H2 H3].
    simpl powDown. split; [exact H2|].
    replace (y ^ (2 ^ S k)) with ((y * y) ^ (2 ^ k)); [exact H3|].
    rewrite Nat.pow_succ_r', pow_mult. f_equal. simpl. ring.
Qed.

Lemma INR_pow2 (k : nat) : INR (2 ^ k) = IZR (2 ^ Z.of_nat k).
Proof.
  rewrite INR_IZR_INZ. f_equal. rewrite Nat2Z.inj_pow. reflexivity.
Qed.

Lemma exp_lower_dyadic (k : nat) (xs : Z) (x : R) :
  IZR xs / IZR scale <= x ->
  (0 <=? scale + xs / 2 ^ Z.of_nat k)%Z = true ->
  IZR (expDown k xs) / IZR scale <= exp x.
Proof.
  intros Hx Hpos. apply Z.leb_le in Hpos. unfold expDown.
  assert (HS := scale_pos).
  assert (Hp : (0 < 2 ^ Z.of_nat k)%Z) by (apply Z.pow_pos_nonneg; lia).
  assert (Hn : 0 < INR (2 ^ k)) by (rewrite INR_pow2; apply IZR_lt; exact Hp).
  assert (H1 : IZR (scale + xs / 2 ^ Z.of_nat k) / IZR scale
               <= exp (x / INR (2 ^ k))).
  { apply Rle_trans with (1 + x / INR (2 ^ k)); [|apply exp_ineq1_le].
    rewrite plus_IZR.
    assert (Hd : (2 ^ Z.of_nat k * (xs / 2 ^ Z.of_nat k) <= xs)%Z)
      by (apply Z.mul_div_le; exact Hp).
    apply IZR_le in Hd. rewrite mult_IZR, <- INR_pow2 in Hd.
    set (N := INR (2 ^ k)) in *. set (d := IZR (xs / 2 ^ Z.of_nat k)) in *.
    set (S := IZR scale) in *.
    replace ((S + d) / S) with (1 + d / S) by (field; lra).
    apply Rplus_le_compat_l.
    apply Rmult_le_reg_r with (N * S); [nra|].
    replace (d / S * (N * S)) with (N * d) by (field; lra).
    replace (x / N * (N * S)) with (x * S) by (field; lra).
    apply Rle_trans with (IZR xs); [exact Hd|].
    apply Rmult_le_reg_r with (/ S); [apply Rinv_0_lt_compat; lra|].
    replace (x * S * / S) with x by (field; lra). exact Hx. }
  destruct (powDown_ok k _ _ Hpos H1) as [H2 H3].
  rewrite exp_nat_pow in H3.
  replace (INR (2 ^ k) * (x / INR (2 ^ k))) with x in H3 by (field; lra).
  exact H3.
Qed.

Lemma exp_upper_dyadic (k : nat) (xs : Z) (x : R) :
  x <= IZR xs / IZR scale ->
  (0 <=? scale + - xs / 2 ^ Z.of_nat k)%Z = true ->
  (0 <? expDown k (- xs))%Z = true ->
  exp x <= IZR scale / IZR (expDown k (- xs)).
Proof.
  intros Hx Hpos Hd. apply Z.ltb_lt in Hd. apply IZR_lt in Hd.
  assert (HS := scale_pos).
  assert (Hl : IZR (expDown k (- xs)) / IZR scale <= exp (- x)).
  { apply exp_lower_dyadic; [|exact Hpos].
    rewrite opp_IZR. unfold Rdiv in *. lra. }
  rewrite exp_Ropp in Hl. assert (He := exp_pos x).
  set (D := IZR (expDown k (- xs))) in *. set (S := IZR scale) in *.
  apply Rmult_le_reg_r with (D / S).
  - unfold Rdiv. apply Rmult_lt_0_compat; [lra|].
    apply Rinv_0_lt_compat. lra.
  - replace (S / D * (D / S)) with 1 by (field; lra).
    apply Rle_trans with (exp x * / exp x); [|right; field; lra].
    apply Rmult_le_compat_l; lra.
Qed.

End Dyadic.

(** Evaluates the integer bounds in the goal and closes it by linear
    arithmetic. *)
Ltac dyadic :=
  repeat match goal with
         | |- context [IZR ?z] =>
             let v := eval vm_compute in z in
             progress (change z with v)
         end;
  lra.

(** [exp_ge num den]: a goal [c <= exp t] from [num / den <= t]. *)
Ltac exp_ge num den :=
  let xs := constr:((num * scale / den)%Z) in
  apply Rle_trans with (IZR (expDown 20 xs) / IZR scale);
  [dyadic|apply exp_lower_dyadic; [dyadic|vm_compute; reflexivity]].

(** [exp_le num den]: a goal [exp t <= c] from [t <= num / den]. *)
Ltac exp_le num den :=
  let xs := constr:((- (- num * scale / den))%Z) in
  apply Rle_trans with (IZR scale / IZR (expDown 20 (- xs)));
  [apply exp_upper_dyadic;
   [dyadic|vm_compute; reflexivity|vm_compute; reflexivity]
  |dyadic].

Section PercentageBounds.

Variables b s e : R.
Hypothesis Hb : 0 < b.

Lemma pct_lower (u r : R) :
  0 <= e -> e <= exp s -> exp (- (e * b)) <= u -> r <= (1 - u) * 100 ->
  r <= pct b s.
Proof.
  intros He0 He Hu Hr. unfold pct.
  assert (H : exp (- exp s * b) <= exp (- (e * b)))
    by (apply exp_le_mono; nra).
  lra.
Qed.

Lemma pct_upper (l r : R) :
  exp s <= e -> l <= exp (- (e * b)) -> (1 - l) * 100 <= r ->
  pct b s <= r.
Proof.
  intros He Hl Hr. unfold pct.
  assert (H : exp (- (e * b)) <= exp (- exp s * b))
    by (apply exp_le_mono; nra).
  lra.
Qed.

End PercentageBounds.

(** ** Reading off the reported values *)

Lemma roundZ_eq (k : Z) (x : R) :
  IZR k - / 2 <= x < IZR k + / 2 -> Math.roundZ x = k.
Proof. intros H. unfold Math.roundZ. apply Zfloor_eq. lra. Qed.

(** The reported percentage is [k / 10] when the clamped percentage lies
    in the rounding interval of [k / 10]. *)
Lemma reported_value (p : Parameters) (k : Z) :
  valid p -> hdlOk p ->
  IZR k - / 2 <= risk p * 10 < IZR k + / 2 ->
  riskPercentage (calculateSCORE2Risk p) = Fin (IZR k / 10).
Proof.
  intros Hv Hh Hk. rewrite (riskPercentage_Fin p Hv Hh). unfold round1.
  rewrite (roundZ_eq k _ Hk). reflexivity.
Qed.

Lemma clamp_inside (x : R) : 0.1 <= x <= 50 -> clamp x = x.
Proof.
  intros H. unfold clamp, Rmax, Rmin.
  destruct (Rle_dec 50 x); destruct (Rle_dec _ _); lra.
Qed.

Lemma clamp_above (x : R) : 50 <= x -> clamp x = 50.
Proof.
  intros H. unfold clamp, Rmax, Rmin.
  destruct (Rle_dec 50 x); destruct (Rle_dec _ _); lra.
Qed.

Lemma risk_finite (p : Parameters) (c : R) :
  totalCholesterol p = Fin c -> risk p = clamp (rawRisk p).
Proof. intros E. unfold risk. rewrite E. reflexivity. Qed.

(** ** A negative score: the regional order reversed (C2) *)

Lemma ln_two_thirds : -0.405469 <= ln (80 / 120) <= -0.405462.
Proof.
  split.
  - apply ln_lower. exp_le (-405469)%Z 1000000%Z.
  - apply ln_upper; [lra|]. exp_ge (-405462)%Z 1000000%Z.
Qed.

Lemma lowPressure_rawRisk (rg : string) :
  rawRisk (lowPressurePatient rg)
  = pct 0.08 (ln (80 / 120) * 0.4 * regionFactor rg).
Proof.
  unfold rawRisk, baseline, score, regionalScore, linearScore, ageTerm,
    sexTerm, smokingTerm, bpTerm, cholTerm, hdlTerm, diabetesTerm, useOP,
    toMmol.
  cbn [lowPressurePatient patient age sex region smoking systolicBP
       totalCholesterol cholesterolUnit hdlCholesterol diabetes realOf].
  simpl String.eqb. cbv iota.
  destruct (Rle_dec 70 40) as [H|_]; [lra|].
  replace (40 / 40) with 1 by lra. replace (5.0 / 5.0) with 1 by lra.
  rewrite ln_1. f_equal. ring.
Qed.

Lemma lowPressure_low :
  riskPercentage (calculateSCORE2Risk (lowPressurePatient "low")) = Fin 6.9.
Proof.
  replace 6.9 with (IZR 69 / 10) by lra.
  apply reported_value; [prove_valid|exact I|].
  rewrite (risk_finite _ 5.0) by reflexivity.
  rewrite lowPressure_rawRisk. unfold regionFactor. simpl String.eqb.
  cbv iota. destruct ln_two_thirds as [Hl Hu].
  assert (H1 : 6.892 <= pct 0.08 (ln (80 / 120) * 0.4 * 0.7)).
  { apply (pct_lower 0.08 _ 0.8926742 ltac:(lra) 0.9310784); [lra| | |lra].
    - exp_ge (-1135314)%Z 10000000%Z.
    - exp_le (-71413936)%Z 1000000000%Z. }
  assert (H2 : pct 0.08 (ln (80 / 120) * 0.4 * 0.7) <= 6.893).
  { apply (pct_upper 0.08 _ 0.8926800 ltac:(lra) 0.9310740).
    - exp_le (-1135293)%Z 10000000%Z.
    - exp_ge (-71414400)%Z 1000000000%Z.
    - lra. }
  rewrite clamp_inside by lra. lra.
Qed.

Lemma lowPressure_veryHigh :
  riskPercentage (calculateSCORE2Risk (lowPressurePatient "very-high"))
  = Fin 5.8.
Proof.
  replace 5.8 with (IZR 58 / 10) by lra.
  apply reported_value; [prove_valid|exact I|].
  rewrite (risk_finite _ 5.0) by reflexivity.
  rewrite lowPressure_rawRisk. unfold regionFactor. simpl String.eqb.
  cbv iota. destruct ln_two_thirds as [Hl Hu].
  assert (H1 : 5.799 <= pct 0.08 (ln (80 / 120) * 0.4 * 1.8)).
  { apply (pct_lower 0.08 _ 0.7468134 ltac:(lra) 0.9420067); [lra| | |lra].
    - exp_ge (-2919377)%Z 10000000%Z.
    - exp_le (-59745072)%Z 1000000000%Z. }
  assert (H2 : pct 0.08 (ln (80 / 120) * 0.4 * 1.8) <= 5.8).
  { apply (pct_upper 0.08 _ 0.7468205 ltac:(lra) 0.9420021).
    - exp_le (-2919326)%Z 10000000%Z.
    - exp_ge (-59745640)%Z 1000000000%Z.
    - lra. }
  rewrite clamp_inside by lra. lra.
Qed.

Lemma le_trans_num (a b c : num) :
  le a b = true -> le b c = true -> le a c = true.
Proof.
  destruct a as [| | |x], b as [| | |y], c as [| | |z]; simpl;
    try discriminate; try reflexivity.
  fold (le x y) (le y z) (le x z). rewrite !le_Fin. lra.
Qed.

(** C2, refuted as stated: the patient passes validation in every region
    and is reported 6.9 in the low region and 5.8 in the very-high region,
    so [low <= moderate <= high <= very-high] fails.  With a negative HDL
    value every reported percentage is [NaN] and no comparison holds. *)
Lemma C2_region_order_fails :
  valid (lowPressurePatient "low")
  /\ valid (lowPressurePatient "very-high")
  /\ riskPercentage (calculateSCORE2Risk (lowPressurePatient "low")) = Fin 6.9
  /\ riskPercentage (calculateSCORE2Risk (lowPressurePatient "very-high"))
     = Fin 5.8
  /\ ~ (le (riskPercentage (calculateSCORE2Risk (lowPressurePatient "low")))
           (riskPercentage
              (calculateSCORE2Risk (lowPressurePatient "moderate"))) = true
        /\ le (riskPercentage
                 (calculateSCORE2Risk (lowPressurePatient "moderate")))
              (riskPercentage
                 (calculateSCORE2Risk (lowPressurePatient "high"))) = true
        /\ le (riskPercentage
                 (calculateSCORE2Risk (lowPressurePatient "high")))
              (riskPercentage
                 (calculateSCORE2Risk (lowPressurePatient "very-high")))
           = true)
  /\ valid negativeHdlPatient
  /\ le (riskPercentage
           (calculateSCORE2Risk (withRegion negativeHdlPatient "low")))
        (riskPercentage
           (calculateSCORE2Risk (withRegion negativeHdlPatient "moderate")))
     = false.
Proof.
  split; [prove_valid|]. split; [prove_valid|].
  split; [exact lowPressure_low|]. split; [exact lowPressure_veryHigh|].
  split.
  - intros (H1 & H2 & H3).
    assert (H := le_trans_num _ _ _ (le_trans_num _ _ _ H1 H2) H3).
    rewrite lowPressure_low, lowPressure_veryHigh in H.
    apply le_Fin in H. lra.
  - split; [prove_valid|].
    rewrite (riskPercentage_negative_hdl _ (-1)); [reflexivity|reflexivity|lra].
Qed.

Lemma C2_region_order_nonnegative_score_witness :
  let p := patient 55 "male" "moderate" "non-smoker" 130 5.0 "mmol/L" None "no"
  in valid p /\ hdlOk p /\ 0 <= linearScore p
     /\ le (riskPercentage (calculateSCORE2Risk (withRegion p "low")))
           (riskPercentage (calculateSCORE2Risk (withRegion p "moderate")))
        = true.
Proof.
  intros p.
  assert (Hv : valid p) by prove_valid.
  assert (Hs : 0 <= linearScore p).
  { unfold linearScore, ageTerm, sexTerm, smokingTerm, bpTerm, cholTerm,
      hdlTerm, diabetesTerm, toMmol. simpl.
    assert (H1 : 0 <= ln (55 / 40)) by (apply ln_nonneg; lra).
    assert (H2 : 0 <= ln (130 / 120)) by (apply ln_nonneg; lra).
    assert (H3 : 0 <= ln (5.0 / 5.0)) by (apply ln_nonneg; lra).
    lra. }
  split; [exact Hv|]. split; [exact I|]. split; [exact Hs|].
  apply (C2_region_order_nonnegative_score p Hv I Hs).
Defined.

(** ** A percentage at the upper bound: smoking makes no difference (C4) *)

Lemma ln_seven_fourths : 0.559612 <= ln (70 / 40) <= 0.559619.
Proof.
  split.
  - apply ln_lower. exp_le (559612)%Z 1000000%Z.
  - apply ln_upper; [lra|]. exp_ge (559619)%Z 1000000%Z.
Qed.

Lemma ln_unit (x : R) : x <> 0 -> ln (x / x) = 0.
Proof.
  intros Hx. replace (x / x) with 1 by (field; exact Hx). apply ln_1.
Qed.

Lemma saturated_rawRisk (sm : string) :
  rawRisk (saturatedPatient sm)
  = pct 0.15 ((ln (70 / 40) * 0.8 + 0.5
               + (if (sm =? "smoker")%string then 0.6 else 0)) * 1.8 * 1.2).
Proof.
  unfold rawRisk, baseline, score, regionalScore, linearScore, ageTerm,
    sexTerm, smokingTerm, bpTerm, cholTerm, hdlTerm, diabetesTerm, useOP,
    toMmol, regionFactor.
  cbn [saturatedPatient patient age sex region smoking systolicBP
       totalCholesterol cholesterolUnit hdlCholesterol diabetes realOf].
  simpl (String.eqb "male" _). simpl (String.eqb "very-high" _).
  simpl (String.eqb "mmol/L" _). simpl (String.eqb "no" _). cbv iota.
  destruct (Rle_dec 70 70) as [_|H]; [|lra].
  rewrite !ln_unit by lra. f_equal. ring.
Qed.

Lemma saturated_value (sm : string) :
  smokingOk (saturatedPatient sm) ->
  riskPercentage (calculateSCORE2Risk (saturatedPatient sm)) = Fin 50.
Proof.
  intros Hsm.
  replace 50 with (IZR 500 / 10) by lra.
  apply reported_value; [prove_valid; exact Hsm|exact I|].
  rewrite (risk_finite _ 5.0) by reflexivity.
  rewrite saturated_rawRisk. destruct ln_seven_fourths as [Hl Hu].
  assert (H : 50 <= pct 0.15
                       ((ln (70 / 40) * 0.8 + 0.5
                         + (if (sm =? "smoker")%string then 0.6 else 0))
                        * 1.8 * 1.2)).
  { apply (pct_lower 0.15 _ 7.7446772 ltac:(lra) 0.3129536); [lra| | |lra].
    - destruct (sm =? "smoker")%string; exp_ge (2047009)%Z 1000000%Z.
    - exp_le (-1161701580)%Z 1000000000%Z. }
  rewrite clamp_above by exact H. lra.
Qed.

(** C4, refuted as stated: a smoker whose percentage sits at the upper
    bound is reported 50, and 50 again as a non-smoker.  With a negative HDL
    value both reported percentages are [NaN] and the comparison is
    false. *)
Lemma C4_quitting_not_strict :
  valid (saturatedPatient "smoker")
  /\ smoking (saturatedPatient "smoker") = "smoker"%string
  /\ withSmoking (saturatedPatient "smoker") "non-smoker"
     = saturatedPatient "non-smoker"
  /\ riskPercentage (calculateSCORE2Risk (saturatedPatient "smoker")) = Fin 50
  /\ riskPercentage (calculateSCORE2Risk (saturatedPatient "non-smoker"))
     = Fin 50
  /\ lt (riskPercentage (calculateSCORE2Risk (saturatedPatient "non-smoker")))
        (riskPercentage (calculateSCORE2Risk (saturatedPatient "smoker")))
     = false
  /\ valid (withSmoking negativeHdlPatient "smoker")
  /\ lt (riskPercentage
           (calculateSCORE2Risk
              (withSmoking (withSmoking negativeHdlPatient "smoker")
                           "non-smoker")))
        (riskPercentage
           (calculateSCORE2Risk (withSmoking negativeHdlPatient "smoker")))
     = false.
Proof.
  assert (E1 := saturated_value "smoker" (or_introl eq_refl)).
  assert (E2 := saturated_value "non-smoker" (or_intror eq_refl)).
  split; [prove_valid|]. split; [reflexivity|]. split; [reflexivity|].
  split; [exact E1|]. split; [exact E2|]. split.
  - rewrite E1, E2. apply lt_Fin_false. lra.
  - split; [prove_valid|].
    rewrite (riskPercentage_negative_hdl _ (-1)); [reflexivity|reflexivity|lra].
Qed.

Lemma C4_quitting_never_increases_witness :
  let p := patient 55 "male" "moderate" "smoker" 130 5.0 "mmol/L" None "no" in
  valid p /\ hdlOk p /\ smoking p = "smoker"%string
  /\ le (riskPercentage (calculateSCORE2Risk (withSmoking p "non-smoker")))
        (riskPercentage (calculateSCORE2Risk p)) = true
  /\ lt (riskScore (withSmoking p "non-smoker")) (riskScore p) = true
  /\ le (unboundedRisk (withSmoking p "non-smoker")) (unboundedRisk p)
     = true.
Proof.
  intros p.
  assert (Hv : valid p) by prove_valid.
  split; [exact Hv|]. split; [exact I|]. split; [reflexivity|].
  destruct (C4_quitting_never_increases p Hv I eq_refl)
    as (H1 & _ & _ & H2 & _).
  destruct (H2 I) as (_ & _ & H3 & _ & _ & H4).
  split; [exact H1|]. split; [exact H3|exact H4].
Defined.

(** ** Across the switch at 70 with a very negative score (C3) *)

Lemma ln_69_40 : 0.545224 <= ln (69 / 40) <= 0.545231.
Proof.
  split.
  - apply ln_lower. exp_le (545224)%Z 1000000%Z.
  - apply ln_upper; [lra|]. exp_ge (545231)%Z 1000000%Z.
Qed.

Lemma ln_tiny_cholesterol : -8.51725 <= ln (0.001 / 5.0) <= -8.51713.
Proof.
  split.
  - apply ln_lower. exp_le (-851725)%Z 100000%Z.
  - apply ln_upper; [lra|]. exp_ge (-851713)%Z 100000%Z.
Qed.

Lemma tinyCholesterol_rawRisk (a : R) :
  rawRisk (tinyCholesterolPatient a)
  = pct (if Rle_dec 70 a then 0.15 else 0.08)
        ((ln (a / 40) * 0.7 + ln (0.001 / 5.0) * 0.3) * 1.8
         * (if Rle_dec 70 a then 1.2 else 1)).
Proof.
  unfold rawRisk, baseline, score, regionalScore, linearScore, ageTerm,
    sexTerm, smokingTerm, bpTerm, cholTerm, hdlTerm, diabetesTerm, useOP,
    toMmol, regionFactor.
  cbn [tinyCholesterolPatient patient age sex region smoking systolicBP
       totalCholesterol cholesterolUnit hdlCholesterol diabetes realOf].
  simpl (String.eqb "female" _). simpl (String.eqb "very-high" _).
  simpl (String.eqb "mmol/L" _). simpl (String.eqb "no" _).
  simpl (String.eqb "non-smoker" _). cbv iota.
  rewrite !ln_unit by lra.
  destruct (Rle_dec 70 a); f_equal; ring.
Qed.

Lemma tinyCholesterol_69 :
  riskPercentage (calculateSCORE2Risk (tinyCholesterolPatient 69)) = Fin 0.2.
Proof.
  replace 0.2 with (IZR 2 / 10) by lra.
  apply reported_value; [prove_valid|exact I|].
  rewrite (risk_finite _ 0.001) by reflexivity.
  rewrite tinyCholesterol_rawRisk.
  destruct (Rle_dec 70 69) as [H|_]; [lra|].
  destruct ln_69_40 as [Hl Hu]. destruct ln_tiny_cholesterol as [Cl Cu].
  assert (H1 : 0.1598 <= pct 0.08
                 ((ln (69 / 40) * 0.7 + ln (0.001 / 5.0) * 0.3) * 1.8 * 1)).
  { apply (pct_lower 0.08 _ 0.0199935 ltac:(lra) 0.9984020); [lra| | |lra].
    - exp_ge (-3912333)%Z 1000000%Z.
    - exp_le (-1599480)%Z 1000000000%Z. }
  assert (H2 : pct 0.08
                 ((ln (69 / 40) * 0.7 + ln (0.001 / 5.0) * 0.3) * 1.8 * 1)
               <= 0.1599).
  { apply (pct_upper 0.08 _ 0.0199956 ltac:(lra) 0.9984014).
    - exp_le (-3912259)%Z 1000000%Z.
    - exp_ge (-1599648)%Z 1000000000%Z.
    - lra. }
  rewrite clamp_inside by lra. lra.
Qed.

Lemma tinyCholesterol_70 :
  riskPercentage (calculateSCORE2Risk (tinyCholesterolPatient 70)) = Fin 0.1.
Proof.
  replace 0.1 with (IZR 1 / 10) by lra.
  apply reported_value; [prove_valid|exact I|].
  rewrite (risk_finite _ 0.001) by reflexivity.
  rewrite tinyCholesterol_rawRisk.
  destruct (Rle_dec 70 70) as [_|H]; [|lra].
  destruct ln_seven_fourths as [Hl Hu].
  destruct ln_tiny_cholesterol as [Cl Cu].
  assert (H1 : 0.14 <= pct 0.15
                 ((ln (70 / 40) * 0.7 + ln (0.001 / 5.0) * 0.3) * 1.8 * 1.2)).
  { apply (pct_lower 0.15 _ 0.0093436 ltac:(lra) 0.9985997); [lra| | |lra].
    - exp_ge (-4673045)%Z 1000000%Z.
    - exp_le (-1401540)%Z 1000000000%Z. }
  assert (H2 : pct 0.15
                 ((ln (70 / 40) * 0.7 + ln (0.001 / 5.0) * 0.3) * 1.8 * 1.2)
               <= 0.1401).
  { apply (pct_upper 0.15 _ 0.0093448 ltac:(lra) 0.9985990).
    - exp_le (-4672956)%Z 1000000%Z.
    - exp_ge (-1401720)%Z 1000000000%Z.
    - lra. }
  rewrite clamp_inside by lra. lra.
Qed.

(** C3, refuted as stated: both inputs pass validation and differ in age
    only; at 69 the reported percentage is 0.2, at 70 it is 0.1.  With a
    negative HDL value the reported percentages are [NaN] and the
    comparison is false. *)
Lemma C3_age_drop_at_70 :
  valid (tinyCholesterolPatient 69)
  /\ withAge (tinyCholesterolPatient 69) (Fin 70) = tinyCholesterolPatient 70
  /\ riskPercentage (calculateSCORE2Risk (tinyCholesterolPatient 69)) = Fin 0.2
  /\ riskPercentage (calculateSCORE2Risk (tinyCholesterolPatient 70)) = Fin 0.1
  /\ le (riskPercentage (calculateSCORE2Risk (tinyCholesterolPatient 69)))
        (riskPercentage (calculateSCORE2Risk (tinyCholesterolPatient 70)))
     = false
  /\ valid negativeHdlPatient
  /\ le (riskPercentage (calculateSCORE2Risk negativeHdlPatient))
        (riskPercentage
           (calculateSCORE2Risk (withAge negativeHdlPatient (Fin 60))))
     = false.
Proof.
  split; [prove_valid|]. split; [reflexivity|].
  split; [exact tinyCholesterol_69|]. split; [exact tinyCholesterol_70|].
  split.
  - rewrite tinyCholesterol_69, tinyCholesterol_70. apply le_Fin_false. lra.
  - split; [prove_valid|].
    rewrite (riskPercentage_negative_hdl _ (-1)); [reflexivity|reflexivity|lra].
Qed.

Lemma C3_age_monotone_witness :
  let p := patient 65 "male" "moderate" "non-smoker" 130 5.0 "mmol/L" None "no"
  in valid p /\ hdlOk p /\ age p = Fin 65 /\ 65 < 75 <= 100
     /\ (75 < 70 \/ 70 <= 65
         \/ 5 * ln (8 / 15) <= regionalScore (withAge p (Fin 75)))
     /\ le (riskPercentage (calculateSCORE2Risk p))
           (riskPercentage (calculateSCORE2Risk (withAge p (Fin 75)))) = true.
Proof.
  intros p.
  assert (Hv : valid p) by prove_valid.
  assert (Ha : 65 < 75 <= 100) by lra.
  assert (Hs : 75 < 70 \/ 70 <= 65
               \/ 5 * ln (8 / 15) <= regionalScore (withAge p (Fin 75))).
  { right. right.
    unfold regionalScore, linearScore, ageTerm, sexTerm, smokingTerm, bpTerm,
      cholTerm, hdlTerm, diabetesTerm, toMmol, regionFactor. simpl.
    assert (H0 : ln (8 / 15) <= 0) by (apply ln_nonpos; lra).
    assert (H1 : 0 <= ln (75 / 40)) by (apply ln_nonneg; lra).
    assert (H2 : 0 <= ln (130 / 120)) by (apply ln_nonneg; lra).
    assert (H3 : 0 <= ln (5.0 / 5.0)) by (apply ln_nonneg; lra).
    lra. }
  split; [exact Hv|]. split; [exact I|]. split; [reflexivity|].
  split; [exact Ha|]. split; [exact Hs|].
  apply (C3_age_monotone p 65 75 Hv I eq_refl Ha Hs).
Defined.

(** ** The count in the interpretation (C7) *)

Lemma intToString_round (x : R) :
  intToString (Math.round (Fin x)) = printZ (Math.roundZ x).
Proof. unfold intToString, Math.round, printZ. rewrite ZfloorZ. reflexivity. Qed.

Lemma interpretation_sentence (p : Parameters) :
  valid p -> hdlOk p ->
  interpretation (calculateSCORE2Risk p)
  = sentence (sex p) (printZ (Math.roundZ (risk p))).
Proof.
  intros Hv Hh. unfold calculateSCORE2Risk. cbn [interpretation].
  unfold generateInterpretation. cbv zeta.
  rewrite (clampedRisk_Fin p Hv Hh), intToString_round. reflexivity.
Qed.

(** C7, amended: the interpretation is the sentence of stage G with the
    word chosen by the sex and with N the clamped percentage rounded to an
    integer, the percentage being taken before it is rounded to one decimal
    for the [riskPercentage] field.  When a supplied HDL value is a finite
    number that is not negative, N is an integer between 0 and 50. *)
Theorem C7_interpretation_from_unrounded (p : Parameters) :
  valid p ->
  interpretation (calculateSCORE2Risk p)
  = sentence (sex p) (intToString (Math.round (clampedRisk p)))
  /\ (hdlOk p ->
      clampedRisk p = Fin (risk p)
      /\ interpretation (calculateSCORE2Risk p)
         = sentence (sex p) (printZ (Math.roundZ (risk p)))
      /\ (0 <= Math.roundZ (risk p) <= 50)%Z).
Proof.
  intros Hv. split; [reflexivity|]. intros Hh.
  split; [apply clampedRisk_Fin; assumption|].
  split; [apply interpretation_sentence; assumption|].
  assert (Hb := risk_bounds p). unfold Math.roundZ. split.
  - apply Zfloor_lub. lra.
  - assert (H := Zfloor_bound (risk p + / 2)).
    assert (H' : IZR (Zfloor (risk p + / 2)) < IZR 51) by lra.
    apply lt_IZR in H'. lia.
Qed.

Lemma C7_interpretation_from_unrounded_witness :
  valid examplePatient /\ hdlOk examplePatient
  /\ interpretation (calculateSCORE2Risk examplePatient)
     = sentence (sex examplePatient)
         (intToString (Math.round (clampedRisk examplePatient)))
  /\ (0 <= Math.roundZ (risk examplePatient) <= 50)%Z.
Proof.
  assert (Hv : valid examplePatient) by prove_valid.
  split; [exact Hv|]. split; [exact I|].
  split.
  - exact (proj1 (C7_interpretation_from_unrounded examplePatient Hv)).
  - exact (proj2 (proj2 (proj2 (C7_interpretation_from_unrounded
                                   examplePatient Hv) I))).
Defined.

Lemma ln_five_fourths : 0.223140 <= ln (50 / 40) <= 0.223147.
Proof.
  split.
  - apply ln_lower. exp_le (223140)%Z 1000000%Z.
  - apply ln_upper; [lra|]. exp_ge (223147)%Z 1000000%Z.
Qed.

Lemma rounding_risk : 9.4759 <= risk roundingPatient <= 9.4761.
Proof.
  rewrite (risk_finite _ 5.0) by reflexivity.
  assert (E : rawRisk roundingPatient = pct 0.08 (ln (50 / 40) * 0.7 * 1.4)).
  { unfold rawRisk, baseline, score, regionalScore, linearScore, ageTerm,
      sexTerm, smokingTerm, bpTerm, cholTerm, hdlTerm, diabetesTerm, useOP,
      toMmol, regionFactor.
    cbn [roundingPatient patient age sex region smoking systolicBP
         totalCholesterol cholesterolUnit hdlCholesterol diabetes realOf].
    simpl String.eqb. cbv iota.
    destruct (Rle_dec 70 50) as [H|_]; [lra|].
    rewrite !ln_unit by lra. f_equal. ring. }
  rewrite E. destruct ln_five_fourths as [Hl Hu].
  assert (H1 : 9.4759 <= pct 0.08 (ln (50 / 40) * 0.7 * 1.4)).
  { apply (pct_lower 0.08 _ 1.2444292 ltac:(lra) 0.9052410); [lra| | |lra].
    - exp_ge (2186772)%Z 10000000%Z.
    - exp_le (-99554336)%Z 1000000000%Z. }
  assert (H2 : pct 0.08 (ln (50 / 40) * 0.7 * 1.4) <= 9.4761).
  { apply (pct_upper 0.08 _ 1.2444384 ltac:(lra) 0.9052399).
    - exp_le (2186841)%Z 10000000%Z.
    - exp_ge (-99555072)%Z 1000000000%Z.
    - lra. }
  rewrite clamp_inside by lra. lra.
Qed.

(** C7, refuted as stated: the clamped percentage is about 9.476, so the
    [riskPercentage] field is 9.5 and rounding the field gives 10, while the
    sentence is built from the unrounded value and says 9. *)
Lemma C7_sentence_not_from_field :
  valid roundingPatient
  /\ riskPercentage (calculateSCORE2Risk roundingPatient) = Fin 9.5
  /\ interpretation (calculateSCORE2Risk roundingPatient)
     = "This means out of 100 women like you, about 9 will have a heart attack or stroke in the next 10 years."%string
  /\ sentence (sex roundingPatient)
       (intToString
          (Math.round (riskPercentage (calculateSCORE2Risk roundingPatient))))
     = "This means out of 100 women like you, about 10 will have a heart attack or stroke in the next 10 years."%string
  /\ interpretation (calculateSCORE2Risk roundingPatient)
     <> sentence (sex roundingPatient)
          (intToString
             (Math.round
                (riskPercentage (calculateSCORE2Risk roundingPatient)))).
Proof.
  assert (Hv : valid roundingPatient) by prove_valid.
  assert (Hr := rounding_risk).
  assert (E1 : riskPercentage (calculateSCORE2Risk roundingPatient) = Fin 9.5).
  { replace 9.5 with (IZR 95 / 10) by lra.
    apply reported_value; [exact Hv|exact I|lra]. }
  assert (E2 : interpretation (calculateSCORE2Risk roundingPatient)
               = sentence "female" (printZ 9)).
  { rewrite (interpretation_sentence roundingPatient Hv I).
    rewrite (roundZ_eq 9) by lra. reflexivity. }
  assert (E3 : intToString
                 (Math.round
                    (riskPercentage (calculateSCORE2Risk roundingPatient)))
               = printZ 10).
  { rewrite E1, intToString_round. rewrite (roundZ_eq 10) by lra.
    reflexivity. }
  split; [exact Hv|]. split; [exact E1|]. split; [exact E2|].
  split; [rewrite E3; reflexivity|].
  rewrite E2, E3. vm_compute. discriminate.
Qed.

(** ** Heart age (C5, C6) *)

(** The duplicated formula of [calculateHeartAge] is the main formula on
    [referenceProfile], for every input. *)
Lemma referenceRisk_is_clampedRisk (p : Parameters) :
  referenceRiskPercentage (referenceParams p)
  = clampedRisk (referenceProfile p).
Proof.
  unfold referenceRiskPercentage, clampedRisk, normalizeUnits.
  cbn [referenceParams referenceProfile age sex region smoking systolicBP
       totalCholesterol cholesterolUnit hdlCholesterol diabetes].
  simpl (String.eqb "non-smoker" _). simpl (String.eqb "no" _). cbv iota.
  destruct (cholesterolUnit p =? "mg/dL")%string; cbv zeta iota beta.
  - replace (Math.log (div (div (Fin (5.0 * 38.67)) (Fin 38.67)) (Fin 5.0)))
      with (Math.log (div (Fin 5.0) (Fin 5.0))); [reflexivity|].
    rewrite !div_Fin by lra. do 2 f_equal. lra.
  - reflexivity.
Qed.

Lemma valid_referenceProfile (p : Parameters) :
  valid p -> valid (referenceProfile p).
Proof.
  intros (Ha & Hs & Hr & _ & _ & _).
  refine (conj Ha (conj Hs (conj Hr (conj _ (conj _ _))))).
  - right. reflexivity.
  - unfold bpOk. simpl. split; [exact I|lra].
  - unfold cholOk. cbn [referenceProfile totalCholesterol].
    destruct (_ =? _)%string; lra.
Qed.

Lemma risk_referenceProfile (p : Parameters) :
  risk (referenceProfile p) = clamp (rawRisk (referenceProfile p)).
Proof.
  unfold risk. cbn [referenceProfile totalCholesterol].
  destruct (_ =? _)%string; reflexivity.
Qed.

Lemma heartAge_formula (p : Parameters) :
  heartAge (calculateSCORE2Risk p)
  = Math.max (age p)
      (Math.min 100
         (Math.round
            (add (age p)
               (mul (sub (div (clampedRisk p)
                              (clampedRisk (referenceProfile p))) 1) 10)))).
Proof.
  unfold calculateSCORE2Risk, calculateHeartAge. cbn [heartAge]. cbv zeta.
  rewrite referenceRisk_is_clampedRisk. reflexivity.
Qed.

Lemma heartAge_Fin (p : Parameters) :
  valid p -> hdlOk p ->
  heartAge (calculateSCORE2Risk p)
  = Fin (Rmax (realOf (age p))
           (Rmin 100
              (IZR (Math.roundZ
                      (realOf (age p)
                       + (risk p / risk (referenceProfile p) - 1) * 10))))).
Proof.
  intros Hv Hh. rewrite heartAge_formula.
  rewrite (clampedRisk_Fin p Hv Hh).
  rewrite (clampedRisk_Fin (referenceProfile p) (valid_referenceProfile p Hv)
             Hh).
  assert (Hr := risk_bounds (referenceProfile p)).
  rewrite (isFin_inv (age p) (proj1 (proj1 Hv))).
  rewrite div_Fin by lra. cbn [sub neg add mul Math.round realOf].
  rewrite min_Fin, max_Fin. reflexivity.
Qed.

(** C5, amended: the heart age is [round(age + (ratio - 1) * 10)] clamped
    to [age, 100], where [ratio] divides the clamped unrounded percentage by
    the clamped percentage of the reference profile; the reference profile
    keeps age, sex, region, unit and HDL (converted like the input's), is a
    non-smoker without diabetes at 120 mmHg, and has total cholesterol
    5.0 mmol/L whatever the unit, so its cholesterol term is 0.  When a
    supplied HDL value is a finite number that is not negative, the heart
    age is a finite number and [age <= heartAge <= 100]. *)
Theorem C5_heartAge_reference_profile (p : Parameters) :
  valid p ->
  referenceRiskPercentage (referenceParams p)
  = clampedRisk (referenceProfile p)
  /\ cholTerm (referenceProfile p) = 0
  /\ heartAge (calculateSCORE2Risk p)
     = Math.max (age p)
         (Math.min 100
            (Math.round
               (add (age p)
                  (mul (sub (div (clampedRisk p)
                                 (clampedRisk (referenceProfile p))) 1)
                       10))))
  /\ (hdlOk p ->
      heartAge (calculateSCORE2Risk p)
      = Fin (Rmax (realOf (age p))
               (Rmin 100
                  (IZR (Math.roundZ
                          (realOf (age p)
                           + (risk p / risk (referenceProfile p) - 1)
                             * 10)))))
      /\ le (age p) (heartAge (calculateSCORE2Risk p)) = true
      /\ le (heartAge (calculateSCORE2Risk p)) 100 = true).
Proof.
  intros Hv.
  split; [apply referenceRisk_is_clampedRisk|].
  split.
  { unfold cholTerm, toMmol.
    cbn [referenceProfile totalCholesterol cholesterolUnit].
    destruct (_ =? _)%string; cbn [realOf].
    - replace (5.0 * 38.67 / 38.67 / 5.0) with 1 by lra.
      rewrite ln_1. ring.
    - rewrite ln_unit by lra. ring. }
  split; [apply heartAge_formula|].
  intros Hh. assert (E := heartAge_Fin p Hv Hh).
  split; [exact E|].
  rewrite E. destruct Hv as ((Fa & Ra) & _).
  rewrite (isFin_inv (age p) Fa) at 1.
  split; apply le_Fin;
    unfold Rmax, Rmin; repeat destruct (Rle_dec _ _); lra.
Qed.

Lemma C5_heartAge_reference_profile_witness :
  let p := patient 55 "male" "moderate" "smoker" 150 240 "mg/dL" None "yes" in
  valid p /\ hdlOk p
  /\ le (age p) (heartAge (calculateSCORE2Risk p)) = true
  /\ le (heartAge (calculateSCORE2Risk p)) 100 = true.
Proof.
  intros p.
  assert (Hv : valid p) by prove_valid.
  split; [exact Hv|]. split; [exact I|].
  exact (proj2 (proj2 (proj2 (proj2 (C5_heartAge_reference_profile p Hv)))
                  I)).
Defined.

Lemma heartAge_eval (a r rr : R) (h : Z) :
  0 < rr ->
  IZR h - / 2 <= a + (r / rr - 1) * 10 < IZR h + / 2 ->
  a <= IZR h <= 100 ->
  Math.max (Fin a)
    (Math.min 100
       (Math.round (add (Fin a) (mul (sub (div (Fin r) (Fin rr)) 1) 10))))
  = Fin (IZR h).
Proof.
  intros Hrr Hh Ha. rewrite div_Fin by lra.
  cbn [sub neg add mul Math.round].
  replace (a + (r / rr + - (1)) * 10) with (a + (r / rr - 1) * 10) by ring.
  rewrite (roundZ_eq h _ Hh), min_Fin, max_Fin. f_equal.
  unfold Rmax, Rmin. repeat destruct (Rle_dec _ _); lra.
Qed.

Lemma ratio_enclosure (r rr r1 r2 q1 q2 : R) :
  0 < q1 -> q1 <= rr <= q2 -> 0 <= r1 -> r1 <= r <= r2 ->
  r1 / q2 <= r / rr <= r2 / q1.
Proof.
  intros Hq Hrr Hr1 Hr.
  assert (H1 : / q2 <= / rr) by (apply Rinv_le_contravar; lra).
  assert (H2 : / rr <= / q1) by (apply Rinv_le_contravar; lra).
  assert (H3 : 0 < / q2) by (apply Rinv_0_lt_compat; lra).
  unfold Rdiv. split.
  - apply Rle_trans with (r1 * / rr); [apply Rmult_le_compat_l; lra|].
    apply Rmult_le_compat_r; lra.
  - apply Rle_trans with (r2 * / rr); [apply Rmult_le_compat_r; lra|].
    apply Rmult_le_compat_l; lra.
Qed.

(** Unfolds the formula on a concrete patient. *)
Ltac expand_rawRisk :=
  unfold rawRisk, baseline, score, regionalScore, linearScore, ageTerm,
    sexTerm, smokingTerm, bpTerm, cholTerm, hdlTerm, diabetesTerm, useOP,
    toMmol, regionFactor;
  cbn [referenceProfile referenceParams patient age sex region smoking
       systolicBP totalCholesterol cholesterolUnit hdlCholesterol diabetes
       realOf];
  simpl String.eqb; cbv iota; cbn [realOf].

Lemma ln_cholesterol_200 : 0.033813 <= ln (200 / 38.67 / 5.0) <= 0.033818.
Proof.
  split.
  - apply ln_lower. exp_le (33813)%Z 1000000%Z.
  - apply ln_upper; [lra|]. exp_ge (33818)%Z 1000000%Z.
Qed.

Lemma ln_converted_reference :
  -3.655076 <= ln (5.0 / 38.67 / 5.0) <= -3.655052.
Proof.
  split.
  - apply ln_lower. exp_le (-3655076)%Z 1000000%Z.
  - apply ln_upper; [lra|]. exp_ge (-3655052)%Z 1000000%Z.
Qed.

Lemma unit_risk : 9.0152 <= risk unitPatient <= 9.0154.
Proof.
  rewrite (risk_finite _ 200) by reflexivity.
  assert (E : rawRisk unitPatient
              = pct 0.08 (ln (50 / 40) * 0.7 + ln (200 / 38.67 / 5.0) * 0.3)).
  { unfold unitPatient. expand_rawRisk.
    destruct (Rle_dec 70 50) as [H|_]; [lra|].
    rewrite !ln_unit by lra. f_equal. ring. }
  rewrite E. destruct ln_five_fourths as [Hl Hu].
  destruct ln_cholesterol_200 as [Cl Cu].
  assert (H1 : 9.0152
               <= pct 0.08 (ln (50 / 40) * 0.7 + ln (200 / 38.67 / 5.0) * 0.3)).
  { apply (pct_lower 0.08 _ 1.1809765 ltac:(lra) 0.9098479); [lra| | |lra].
    - exp_ge (1663419)%Z 10000000%Z.
    - exp_le (-94478120)%Z 1000000000%Z. }
  assert (H2 : pct 0.08 (ln (50 / 40) * 0.7 + ln (200 / 38.67 / 5.0) * 0.3)
               <= 9.0154).
  { apply (pct_upper 0.08 _ 1.1809847 ltac:(lra) 0.9098468).
    - exp_le (1663483)%Z 10000000%Z.
    - exp_ge (-94478776)%Z 1000000000%Z.
    - lra. }
  rewrite clamp_inside by lra. lra.
Qed.

Lemma unit_referenceProfile :
  8.9284 <= risk (referenceProfile unitPatient) <= 8.9286.
Proof.
  rewrite risk_referenceProfile.
  assert (E : rawRisk (referenceProfile unitPatient)
              = pct 0.08 (ln (50 / 40) * 0.7)).
  { unfold unitPatient. expand_rawRisk.
    destruct (Rle_dec 70 50) as [H|_]; [lra|].
    replace (5.0 * 38.67 / 38.67 / 5.0) with 1 by lra.
    rewrite ln_1, !ln_unit by lra. f_equal. ring. }
  rewrite E. destruct ln_five_fourths as [Hl Hu].
  assert (H1 : 8.9284 <= pct 0.08 (ln (50 / 40) * 0.7)).
  { apply (pct_lower 0.08 _ 1.1690573 ltac:(lra) 0.9107159); [lra| | |lra].
    - exp_ge (1561980)%Z 10000000%Z.
    - exp_le (-93524584)%Z 1000000000%Z. }
  assert (H2 : pct 0.08 (ln (50 / 40) * 0.7) <= 8.9286).
  { apply (pct_upper 0.08 _ 1.1690637 ltac:(lra) 0.9107149).
    - exp_le (1562029)%Z 10000000%Z.
    - exp_ge (-93525096)%Z 1000000000%Z.
    - lra. }
  rewrite clamp_inside by lra. lra.
Qed.

Lemma unit_referenceParams :
  3.0756 <= risk (referenceParams unitPatient) <= 3.0758.
Proof.
  rewrite (risk_finite _ 5.0) by reflexivity.
  assert (E : rawRisk (referenceParams unitPatient)
              = pct 0.08 (ln (50 / 40) * 0.7 + ln (5.0 / 38.67 / 5.0) * 0.3)).
  { unfold unitPatient. expand_rawRisk.
    destruct (Rle_dec 70 50) as [H|_]; [lra|].
    rewrite !ln_unit by lra. f_equal. ring. }
  rewrite E. destruct ln_five_fourths as [Hl Hu].
  destruct ln_converted_reference as [Cl Cu].
  assert (H1 : 3.0756
               <= pct 0.08 (ln (50 / 40) * 0.7 + ln (5.0 / 38.67 / 5.0) * 0.3)).
  { apply (pct_lower 0.08 _ 0.3905006 ltac:(lra) 0.9692431); [lra| | |lra].
    - exp_ge (-9403248)%Z 10000000%Z.
    - exp_le (-31240048)%Z 1000000000%Z. }
  assert (H2 : pct 0.08 (ln (50 / 40) * 0.7 + ln (5.0 / 38.67 / 5.0) * 0.3)
               <= 3.0758).
  { apply (pct_upper 0.08 _ 0.3905061 ltac:(lra) 0.9692422).
    - exp_le (-9403127)%Z 10000000%Z.
    - exp_ge (-31240488)%Z 1000000000%Z.
    - lra. }
  rewrite clamp_inside by lra. lra.
Qed.

(** C5, refuted as stated: for an input in mg/dL the engine's heart age is
    50, while the recomputation of stages A to D on the reference parameter
    set, unit conversion included, would divide the reference cholesterol
    5.0 by 38.67 and give 69.  With a negative HDL value the heart age is
    [NaN] and [age <= heartAge] is false. *)
Lemma C5_reference_not_converted :
  valid unitPatient
  /\ heartAge (calculateSCORE2Risk unitPatient) = Fin 50
  /\ heartAgeOnReferenceParams unitPatient = Fin 69
  /\ heartAge (calculateSCORE2Risk unitPatient)
     <> heartAgeOnReferenceParams unitPatient
  /\ valid negativeHdlPatient
  /\ heartAge (calculateSCORE2Risk negativeHdlPatient) = NaN
  /\ le (age negativeHdlPatient)
        (heartAge (calculateSCORE2Risk negativeHdlPatient)) = false.
Proof.
  assert (EN : heartAge (calculateSCORE2Risk negativeHdlPatient) = NaN)
    by (apply (heartAge_negative_hdl _ (-1)); [reflexivity|lra]).
  assert (Hv : valid unitPatient) by prove_valid.
  assert (Hq : valid (referenceParams unitPatient)) by prove_valid.
  assert (R1 := unit_risk). assert (R2 := unit_referenceProfile).
  assert (R3 := unit_referenceParams).
  assert (E1 : heartAge (calculateSCORE2Risk unitPatient) = Fin (IZR 50)).
  { rewrite heartAge_formula.
    rewrite (clampedRisk_Fin _ Hv I).
    rewrite (clampedRisk_Fin _ (valid_referenceProfile _ Hv) I).
    change (age unitPatient) with (Fin 50).
    assert (Hr := ratio_enclosure _ _ 9.0152 9.0154 8.9284 8.9286
                    ltac:(lra) R2 ltac:(lra) R1).
    apply heartAge_eval; lra. }
  assert (E2 : heartAgeOnReferenceParams unitPatient = Fin (IZR 69)).
  { unfold heartAgeOnReferenceParams. cbv zeta.
    rewrite (clampedRisk_Fin _ Hv I), (clampedRisk_Fin _ Hq I).
    change (age unitPatient) with (Fin 50).
    assert (Hr := ratio_enclosure _ _ 9.0152 9.0154 3.0756 3.0758
                    ltac:(lra) R3 ltac:(lra) R1).
    apply heartAge_eval; lra. }
  split; [exact Hv|]. split; [exact E1|]. split; [exact E2|].
  split; [rewrite E1, E2; intros H; injection H as H; lra|].
  split; [prove_valid|]. split; [exact EN|]. rewrite EN. reflexivity.
Qed.

Lemma ln_55_40 : 0.318451 <= ln (55 / 40) <= 0.318457.
Proof.
  split.
  - apply ln_lower. exp_le (318451)%Z 1000000%Z.
  - apply ln_upper; [lra|]. exp_ge (318457)%Z 1000000%Z.
Qed.

Lemma ln_130_120 : 0.080040 <= ln (130 / 120) <= 0.080045.
Proof.
  split.
  - apply ln_lower. exp_le (80040)%Z 1000000%Z.
  - apply ln_upper; [lra|]. exp_ge (80045)%Z 1000000%Z.
Qed.

Lemma example_risk : 16.1133 <= risk examplePatient <= 16.1136.
Proof.
  rewrite (risk_finite _ 5.0) by reflexivity.
  assert (E : rawRisk examplePatient
              = pct 0.08 (ln (55 / 40) * 0.8 + 0.5 + ln (130 / 120) * 0.4)).
  { unfold examplePatient. expand_rawRisk.
    destruct (Rle_dec 70 55) as [H|_]; [lra|].
    rewrite !ln_unit by lra. f_equal. ring. }
  rewrite E. destruct ln_55_40 as [Hl Hu]. destruct ln_130_120 as [Bl Bu].
  assert (H1 : 16.1133
               <= pct 0.08 (ln (55 / 40) * 0.8 + 0.5 + ln (130 / 120) * 0.4)).
  { apply (pct_lower 0.08 _ 2.1963044 ltac:(lra) 0.8388662); [lra| | |lra].
    - exp_ge (7867768)%Z 10000000%Z.
    - exp_le (-175704352)%Z 1000000000%Z. }
  assert (H2 : pct 0.08 (ln (55 / 40) * 0.8 + 0.5 + ln (130 / 120) * 0.4)
               <= 16.1136).
  { apply (pct_upper 0.08 _ 2.1963223 ltac:(lra) 0.8388645).
    - exp_le (7867836)%Z 10000000%Z.
    - exp_ge (-175705784)%Z 1000000000%Z.
    - lra. }
  rewrite clamp_inside by lra. lra.
Qed.

Lemma example_reference :
  15.6476 <= risk (referenceProfile examplePatient) <= 15.6479.
Proof.
  rewrite risk_referenceProfile.
  assert (E : rawRisk (referenceProfile examplePatient)
              = pct 0.08 (ln (55 / 40) * 0.8 + 0.5)).
  { unfold examplePatient. expand_rawRisk.
    destruct (Rle_dec 70 55) as [H|_]; [lra|].
    rewrite !ln_unit by lra. f_equal. ring. }
  rewrite E. destruct ln_55_40 as [Hl Hu].
  assert (H1 : 15.6476 <= pct 0.08 (ln (55 / 40) * 0.8 + 0.5)).
  { apply (pct_lower 0.08 _ 2.1271013 ltac:(lra) 0.8435232); [lra| | |lra].
    - exp_ge (7547608)%Z 10000000%Z.
    - exp_le (-170168104)%Z 1000000000%Z. }
  assert (H2 : pct 0.08 (ln (55 / 40) * 0.8 + 0.5) <= 15.6479).
  { apply (pct_upper 0.08 _ 2.1271142 ltac:(lra) 0.8435219).
    - exp_le (7547656)%Z 10000000%Z.
    - exp_ge (-170169136)%Z 1000000000%Z.
    - lra. }
  rewrite clamp_inside by lra. lra.
Qed.

(** C6: on the example input the algorithm label is "SCORE2" and the heart
    age is 55.  The pressure of 130 makes the ratio about 1.03, not 1, and
    [round(55 + 0.30)] is still 55; the reported percentage is 16.1. *)
Theorem C6_example_end_to_end :
  algorithm (calculateSCORE2Risk examplePatient) = "SCORE2"%string
  /\ heartAge (calculateSCORE2Risk examplePatient) = Fin 55
  /\ riskPercentage (calculateSCORE2Risk examplePatient) = Fin 16.1.
Proof.
  assert (Hv : valid examplePatient) by prove_valid.
  assert (R1 := example_risk). assert (R2 := example_reference).
  split; [|split].
  - unfold calculateSCORE2Risk. cbn [algorithm].
    change (ge (age examplePatient) 70) with (le 70 55).
    rewrite (proj2 (le_Fin_false 70 55)) by lra. reflexivity.
  - replace 55 with (IZR 55) by reflexivity.
    rewrite heartAge_formula.
    rewrite (clampedRisk_Fin _ Hv I).
    rewrite (clampedRisk_Fin _ (valid_referenceProfile _ Hv) I).
    change (age examplePatient) with (Fin 55).
    assert (Hr := ratio_enclosure _ _ 16.1133 16.1136 15.6476 15.6479
                    ltac:(lra) R2 ltac:(lra) R1).
    apply heartAge_eval; lra.
  - replace 16.1 with (IZR 161 / 10) by lra.
    apply reported_value; [exact Hv|exact I|lra].
Qed.

(** * Further properties of the engine and of its callers

    What follows is read off the source alone: how the engine treats
    units, categories, regions outside its table and numbers outside the
    validated ranges, how each risk factor moves the result, and what the
    gauge and the what-if simulation make of a result. *)

(** ** Units *)

Lemma truthy_div (n : num) (y : R) : 0 < y -> truthy (div n y) = truthy n.
Proof.
  intros Hy. destruct n as [| | |x]; cbn [div truthy].
  - reflexivity.
  - destruct (Rlt_dec y 0); reflexivity.
  - destruct (Rlt_dec y 0); reflexivity.
  - destruct (Req_dec_T y 0) as [E|_]; [lra|]. cbn [truthy].
    destruct (Req_dec_T x 0) as [E|N];
      destruct (Req_dec_T (x / y) 0) as [E'|N']; try reflexivity.
    + exfalso. apply N'. rewrite E. unfold Rdiv. apply Rmult_0_l.
    + exfalso. apply N. apply (Rmult_eq_reg_r (/ y)).
      * rewrite Rmult_0_l. exact E'.
      * apply Rinv_neq_0_compat. lra.
Qed.

(** An HDL value converted by the caller is the value the engine converts
    itself. *)
Lemma orNull_converted (h : option num) :
  orNull (option_map (fun n => div n 38.67) h) = hdlToMmol (orNull h).
Proof.
  destruct h as [n|]; [|reflexivity]. cbn [option_map orNull].
  rewrite truthy_div by lra. unfold hdlToMmol.
  destruct (truthy n) eqn:E; [rewrite E|]; reflexivity.
Qed.

Lemma normalizeUnits_inMmol (p : Parameters) :
  cholesterolUnit p = "mg/dL" -> normalizeUnits (inMmol p) = normalizeUnits p.
Proof.
  intros Hu. unfold normalizeUnits.
  cbn [inMmol cholesterolUnit totalCholesterol hdlCholesterol].
  rewrite Hu, orNull_converted. reflexivity.
Qed.

Lemma clampedRisk_inMmol (p : Parameters) :
  cholesterolUnit p = "mg/dL" -> clampedRisk (inMmol p) = clampedRisk p.
Proof.
  intros Hu. unfold clampedRisk. rewrite (normalizeUnits_inMmol p Hu).
  reflexivity.
Qed.

Lemma referenceRisk_inMmol (p : Parameters) :
  cholesterolUnit p = "mg/dL" ->
  referenceRiskPercentage (referenceParams (inMmol p))
  = referenceRiskPercentage (referenceParams p).
Proof.
  intros Hu. unfold referenceRiskPercentage, normalizeUnits.
  cbn [referenceParams inMmol cholesterolUnit totalCholesterol hdlCholesterol
       age sex region].
  rewrite Hu, orNull_converted. reflexivity.
Qed.

(** X1: a cholesterol measurement entered in mg/dL gives the same result,
    field by field, as the same measurement divided by 38.67 and entered in
    mmol/L (total cholesterol and, when supplied, HDL). *)
Theorem X1_unit_equivalence (p : Parameters) :
  cholesterolUnit p = "mg/dL" ->
  calculateSCORE2Risk (inMmol p) = calculateSCORE2Risk p.
Proof.
  intros Hu. unfold calculateSCORE2Risk, calculateHeartAge.
  rewrite (clampedRisk_inMmol p Hu), (referenceRisk_inMmol p Hu).
  cbn [inMmol age sex].
  replace (generateRecommendations (inMmol p))
    with (generateRecommendations p); [reflexivity|].
  unfold generateRecommendations.
  cbn [inMmol smoking systolicBP cholesterolUnit totalCholesterol diabetes].
  rewrite Hu. reflexivity.
Qed.

Lemma X1_unit_equivalence_witness :
  let p := patient 50 "female" "moderate" "non-smoker" 120 200 "mg/dL"
                   (Some (Fin 50)) "no" in
  calculateSCORE2Risk (inMmol p) = calculateSCORE2Risk p.
Proof. intros p. apply X1_unit_equivalence. reflexivity. Defined.

(** ** Categories *)

Ltac category_cases :=
  unfold categorizeRisk, lt;
  repeat match goal with
         | |- context [Rlt_dec ?x ?y] => destruct (Rlt_dec x y)
         end;
  unfold categoryRank; simpl; first [lia | exfalso; lra].

(** X2: for a fixed age the category never gets milder when the percentage
    grows. *)
Theorem X2_category_monotone_in_risk (a : num) (r r' : R) :
  r <= r' ->
  (categoryRank (categorizeRisk (Fin r) a)
   <= categoryRank (categorizeRisk (Fin r') a))%nat.
Proof.
  intros H. destruct a as [| | |x]; category_cases.
Qed.

Lemma X2_category_monotone_in_risk_witness :
  (categoryRank (categorizeRisk (Fin 4) (Fin 45))
   <= categoryRank (categorizeRisk (Fin 8) (Fin 45)))%nat.
Proof. apply X2_category_monotone_in_risk. lra. Defined.

(** X3: the same percentage is never put in a milder category below 50
    years of age than from 50 on. *)
Theorem X3_category_stricter_below_50 (r a a' : num) :
  lt a 50 = true -> lt a' 50 = false ->
  (categoryRank (categorizeRisk r a')
   <= categoryRank (categorizeRisk r a))%nat.
Proof.
  intros Ha Ha'. unfold categorizeRisk. rewrite Ha, Ha'.
  destruct r as [| | |x]; category_cases.
Qed.

Lemma X3_category_stricter_below_50_witness :
  (categoryRank (categorizeRisk (Fin 6) (Fin 60))
   <= categoryRank (categorizeRisk (Fin 6) (Fin 45)))%nat.
Proof.
  apply X3_category_stricter_below_50; unfold lt;
    destruct (Rlt_dec _ _); try reflexivity; lra.
Defined.

(** A percentage rounded to one decimal is on the same side of a threshold
    with one decimal as the percentage itself, unless it is rounded onto
    the threshold. *)
Lemma round1_lt_threshold (x : R) (T : Z) :
  round1 x <> IZR T / 10 ->
  lt (Fin x) (Fin (IZR T / 10)) = lt (Fin (round1 x)) (Fin (IZR T / 10)).
Proof.
  intros Hne. unfold round1 in *. unfold Math.roundZ in *.
  set (z := Zfloor (x * 10 + / 2)) in *.
  assert (Hz : IZR z <= x * 10 + / 2 < IZR z + 1) by apply Zfloor_bound.
  assert (HzT : z <> T) by (intros E; apply Hne; rewrite E; reflexivity).
  destruct (Rlt_dec x (IZR T / 10)) as [Hlt|Hge].
  - assert (Hlt' : (z < T + 1)%Z).
    { apply lt_IZR. rewrite plus_IZR. lra. }
    assert (Hz' : (z <= T - 1)%Z) by lia.
    apply IZR_le in Hz'. rewrite minus_IZR in Hz'.
    transitivity true; [apply lt_Fin; exact Hlt|].
    symmetry. apply lt_Fin. lra.
  - assert (Hge' : (T - 1 < z)%Z).
    { apply lt_IZR. rewrite minus_IZR. lra. }
    assert (Hz' : (T <= z)%Z) by lia.
    apply IZR_le in Hz'.
    transitivity false; [apply lt_Fin_false; lra|].
    symmetry. apply lt_Fin_false. lra.
Qed.

Lemma riskCategory_Fin (p : Parameters) :
  valid p -> hdlOk p ->
  riskCategory (calculateSCORE2Risk p)
  = categorizeRisk (Fin (risk p)) (age p).
Proof.
  intros Hv Hh. unfold calculateSCORE2Risk. cbn [riskCategory].
  rewrite (clampedRisk_Fin p Hv Hh). reflexivity.
Qed.

(** X4: the category of a result is computed from the percentage before it
    is rounded; it is the category of the reported, rounded percentage
    unless that percentage sits exactly on one of the thresholds of the
    patient's age band. *)
Theorem X4_category_of_reported_percentage (p : Parameters) :
  valid p -> hdlOk p ->
  let result := calculateSCORE2Risk p in
  riskCategory result = categorizeRisk (riskPercentage result) (age p)
  \/ exists t : R, In t (thresholds (age p)) /\ riskPercentage result = Fin t.
Proof.
  intros Hv Hh result. unfold result.
  rewrite (riskCategory_Fin p Hv Hh), (riskPercentage_Fin p Hv Hh).
  set (x := risk p).
  assert (Hstep : forall (T : Z) (t : R), t = IZR T / 10 ->
            round1 x = t \/ lt (Fin x) (Fin t) = lt (Fin (round1 x)) (Fin t)).
  { intros T t Et. destruct (Req_dec_T (round1 x) t) as [E|N]; [left; exact E|].
    right. rewrite Et in *. apply round1_lt_threshold. exact N. }
  unfold categorizeRisk, thresholds.
  destruct (lt (age p) 50).
  - destruct (Hstep 25%Z 2.5 ltac:(lra)) as [E|E1];
      [right; exists 2.5; rewrite E; simpl; auto|].
    destruct (Hstep 75%Z 7.5 ltac:(lra)) as [E|E2];
      [right; exists 7.5; rewrite E; simpl; auto|].
    destruct (Hstep 100%Z 10 ltac:(lra)) as [E|E3];
      [right; exists 10; rewrite E; simpl; auto|].
    left. rewrite E1, E2, E3. reflexivity.
  - destruct (Hstep 50%Z 5 ltac:(lra)) as [E|E1];
      [right; exists 5; rewrite E; simpl; auto|].
    destruct (Hstep 100%Z 10 ltac:(lra)) as [E|E2];
      [right; exists 10; rewrite E; simpl; auto|].
    destruct (Hstep 150%Z 15 ltac:(lra)) as [E|E3];
      [right; exists 15; rewrite E; simpl; auto|].
    left. rewrite E1, E2, E3. reflexivity.
Qed.

Lemma X4_category_of_reported_percentage_witness :
  valid examplePatient /\ hdlOk examplePatient
  /\ let result := calculateSCORE2Risk examplePatient in
     (riskCategory result
      = categorizeRisk (riskPercentage result) (age examplePatient)
      \/ exists t : R, In t (thresholds (age examplePatient))
                       /\ riskPercentage result = Fin t).
Proof.
  assert (Hv : valid examplePatient) by prove_valid.
  split; [exact Hv|]. split; [exact I|].
  exact (X4_category_of_reported_percentage examplePatient Hv I).
Defined.

(** ** Inputs the engine turns into [NaN] *)

Lemma interpretation_NaN (sx : string) :
  generateInterpretation NaN sx = sentence sx "NaN".
Proof. reflexivity. Qed.

(** X5: a negative HDL value, which no validation rule rejects, gives a
    result whose percentage and heart age are [NaN]; the result is put in
    the category very-high, its sentence reads "about NaN", and it carries
    the four lifestyle recommendations. *)
Theorem X5_negative_hdl_result (p : Parameters) (x : R) :
  hdlCholesterol p = Some (Fin x) -> x < 0 ->
  let result := calculateSCORE2Risk p in
  riskPercentage result = NaN
  /\ heartAge result = NaN
  /\ riskCategory result = "very-high"
  /\ interpretation result = sentence (sex p) "NaN"
  /\ incl lifestyleAdvice (recommendations result)
  /\ validateSCORE2Inputs p = validateSCORE2Inputs (withHdl p None).
Proof.
  intros Eh Hx result.
  assert (Ec := clampedRisk_negative_hdl p x Eh Hx).
  split; [exact (riskPercentage_negative_hdl p x Eh Hx)|].
  split; [exact (heartAge_negative_hdl p x Eh Hx)|].
  assert (Ecat : riskCategory result = "very-high").
  { unfold result, calculateSCORE2Risk. cbn [riskCategory]. rewrite Ec.
    unfold categorizeRisk. destruct (lt (age p) 50); reflexivity. }
  split; [exact Ecat|]. split.
  - unfold result, calculateSCORE2Risk. cbn [interpretation]. rewrite Ec.
    apply interpretation_NaN.
  - split; [|reflexivity].
    unfold result, calculateSCORE2Risk in *.
    cbn [recommendations riskCategory] in *.
    rewrite Ecat, generateRecommendations_gates.
    do 4 apply incl_appr. apply incl_appl. apply incl_refl.
Qed.

Lemma X5_negative_hdl_result_witness :
  riskPercentage (calculateSCORE2Risk negativeHdlPatient) = NaN
  /\ riskCategory (calculateSCORE2Risk negativeHdlPatient) = "very-high".
Proof.
  assert (Hx : -1 < 0) by lra.
  destruct (X5_negative_hdl_result negativeHdlPatient (-1) eq_refl Hx)
    as (H1 & _ & H3 & _).
  split; [exact H1|exact H3].
Defined.

(** ** Regions outside the table *)

Lemma regionalFactor_default (rg : string) :
  rg <> "low" -> rg <> "high" -> rg <> "very-high" ->
  existsb (String.eqb rg) objectPrototypeKeys = false ->
  regionalFactor rg = regionalFactor "moderate".
Proof.
  intros H1 H2 H3 Hk. unfold regionalFactor. rewrite Hk.
  apply String.eqb_neq in H1, H2, H3. rewrite H1, H2, H3.
  destruct (rg =? "moderate"); reflexivity.
Qed.

(** X7: a region that is not in the table of factors (and is no property
    name inherited from [Object.prototype]) is scored with the factor 1.0:
    the whole result is the one of the moderate region. *)
Theorem X7_unknown_region_is_moderate (p : Parameters) (rg : string) :
  rg <> "low" -> rg <> "high" -> rg <> "very-high" ->
  existsb (String.eqb rg) objectPrototypeKeys = false ->
  calculateSCORE2Risk (withRegion p rg)
  = calculateSCORE2Risk (withRegion p "moderate").
Proof.
  intros H1 H2 H3 Hk.
  assert (E := regionalFactor_default rg H1 H2 H3 Hk).
  unfold calculateSCORE2Risk, calculateHeartAge, clampedRisk,
    referenceRiskPercentage, normalizeUnits.
  cbn [withRegion referenceParams age sex region smoking systolicBP
       totalCholesterol cholesterolUnit hdlCholesterol diabetes].
  rewrite E. reflexivity.
Qed.

Lemma X7_unknown_region_is_moderate_witness :
  calculateSCORE2Risk (withRegion examplePatient "")
  = calculateSCORE2Risk (withRegion examplePatient "moderate").
Proof.
  apply X7_unknown_region_is_moderate;
    try (intros H; discriminate H); reflexivity.
Defined.

Lemma mul_NaN_r (a : num) : mul a NaN = NaN.
Proof. destruct a; reflexivity. Qed.

Lemma percentage_of_NaN (b : bool) :
  Math.max 0.1
    (Math.min 50
       (mul (sub 1
               (Math.exp
                  (mul (neg (Math.exp (if b then mul NaN 1.2 else NaN)))
                       (if b then Fin 0.15 else Fin 0.08))))
            100))
  = NaN.
Proof. destruct b; reflexivity. Qed.

(** X8: a region that names a property every object inherits
    ([constructor], [toString], ...) finds that property in the table of
    factors instead of the default 1.0; the percentage and the heart age of
    the result are [NaN]. *)
Theorem X8_inherited_region_name (p : Parameters) (rg : string) :
  In rg objectPrototypeKeys ->
  let result := calculateSCORE2Risk (withRegion p rg) in
  riskPercentage result = NaN /\ heartAge result = NaN
  /\ riskCategory result = "very-high".
Proof.
  intros Hin result.
  assert (Ef : regionalFactor rg = NaN).
  { unfold objectPrototypeKeys in Hin. simpl in Hin.
    repeat (destruct Hin as [E|Hin]; [rewrite <- E; reflexivity|]).
    contradiction. }
  assert (Ec : clampedRisk (withRegion p rg) = NaN).
  { unfold clampedRisk. cbn [withRegion region age]. cbv zeta.
    destruct (normalizeUnits _) as [t h]. rewrite Ef, mul_NaN_r.
    apply percentage_of_NaN. }
  assert (Er : referenceRiskPercentage (referenceParams (withRegion p rg))
               = NaN).
  { unfold referenceRiskPercentage. cbn [referenceParams withRegion region age].
    cbv zeta. destruct (normalizeUnits _) as [t h]. rewrite Ef, mul_NaN_r.
    apply percentage_of_NaN. }
  unfold result, calculateSCORE2Risk, calculateHeartAge.
  cbn [riskPercentage heartAge riskCategory]. rewrite Ec, Er.
  split; [reflexivity|]. split.
  - cbn [div sub neg add mul]. rewrite add_NaN_r. cbn [Math.round Math.min].
    destruct (age (withRegion p rg)); reflexivity.
  - unfold categorizeRisk. destruct (lt _ 50); reflexivity.
Qed.

Lemma X8_inherited_region_name_witness :
  riskPercentage (calculateSCORE2Risk (withRegion examplePatient "constructor"))
  = NaN.
Proof.
  apply (X8_inherited_region_name examplePatient "constructor").
  simpl. auto.
Defined.

(** ** Risk factors one at a time *)

Lemma reported_le_of_risk_le (p q : Parameters) :
  valid p -> hdlOk p -> valid q -> hdlOk q -> risk p <= risk q ->
  le (riskPercentage (calculateSCORE2Risk p))
     (riskPercentage (calculateSCORE2Risk q)) = true.
Proof.
  intros Hp Hhp Hq Hhq H.
  rewrite (riskPercentage_Fin p Hp Hhp), (riskPercentage_Fin q Hq Hhq).
  apply le_Fin, round1_le_mono, H.
Qed.

(** Two inputs of the same age and region are scored in the order of the
    sums of their terms. *)
Lemma score_le_of_linearScore_le (p q : Parameters) :
  regionOk p -> region q = region p -> age q = age p ->
  linearScore p <= linearScore q ->
  useOP p = useOP q /\ score p <= score q.
Proof.
  intros Hr Er Ea Hs. unfold score, regionalScore, useOP. rewrite Er, Ea.
  split; [reflexivity|].
  assert (Hf := regionFactor_pos p Hr).
  apply Rmult_le_compat_r; [destruct (Rle_dec _ _); lra|].
  apply Rmult_le_compat_r; [lra|exact Hs].
Qed.

Lemma risk_le_of_linearScore_le (p q : Parameters) :
  regionOk p -> region q = region p -> age q = age p ->
  (totalCholesterol p = totalCholesterol q
   \/ (isFin (totalCholesterol p) /\ isFin (totalCholesterol q))) ->
  linearScore p <= linearScore q ->
  risk p <= risk q.
Proof.
  intros Hr Er Ea Hc Hs.
  destruct (score_le_of_linearScore_le p q Hr Er Ea Hs) as [Hop Hsc].
  assert (Hraw : clamp (rawRisk p) <= clamp (rawRisk q)).
  { apply clamp_le_mono. unfold rawRisk, baseline. rewrite <- Hop.
    apply pct_le_mono; [destruct (useOP p); lra|exact Hsc]. }
  unfold risk. destruct Hc as [Ec|[Fp Fq]].
  - rewrite <- Ec. destruct (totalCholesterol p); try exact Hraw. lra.
  - destruct (totalCholesterol p); try contradiction.
    destruct (totalCholesterol q); try contradiction. exact Hraw.
Qed.

Lemma valid_withSystolicBP (p : Parameters) (b : R) :
  valid p -> 80 <= b <= 250 -> valid (withSystolicBP p (Fin b)).
Proof.
  intros (Ha & Hs & Hr & Hsm & _ & Hc) Hb.
  exact (conj Ha (conj Hs (conj Hr (conj Hsm (conj (conj I Hb) Hc))))).
Qed.

Lemma valid_withTotalCholesterol (p : Parameters) (c : R) :
  valid p -> 0 < c -> valid (withTotalCholesterol p (Fin c)).
Proof.
  intros (Ha & Hs & Hr & Hsm & Hb & _) Hc.
  exact (conj Ha (conj Hs (conj Hr (conj Hsm (conj Hb Hc))))).
Qed.

Lemma valid_withSex (p : Parameters) (sx : string) :
  valid p -> sexOk (withSex p sx) -> valid (withSex p sx).
Proof.
  intros (Ha & _ & Hr & Hsm & Hb & Hc) Hs.
  exact (conj Ha (conj Hs (conj Hr (conj Hsm (conj Hb Hc))))).
Qed.

Lemma toMmol_pos (u : string) (x : R) : 0 < x -> 0 < toMmol u x.
Proof. intros H. unfold toMmol. destruct (u =? "mg/dL"); lra. Qed.

Lemma toMmol_le (u : string) (x y : R) : x <= y -> toMmol u x <= toMmol u y.
Proof. intros H. unfold toMmol. destruct (u =? "mg/dL"); lra. Qed.

(** X9: with every other field fixed, a higher systolic pressure never
    lowers the reported percentage. *)
Theorem X9_pressure_monotone (p : Parameters) (b b' : R) :
  valid p -> hdlOk p -> systolicBP p = Fin b -> b <= b' <= 250 ->
  le (riskPercentage (calculateSCORE2Risk p))
     (riskPercentage (calculateSCORE2Risk (withSystolicBP p (Fin b'))))
  = true.
Proof.
  intros Hv Hh Eb Hb.
  assert (Hb0 : 80 <= b).
  { destruct Hv as (_ & _ & _ & _ & (_ & Hb0) & _). rewrite Eb in Hb0.
    simpl in Hb0. lra. }
  apply reported_le_of_risk_le; try assumption.
  - apply valid_withSystolicBP; [exact Hv|lra].
  - apply risk_le_of_linearScore_le; try reflexivity.
    + exact (proj1 (proj2 (proj2 Hv))).
    + left. reflexivity.
    + unfold linearScore.
      change (ageTerm (withSystolicBP p b')) with (ageTerm p).
      change (sexTerm (withSystolicBP p b')) with (sexTerm p).
      change (smokingTerm (withSystolicBP p b')) with (smokingTerm p).
      change (cholTerm (withSystolicBP p b')) with (cholTerm p).
      change (hdlTerm (withSystolicBP p b')) with (hdlTerm p).
      change (diabetesTerm (withSystolicBP p b')) with (diabetesTerm p).
      assert (Ht : bpTerm p <= bpTerm (withSystolicBP p b')).
      { unfold bpTerm. cbn [withSystolicBP systolicBP]. rewrite Eb.
        cbn [realOf].
        assert (ln (b / 120) <= ln (b' / 120)) by (apply ln_le_mono; lra).
        lra. }
      lra.
Qed.

Lemma X9_pressure_monotone_witness :
  le (riskPercentage (calculateSCORE2Risk examplePatient))
     (riskPercentage
        (calculateSCORE2Risk (withSystolicBP examplePatient (Fin 160))))
  = true.
Proof.
  apply (X9_pressure_monotone examplePatient 130 160);
    [prove_valid|exact I|reflexivity|lra].
Defined.

(** X10: with every other field fixed, a higher total cholesterol never
    lowers the reported percentage. *)
Theorem X10_cholesterol_monotone (p : Parameters) (c c' : R) :
  valid p -> hdlOk p -> totalCholesterol p = Fin c -> c <= c' ->
  le (riskPercentage (calculateSCORE2Risk p))
     (riskPercentage (calculateSCORE2Risk (withTotalCholesterol p (Fin c'))))
  = true.
Proof.
  intros Hv Hh Ec Hc.
  assert (Hc0 : 0 < c).
  { destruct Hv as (_ & _ & _ & _ & _ & Hc0). unfold cholOk in Hc0.
    rewrite Ec in Hc0. exact Hc0. }
  apply reported_le_of_risk_le; try assumption.
  - apply valid_withTotalCholesterol; [exact Hv|lra].
  - apply risk_le_of_linearScore_le; try reflexivity.
    + exact (proj1 (proj2 (proj2 Hv))).
    + right. rewrite Ec. split; exact I.
    + unfold linearScore.
      change (ageTerm (withTotalCholesterol p c')) with (ageTerm p).
      change (sexTerm (withTotalCholesterol p c')) with (sexTerm p).
      change (smokingTerm (withTotalCholesterol p c')) with (smokingTerm p).
      change (bpTerm (withTotalCholesterol p c')) with (bpTerm p).
      change (hdlTerm (withTotalCholesterol p c')) with (hdlTerm p).
      change (diabetesTerm (withTotalCholesterol p c'))
        with (diabetesTerm p).
      assert (Ht : cholTerm p <= cholTerm (withTotalCholesterol p c')).
      { unfold cholTerm.
        cbn [withTotalCholesterol totalCholesterol cholesterolUnit].
        rewrite Ec. cbn [realOf].
        assert (H0 := toMmol_pos (cholesterolUnit p) c Hc0).
        assert (H1 := toMmol_le (cholesterolUnit p) c c' Hc).
        assert (ln (toMmol (cholesterolUnit p) c / 5.0)
                <= ln (toMmol (cholesterolUnit p) c' / 5.0))
          by (apply ln_le_mono; lra).
        lra. }
      lra.
Qed.

Lemma X10_cholesterol_monotone_witness :
  le (riskPercentage (calculateSCORE2Risk examplePatient))
     (riskPercentage
        (calculateSCORE2Risk (withTotalCholesterol examplePatient (Fin 6.5))))
  = true.
Proof.
  apply (X10_cholesterol_monotone examplePatient 5.0 6.5);
    [prove_valid|exact I|reflexivity|lra].
Defined.

Lemma valid_withHdl (p : Parameters) (h : option num) :
  valid p -> valid (withHdl p h).
Proof. intros H. exact H. Qed.

Lemma linearScore_withHdl (p : Parameters) (h : option num) :
  linearScore (withHdl p h) - hdlTerm (withHdl p h)
  = linearScore p - hdlTerm p.
Proof.
  unfold linearScore.
  change (ageTerm (withHdl p h)) with (ageTerm p).
  change (sexTerm (withHdl p h)) with (sexTerm p).
  change (smokingTerm (withHdl p h)) with (smokingTerm p).
  change (bpTerm (withHdl p h)) with (bpTerm p).
  change (cholTerm (withHdl p h)) with (cholTerm p).
  change (diabetesTerm (withHdl p h)) with (diabetesTerm p).
  ring.
Qed.

Lemma hdlTerm_positive (p : Parameters) (h : R) :
  0 < h ->
  hdlTerm (withHdl p (Some (Fin h)))
  = - ln (toMmol (cholesterolUnit p) h / 1.3) * 0.2.
Proof.
  intros Hh. unfold hdlTerm. cbn [withHdl hdlCholesterol cholesterolUnit].
  destruct (Req_dec_T h 0); [lra|reflexivity].
Qed.

Lemma reported_le_withHdl (p : Parameters) (h h' : option num) :
  valid p -> hdlOk (withHdl p h) -> hdlOk (withHdl p h') ->
  hdlTerm (withHdl p h) <= hdlTerm (withHdl p h') ->
  le (riskPercentage (calculateSCORE2Risk (withHdl p h)))
     (riskPercentage (calculateSCORE2Risk (withHdl p h'))) = true.
Proof.
  intros Hv Hh Hh' Ht.
  apply reported_le_of_risk_le; try assumption.
  apply risk_le_of_linearScore_le; try reflexivity.
  - exact (proj1 (proj2 (proj2 Hv))).
  - left. reflexivity.
  - assert (E := linearScore_withHdl p h).
    assert (E' := linearScore_withHdl p h'). lra.
Qed.

(** X11: HDL is protective: with every other field fixed, a higher
    (positive) HDL value never raises the reported percentage. *)
Theorem X11_hdl_protective (p : Parameters) (h h' : R) :
  valid p -> 0 < h <= h' ->
  le (riskPercentage (calculateSCORE2Risk (withHdl p (Some (Fin h')))))
     (riskPercentage (calculateSCORE2Risk (withHdl p (Some (Fin h)))))
  = true.
Proof.
  intros Hv Hh.
  apply reported_le_withHdl; try exact Hv;
    try (unfold hdlOk; cbn [withHdl hdlCholesterol]; lra).
  rewrite !hdlTerm_positive by lra.
  assert (H0 := toMmol_pos (cholesterolUnit p) h (proj1 Hh)).
  assert (H1 := toMmol_le (cholesterolUnit p) h h' (proj2 Hh)).
  assert (ln (toMmol (cholesterolUnit p) h / 1.3)
          <= ln (toMmol (cholesterolUnit p) h' / 1.3))
    by (apply ln_le_mono; lra).
  lra.
Qed.

Lemma X11_hdl_protective_witness :
  le (riskPercentage
        (calculateSCORE2Risk (withHdl examplePatient (Some (Fin 1.6)))))
     (riskPercentage
        (calculateSCORE2Risk (withHdl examplePatient (Some (Fin 1.1)))))
  = true.
Proof.
  apply (X11_hdl_protective examplePatient 1.1 1.6); [prove_valid|lra].
Defined.

(** X12: the HDL term vanishes at 1.3 mmol/L.  Compared with leaving HDL
    out, supplying a value of at least 1.3 mmol/L (after conversion) never
    raises the reported percentage, and supplying a positive value of at
    most 1.3 mmol/L never lowers it. *)
Theorem X12_hdl_against_absent (p : Parameters) (h : R) :
  valid p -> 0 < h ->
  let supplied :=
    riskPercentage (calculateSCORE2Risk (withHdl p (Some (Fin h)))) in
  let absent := riskPercentage (calculateSCORE2Risk (withHdl p None)) in
  (1.3 <= toMmol (cholesterolUnit p) h -> le supplied absent = true)
  /\ (toMmol (cholesterolUnit p) h <= 1.3 -> le absent supplied = true).
Proof.
  intros Hv Hh supplied absent. unfold supplied, absent.
  assert (H0 := toMmol_pos (cholesterolUnit p) h Hh).
  assert (Hok : hdlOk (withHdl p (Some (Fin h))))
    by (unfold hdlOk; cbn [withHdl hdlCholesterol]; lra).
  assert (Hnone : hdlTerm (withHdl p None) = 0) by reflexivity.
  split; intros Ht; apply reported_le_withHdl; try exact Hv; try exact Hok;
    try exact I; rewrite Hnone, hdlTerm_positive by lra.
  - assert (0 <= ln (toMmol (cholesterolUnit p) h / 1.3))
      by (apply ln_nonneg; lra).
    lra.
  - assert (ln (toMmol (cholesterolUnit p) h / 1.3) <= 0)
      by (apply ln_nonpos; lra).
    lra.
Qed.

Lemma X12_hdl_against_absent_witness :
  le (riskPercentage
        (calculateSCORE2Risk (withHdl examplePatient (Some (Fin 1.6)))))
     (riskPercentage (calculateSCORE2Risk (withHdl examplePatient None)))
  = true.
Proof.
  assert (Hv : valid examplePatient) by prove_valid.
  assert (Hh : 0 < 1.6) by lra.
  apply (proj1 (X12_hdl_against_absent examplePatient 1.6 Hv Hh)).
  unfold toMmol. simpl. lra.
Defined.

Lemma linearScore_withDiabetes (p : Parameters) (d : string) :
  linearScore (withDiabetes p d) - diabetesTerm (withDiabetes p d)
  = linearScore p - diabetesTerm p.
Proof.
  unfold linearScore.
  change (ageTerm (withDiabetes p d)) with (ageTerm p).
  change (sexTerm (withDiabetes p d)) with (sexTerm p).
  change (smokingTerm (withDiabetes p d)) with (smokingTerm p).
  change (bpTerm (withDiabetes p d)) with (bpTerm p).
  change (cholTerm (withDiabetes p d)) with (cholTerm p).
  change (hdlTerm (withDiabetes p d)) with (hdlTerm p).
  ring.
Qed.

(** X13: only the value [yes] of the diabetes field counts.  Any other
    value gives the result of [no], and the reported percentage with [yes]
    is never below the one with any other value. *)
Theorem X13_diabetes (p : Parameters) (d : string) :
  (d <> "yes" ->
   calculateSCORE2Risk (withDiabetes p d)
   = calculateSCORE2Risk (withDiabetes p "no"))
  /\ (valid p -> hdlOk p ->
      le (riskPercentage (calculateSCORE2Risk (withDiabetes p d)))
         (riskPercentage (calculateSCORE2Risk (withDiabetes p "yes")))
      = true).
Proof.
  split.
  - intros Hd. apply String.eqb_neq in Hd.
    unfold calculateSCORE2Risk, calculateHeartAge, clampedRisk,
      generateRecommendations, normalizeUnits.
    cbn [withDiabetes referenceParams age sex region smoking systolicBP
         totalCholesterol cholesterolUnit hdlCholesterol diabetes bmi].
    rewrite Hd. reflexivity.
  - intros Hv Hh.
    apply reported_le_of_risk_le; try exact Hv; try exact Hh.
    apply risk_le_of_linearScore_le; try reflexivity.
    + exact (proj1 (proj2 (proj2 Hv))).
    + left. reflexivity.
    + assert (E := linearScore_withDiabetes p d).
      assert (E' := linearScore_withDiabetes p "yes").
      assert (Ht : diabetesTerm (withDiabetes p d)
                   <= diabetesTerm (withDiabetes p "yes")).
      { unfold diabetesTerm. cbn [withDiabetes diabetes].
        destruct (d =? "yes"); simpl; lra. }
      lra.
Qed.

Lemma X13_diabetes_witness :
  calculateSCORE2Risk (withDiabetes examplePatient "Yes")
  = calculateSCORE2Risk (withDiabetes examplePatient "no")
  /\ le (riskPercentage
           (calculateSCORE2Risk (withDiabetes examplePatient "no")))
        (riskPercentage
           (calculateSCORE2Risk (withDiabetes examplePatient "yes")))
     = true.
Proof.
  assert (Hv : valid examplePatient) by prove_valid.
  split.
  - apply (proj1 (X13_diabetes examplePatient "Yes")).
    intros H. discriminate H.
  - exact (proj2 (X13_diabetes examplePatient "no") Hv I).
Defined.

(** X14: with every other field fixed, the reported percentage of a man is
    never below the one of a woman. *)
Theorem X14_sex (p : Parameters) :
  valid p -> hdlOk p ->
  le (riskPercentage (calculateSCORE2Risk (withSex p "female")))
     (riskPercentage (calculateSCORE2Risk (withSex p "male"))) = true.
Proof.
  intros Hv Hh.
  apply reported_le_of_risk_le; try exact Hh;
    try (apply valid_withSex; [exact Hv|unfold sexOk; simpl; auto]).
  apply risk_le_of_linearScore_le; try reflexivity.
  - exact (proj1 (proj2 (proj2 Hv))).
  - left. reflexivity.
  - unfold linearScore.
    change (smokingTerm (withSex p "male")) with (smokingTerm p).
    change (bpTerm (withSex p "male")) with (bpTerm p).
    change (cholTerm (withSex p "male")) with (cholTerm p).
    change (hdlTerm (withSex p "male")) with (hdlTerm p).
    change (diabetesTerm (withSex p "male")) with (diabetesTerm p).
    change (smokingTerm (withSex p "female")) with (smokingTerm p).
    change (bpTerm (withSex p "female")) with (bpTerm p).
    change (cholTerm (withSex p "female")) with (cholTerm p).
    change (hdlTerm (withSex p "female")) with (hdlTerm p).
    change (diabetesTerm (withSex p "female")) with (diabetesTerm p).
    unfold ageTerm, sexTerm. cbn [withSex sex age]. simpl String.eqb.
    cbv iota.
    destruct Hv as ((_ & Ha) & _).
    assert (0 <= ln (realOf (age p) / 40)) by (apply ln_nonneg; lra).
    nra.
Qed.

Lemma X14_sex_witness :
  le (riskPercentage (calculateSCORE2Risk (withSex examplePatient "female")))
     (riskPercentage (calculateSCORE2Risk (withSex examplePatient "male")))
  = true.
Proof. apply X14_sex; [prove_valid|exact I]. Defined.

(** ** Heart age: whole years, and the order of the percentages *)

Lemma Rmax_IZR (a b : Z) : Rmax (IZR a) (IZR b) = IZR (Z.max a b).
Proof.
  destruct (Z.max_spec a b) as [[H E]|[H E]]; rewrite E;
    [apply IZR_lt in H|apply IZR_le in H];
    unfold Rmax; destruct (Rle_dec _ _); lra.
Qed.

Lemma Rmin_IZR (a b : Z) : Rmin (IZR a) (IZR b) = IZR (Z.min a b).
Proof.
  destruct (Z.min_spec a b) as [[H E]|[H E]]; rewrite E;
    [apply IZR_lt in H|apply IZR_le in H];
    unfold Rmin; destruct (Rle_dec _ _); lra.
Qed.

(** X16: for an age in whole years the heart age is a whole number of
    years between the age and 100. *)
Theorem X16_heartAge_whole_years (p : Parameters) (a : Z) :
  valid p -> hdlOk p -> age p = Fin (IZR a) ->
  exists h : Z,
    heartAge (calculateSCORE2Risk p) = Fin (IZR h) /\ (a <= h <= 100)%Z.
Proof.
  intros Hv Hh Ea. rewrite (heartAge_Fin p Hv Hh), Ea. cbn [realOf].
  set (z := Math.roundZ _).
  exists (Z.max a (Z.min 100 z)). split.
  - rewrite <- Rmax_IZR, <- Rmin_IZR. reflexivity.
  - destruct Hv as ((_ & Ha) & _). rewrite Ea in Ha. cbn [realOf] in Ha.
    assert (Ha' : (a <= 100)%Z) by (apply le_IZR; lra). lia.
Qed.

Lemma X16_heartAge_whole_years_witness :
  exists h : Z,
    heartAge (calculateSCORE2Risk examplePatient) = Fin (IZR h)
    /\ (55 <= h <= 100)%Z.
Proof.
  apply (X16_heartAge_whole_years examplePatient 55);
    [prove_valid|exact I|reflexivity].
Defined.

Lemma cholTerm_referenceProfile (p : Parameters) :
  cholTerm (referenceProfile p) = 0.
Proof.
  unfold cholTerm, toMmol.
  cbn [referenceProfile totalCholesterol cholesterolUnit].
  destruct (_ =? _)%string; cbn [realOf].
  - replace (5.0 * 38.67 / 38.67 / 5.0) with 1 by lra. rewrite ln_1. ring.
  - rewrite ln_unit by lra. ring.
Qed.

Lemma linearScore_referenceProfile (p : Parameters) :
  linearScore (referenceProfile p) = ageTerm p + sexTerm p + hdlTerm p.
Proof.
  unfold linearScore. rewrite cholTerm_referenceProfile.
  change (ageTerm (referenceProfile p)) with (ageTerm p).
  change (sexTerm (referenceProfile p)) with (sexTerm p).
  change (hdlTerm (referenceProfile p)) with (hdlTerm p).
  unfold smokingTerm, bpTerm, diabetesTerm.
  cbn [referenceProfile smoking systolicBP diabetes realOf].
  simpl String.eqb. cbv iota. rewrite ln_unit by lra. ring.
Qed.

Lemma isFin_referenceProfile (p : Parameters) :
  isFin (totalCholesterol (referenceProfile p)).
Proof.
  cbn [referenceProfile totalCholesterol]. destruct (_ =? _)%string; exact I.
Qed.

(** The heart age when the percentage does not exceed the one of the
    reference profile. *)
Lemma heartAge_at_most_reference (p : Parameters) (a : Z) :
  valid p -> hdlOk p -> age p = Fin (IZR a) ->
  risk p <= risk (referenceProfile p) ->
  heartAge (calculateSCORE2Risk p) = age p.
Proof.
  intros Hv Hh Ea Hr. rewrite (heartAge_Fin p Hv Hh), Ea. cbn [realOf].
  f_equal.
  assert (Hp := risk_bounds p).
  assert (Hq := risk_bounds (referenceProfile p)).
  assert (Hratio : risk p / risk (referenceProfile p) <= 1).
  { apply (Rmult_le_reg_r (risk (referenceProfile p))); [lra|].
    unfold Rdiv. rewrite Rmult_assoc, Rinv_l by lra. lra. }
  assert (Hz : (Math.roundZ
                  (IZR a + (risk p / risk (referenceProfile p) - 1) * 10)
                <= a)%Z).
  { rewrite <- (roundZ_IZR a) at 2. apply roundZ_le_mono. lra. }
  apply IZR_le in Hz.
  unfold Rmax, Rmin. repeat destruct (Rle_dec _ _); lra.
Qed.

(** X17: a non-smoker without diabetes whose systolic pressure is at most
    120 mmHg and whose total cholesterol is at most 5.0 mmol/L (after
    conversion) has a heart age equal to the age, for an age in whole
    years. *)
Theorem X17_heartAge_is_age_at_reference (p : Parameters) (a : Z) (b c : R) :
  valid p -> hdlOk p -> age p = Fin (IZR a) ->
  smoking p = "non-smoker" -> diabetes p <> "yes" ->
  systolicBP p = Fin b -> b <= 120 ->
  totalCholesterol p = Fin c -> toMmol (cholesterolUnit p) c <= 5.0 ->
  heartAge (calculateSCORE2Risk p) = age p.
Proof.
  intros Hv Hh Ea Hs Hd Eb Hb Ec Hc.
  apply (heartAge_at_most_reference p a Hv Hh Ea).
  apply risk_le_of_linearScore_le; try reflexivity.
  - exact (proj1 (proj2 (proj2 Hv))).
  - right. split; [rewrite Ec; exact I|apply isFin_referenceProfile].
  - rewrite linearScore_referenceProfile. unfold linearScore.
    assert (Hb0 : 80 <= b).
    { destruct Hv as (_ & _ & _ & _ & (_ & Hb0) & _). rewrite Eb in Hb0.
      simpl in Hb0. lra. }
    assert (Hc0 : 0 < c).
    { destruct Hv as (_ & _ & _ & _ & _ & Hc0). unfold cholOk in Hc0.
      rewrite Ec in Hc0. exact Hc0. }
    assert (H1 : smokingTerm p = 0)
      by (unfold smokingTerm; rewrite Hs; reflexivity).
    assert (H2 : diabetesTerm p = 0).
    { unfold diabetesTerm. apply String.eqb_neq in Hd. rewrite Hd.
      reflexivity. }
    assert (H3 : bpTerm p <= 0).
    { unfold bpTerm. rewrite Eb. cbn [realOf].
      assert (ln (b / 120) <= 0) by (apply ln_nonpos; lra). lra. }
    assert (H4 : cholTerm p <= 0).
    { unfold cholTerm. rewrite Ec. cbn [realOf].
      assert (H0 := toMmol_pos (cholesterolUnit p) c Hc0).
      assert (ln (toMmol (cholesterolUnit p) c / 5.0) <= 0)
        by (apply ln_nonpos; lra).
      lra. }
    lra.
Qed.

Lemma X17_heartAge_is_age_at_reference_witness :
  let p := patient 62 "female" "high" "non-smoker" 110 4.2 "mmol/L"
                   (Some (Fin 1.5)) "no" in
  heartAge (calculateSCORE2Risk p) = age p.
Proof.
  intros p.
  apply (X17_heartAge_is_age_at_reference p 62 110 4.2);
    try reflexivity; try (intros H; discriminate H).
  - prove_valid.
  - unfold p, hdlOk. simpl. lra.
  - lra.
  - unfold toMmol. simpl. lra.
Defined.

Lemma referenceProfile_of_referenceParams (p q : Parameters) :
  referenceParams p = referenceParams q ->
  referenceProfile p = referenceProfile q /\ age p = age q.
Proof.
  intros E.
  assert (E1 := f_equal age E). assert (E2 := f_equal sex E).
  assert (E3 := f_equal region E). assert (E4 := f_equal cholesterolUnit E).
  assert (E5 := f_equal hdlCholesterol E). assert (E6 := f_equal bmi E).
  cbn [referenceParams age sex region cholesterolUnit hdlCholesterol bmi]
    in E1, E2, E3, E4, E5, E6.
  split; [|exact E1]. unfold referenceProfile.
  rewrite E1, E2, E3, E4, E5, E6. reflexivity.
Qed.

(** X18: among inputs that share the reference object of
    [calculateHeartAge] (same age, sex, region, unit, HDL), the heart age
    follows the order of the percentages before rounding: whatever raises
    the percentage never lowers the heart age. *)
Theorem X18_heartAge_monotone (p q : Parameters) :
  valid p -> hdlOk p -> valid q -> hdlOk q ->
  referenceParams p = referenceParams q ->
  le (clampedRisk p) (clampedRisk q) = true ->
  le (heartAge (calculateSCORE2Risk p)) (heartAge (calculateSCORE2Risk q))
  = true.
Proof.
  intros Hp Hhp Hq Hhq Eref Hle.
  destruct (referenceProfile_of_referenceParams p q Eref) as [Er Ea].
  rewrite (clampedRisk_Fin p Hp Hhp), (clampedRisk_Fin q Hq Hhq) in Hle.
  apply le_Fin in Hle.
  rewrite (heartAge_Fin p Hp Hhp), (heartAge_Fin q Hq Hhq).
  rewrite <- Er, <- Ea. apply le_Fin.
  assert (Hr := risk_bounds (referenceProfile p)).
  assert (Hratio : risk p / risk (referenceProfile p)
                   <= risk q / risk (referenceProfile p)).
  { unfold Rdiv. apply Rmult_le_compat_r; [|exact Hle].
    left. apply Rinv_0_lt_compat. lra. }
  assert (Hz : (Math.roundZ (realOf (age p)
                  + (risk p / risk (referenceProfile p) - 1) * 10)
                <= Math.roundZ (realOf (age p)
                  + (risk q / risk (referenceProfile p) - 1) * 10))%Z)
    by (apply roundZ_le_mono; lra).
  apply IZR_le in Hz.
  unfold Rmax, Rmin. repeat destruct (Rle_dec _ _); lra.
Qed.

Lemma X18_heartAge_monotone_witness :
  le (heartAge (calculateSCORE2Risk examplePatient))
     (heartAge (calculateSCORE2Risk (withSmoking examplePatient "smoker")))
  = true.
Proof.
  assert (Hv : valid examplePatient) by prove_valid.
  assert (Hv' : valid (withSmoking examplePatient "smoker")) by prove_valid.
  apply (X18_heartAge_monotone examplePatient
           (withSmoking examplePatient "smoker") Hv I Hv' I eq_refl).
  rewrite (clampedRisk_Fin _ Hv I), (clampedRisk_Fin _ Hv' I).
  apply le_Fin. apply risk_le_of_linearScore_le; try reflexivity.
  - prove_valid.
  - left. reflexivity.
  - unfold linearScore, smokingTerm. simpl String.eqb. cbv iota.
    change (ageTerm (withSmoking examplePatient "smoker"))
      with (ageTerm examplePatient).
    change (sexTerm (withSmoking examplePatient "smoker"))
      with (sexTerm examplePatient).
    change (bpTerm (withSmoking examplePatient "smoker"))
      with (bpTerm examplePatient).
    change (cholTerm (withSmoking examplePatient "smoker"))
      with (cholTerm examplePatient).
    change (hdlTerm (withSmoking examplePatient "smoker"))
      with (hdlTerm examplePatient).
    change (diabetesTerm (withSmoking examplePatient "smoker"))
      with (diabetesTerm examplePatient).
    lra.
Defined.

(** ** The list of recommendations *)

Lemma distinct_NoDup (l : list string) : distinct l = true -> NoDup l.
Proof.
  induction l as [|s l IH]; intros H; [constructor|].
  cbn [distinct] in H. apply andb_true_iff in H. destruct H as [H1 H2].
  constructor; [|apply IH; exact H2].
  intros Hin. apply negb_true_iff in H1.
  assert (Hex : existsb (String.eqb s) l = true).
  { apply existsb_exists. exists s. split; [exact Hin|apply String.eqb_refl]. }
  rewrite Hex in H1. discriminate H1.
Qed.

Lemma categoryGates (category : string) :
  category = "low" \/ category = "moderate" \/ category = "high"
  \/ category = "very-high" ->
  (elevatedGate category ++ lowGate category)%list = lifestyleAdvice
  \/ (elevatedGate category ++ lowGate category)%list = maintenanceAdvice.
Proof.
  intros [E|[E|[E|E]]]; rewrite E; [right|left|left|left]; reflexivity.
Qed.

(** X19: the recommendations of a result never repeat a string, and there
    are at least three and at most fifteen of them, whatever the input. *)
Theorem X19_recommendations_distinct_and_bounded (p : Parameters) :
  let recs := recommendations (calculateSCORE2Risk p) in
  NoDup recs /\ (3 <= List.length recs <= 15)%nat.
Proof.
  intros recs. unfold recs, calculateSCORE2Risk. cbn [recommendations].
  rewrite generateRecommendations_gates.
  destruct (categoryGates _ (categorizeRisk_cases (clampedRisk p) (age p)))
    as [E|E]; rewrite E;
    unfold smokingGate, pressureGate, cholesterolGate, diabetesGate;
    destruct (smoking p =? "smoker"); destruct (gt (systolicBP p) 140);
    destruct (gt (systolicBP p) 130); destruct (gt _ 5.5);
    destruct (diabetes p =? "yes");
    (split; [apply distinct_NoDup; vm_compute; reflexivity|simpl; lia]).
Qed.

(** ** The risk gauge *)

(** X20: the gauge drawn for the result of a validated input shows two
    finite slices, the percentage (between 0.1 and 50) and its complement
    to 100, and the first slice has the colour of the result's category,
    never the fallback grey. *)
Theorem X20_gauge_of_result (p : Parameters) :
  valid p -> hdlOk p ->
  let result := calculateSCORE2Risk p in
  exists (x : R) (c : string),
    RiskGauge.gaugeData (riskPercentage result) (riskCategory result)
    = [ RiskGauge.mkSlice "Risk" (Fin x) (Some c);
        RiskGauge.mkSlice "Remaining" (Fin (100 - x)) (Some "#f3f4f6") ]
    /\ 0.1 <= x <= 50
    /\ In (riskCategory result, c)
          [ ("low", "#22c55e"); ("moderate", "#eab308");
            ("high", "#f97316"); ("very-high", "#ef4444") ].
Proof.
  intros Hv Hh result. unfold result.
  rewrite (riskPercentage_Fin p Hv Hh).
  assert (Hb := round1_bounds _ (risk_bounds p)).
  exists (round1 (risk p)).
  unfold RiskGauge.gaugeData, calculateSCORE2Risk. cbn [riskCategory].
  destruct (categorizeRisk_cases (clampedRisk p) (age p)) as [E|[E|[E|E]]];
    rewrite E;
    [exists "#22c55e"|exists "#eab308"|exists "#f97316"|exists "#ef4444"];
    (split; [reflexivity|split; [exact Hb|simpl; auto 6]]).
Qed.

Lemma X20_gauge_of_result_witness :
  exists (x : R) (c : string),
    RiskGauge.gaugeData (riskPercentage (calculateSCORE2Risk examplePatient))
                        (riskCategory (calculateSCORE2Risk examplePatient))
    = [ RiskGauge.mkSlice "Risk" (Fin x) (Some c);
        RiskGauge.mkSlice "Remaining" (Fin (100 - x)) (Some "#f3f4f6") ]
    /\ 0.1 <= x <= 50
    /\ In (riskCategory (calculateSCORE2Risk examplePatient), c)
          [ ("low", "#22c55e"); ("moderate", "#eab308");
            ("high", "#f97316"); ("very-high", "#ef4444") ].
Proof.
  apply (X20_gauge_of_result examplePatient); [prove_valid|exact I].
Defined.

(** ** Validation and the engine's preconditions *)

(** The validation returns the messages of the violated rules. *)
Lemma validateSCORE2Inputs_violations (p : Parameters) :
  validateSCORE2Inputs p = violations p.
Proof.
  unfold validateSCORE2Inputs, violations, rules. cbv zeta.
  cbn [filter map fst snd].
  rewrite (range_check (age p) 40 100) by lra.
  rewrite (range_check (systolicBP p) 80 250) by lra.
  rewrite positive_check.
  destruct (enum_check (sex p) ["male"; "female"]%string) as [Es|Es];
    [rewrite Es|simpl in Es; intuition discriminate].
  destruct (enum_check (region p)
              ["low"; "moderate"; "high"; "very-high"]%string) as [Er|Er];
    [rewrite Er|simpl in Er; intuition discriminate].
  destruct (enum_check (smoking p) ["smoker"; "non-smoker"]%string)
    as [Em|Em]; [rewrite Em|simpl in Em; intuition discriminate].
  cbn [existsb]. rewrite !orb_false_r.
  fold (ageOkb p) (bpOkb p) (cholOkb p) (sexOkb p) (smokingOkb p).
  replace ((region p =? "low")%string
           || ((region p =? "moderate")%string
               || ((region p =? "high")%string
                   || (region p =? "very-high")%string)))
    with (regionOkb p)
    by (unfold regionOkb; rewrite !orb_assoc; reflexivity).
  abstract_strings.
  destruct (ageOkb p), (sexOkb p), (regionOkb p), (smokingOkb p),
    (bpOkb p), (cholOkb p); reflexivity.
Qed.

Lemma validation_passes_iff (p : Parameters) :
  validateSCORE2Inputs p = [] <-> valid p.
Proof.
  rewrite validateSCORE2Inputs_violations, violations_nil. symmetry.
  apply valid_rules.
Qed.

(** ** The what-if simulation *)

Lemma sub_self_not_negative (a : num) : lt (sub a a) 0 = false.
Proof.
  destruct a as [| | |x]; try reflexivity.
  cbn [sub neg add]. apply lt_Fin_false. lra.
Qed.

Lemma withSmoking_same (p : Parameters) :
  withSmoking p (smoking p) = p.
Proof. destruct p; reflexivity. Qed.

(** X21: when the simulation opens on an input whose smoking field is one
    of the two admitted values, the simulated result is the original
    result, and it is not shown as an improvement (the difference is 0, or
    [NaN] when the percentage is). *)
Theorem X21_simulation_starts_at_original (originalParams : Parameters) :
  smoking originalParams = "smoker"
  \/ smoking originalParams = "non-smoker" ->
  let st := WhatIf.initialState originalParams in
  let originalRisk := calculateSCORE2Risk originalParams in
  WhatIf.newParams st = originalParams
  /\ WhatIf.simulatedRisk st = originalRisk
  /\ WhatIf.isImprovement (WhatIf.simulatedRisk st) originalRisk = false.
Proof.
  intros Hs st originalRisk.
  assert (E : WhatIf.newParams st = originalParams).
  { unfold st, WhatIf.newParams, WhatIf.initialState.
    cbn [WhatIf.simulationParams WhatIf.isNonSmoker].
    rewrite <- (withSmoking_same originalParams) at 3.
    destruct Hs as [Hs|Hs]; rewrite Hs; reflexivity. }
  split; [exact E|].
  assert (E' : WhatIf.simulatedRisk st = originalRisk)
    by (unfold WhatIf.simulatedRisk; rewrite E; reflexivity).
  split; [exact E'|]. rewrite E'.
  apply sub_self_not_negative.
Qed.

Lemma X21_simulation_starts_at_original_witness :
  WhatIf.simulatedRisk (WhatIf.initialState examplePatient)
  = calculateSCORE2Risk examplePatient.
Proof.
  apply (X21_simulation_starts_at_original examplePatient).
  right. reflexivity.
Defined.

Lemma tracks_handle (o : Parameters) (st : WhatIf.State)
    (e : WhatIf.Event) :
  WhatIf.tracks o st -> WhatIf.inRange e ->
  WhatIf.tracks o (WhatIf.handle st e).
Proof.
  intros (H1 & H2 & H3 & H4 & H5 & H6 & H7 & H8) He.
  destruct e as [v|v|b]; cbn [WhatIf.handle].
  - destruct v as [| | |x]; try contradiction. cbn [WhatIf.inRange] in He.
    refine (conj H1 (conj H2 (conj H3 (conj H4 (conj H5 (conj H6
              (conj _ H8))))))).
    unfold bpOk. simpl. split; [exact I|lra].
  - destruct v as [| | |x]; try contradiction. cbn [WhatIf.inRange] in He.
    refine (conj H1 (conj H2 (conj H3 (conj H4 (conj H5 (conj H6
              (conj H7 _))))))).
    unfold cholOk. simpl. lra.
  - exact (conj H1 (conj H2 (conj H3 (conj H4 (conj H5 (conj H6
              (conj H7 H8))))))).
Qed.

Lemma tracks_run (o : Parameters) (events : list WhatIf.Event) :
  forall st : WhatIf.State,
    WhatIf.tracks o st -> Forall WhatIf.inRange events ->
    WhatIf.tracks o (WhatIf.run st events).
Proof.
  induction events as [|e events IH]; intros st Ht Hall; [exact Ht|].
  inversion Hall as [|e' l He Hrest]; subst.
  cbn [WhatIf.run fold_left]. apply IH; [|exact Hrest].
  apply tracks_handle; assumption.
Qed.

Lemma tracks_initialState (o : Parameters) :
  valid o -> WhatIf.tracks o (WhatIf.initialState o).
Proof.
  intros (_ & _ & _ & _ & Hb & Hc).
  unfold WhatIf.tracks.
  cbn [WhatIf.initialState WhatIf.simulationParams].
  repeat split; try reflexivity; try apply Hb. exact Hc.
Qed.

Lemma tracks_valid (o : Parameters) (st : WhatIf.State) :
  valid o -> hdlOk o -> WhatIf.tracks o st ->
  valid (WhatIf.newParams st) /\ hdlOk (WhatIf.newParams st).
Proof.
  intros (Ha & Hs & Hr & _ & _ & _) Hh (H1 & H2 & H3 & H4 & H5 & H6 & H7 & H8).
  split.
  - unfold valid, ageOk, sexOk, regionOk, smokingOk.
    cbn [WhatIf.newParams withSmoking age sex region smoking].
    rewrite H1, H2, H3.
    refine (conj Ha (conj Hs (conj Hr (conj _ (conj H7 H8))))).
    destruct (WhatIf.isNonSmoker st); [right|left]; reflexivity.
  - unfold hdlOk. cbn [WhatIf.newParams withSmoking hdlCholesterol].
    rewrite H5. exact Hh.
Qed.

(** X22: started on a validated input, the simulation stays on validated
    inputs whatever the user does with the two sliders and the switch: the
    simulated percentage is always a finite number between 0.1 and 50, and
    the simulated heart age lies between the age and 100. *)
Theorem X22_simulation_stays_valid (originalParams : Parameters)
    (events : list WhatIf.Event) :
  valid originalParams -> hdlOk originalParams ->
  Forall WhatIf.inRange events ->
  let st := WhatIf.run (WhatIf.initialState originalParams) events in
  validateSCORE2Inputs (WhatIf.newParams st) = []
  /\ le 0.1 (riskPercentage (WhatIf.simulatedRisk st)) = true
  /\ le (riskPercentage (WhatIf.simulatedRisk st)) 50 = true
  /\ le (age originalParams) (heartAge (WhatIf.simulatedRisk st)) = true
  /\ le (heartAge (WhatIf.simulatedRisk st)) 100 = true.
Proof.
  intros Hv Hh Hall st.
  assert (Ht : WhatIf.tracks originalParams st)
    by (apply tracks_run; [apply tracks_initialState; exact Hv|exact Hall]).
  destruct (tracks_valid _ _ Hv Hh Ht) as [Hv' Hh'].
  split; [apply validation_passes_iff; exact Hv'|].
  unfold WhatIf.simulatedRisk.
  rewrite (riskPercentage_Fin _ Hv' Hh'), (heartAge_Fin _ Hv' Hh').
  assert (Hb := round1_bounds _ (risk_bounds (WhatIf.newParams st))).
  split; [apply le_Fin; apply Hb|]. split; [apply le_Fin; apply Hb|].
  assert (Ea : age (WhatIf.newParams st) = age originalParams)
    by apply Ht.
  rewrite Ea. destruct Hv as ((Fa & Ra) & _).
  rewrite (isFin_inv _ Fa) at 1.
  split; apply le_Fin; unfold Rmax, Rmin; repeat destruct (Rle_dec _ _); lra.
Qed.

Lemma X22_simulation_stays_valid_witness :
  let st := WhatIf.run (WhatIf.initialState examplePatient)
              [ WhatIf.BPChange (Fin 150); WhatIf.SmokingSwitch false;
                WhatIf.CholesterolChange (Fin 6.2) ] in
  le 0.1 (riskPercentage (WhatIf.simulatedRisk st)) = true
  /\ le (riskPercentage (WhatIf.simulatedRisk st)) 50 = true.
Proof.
  intros st.
  assert (Hv : valid examplePatient) by prove_valid.
  assert (Hall : Forall WhatIf.inRange
                   [ WhatIf.BPChange (Fin 150); WhatIf.SmokingSwitch false;
                     WhatIf.CholesterolChange (Fin 6.2) ]).
  { repeat constructor; simpl; lra. }
  destruct (X22_simulation_stays_valid examplePatient _ Hv I Hall)
    as (_ & H1 & H2 & _).
  split; [exact H1|exact H2].
Defined.




(** The component keeps its state when its props change: [useState] reads
    its argument at the first render only, and the effect runs again only
    when the state changes.  When the application recalculates with other
    inputs while the results stay on screen, [originalRisk] is the new
    result and [simulatedRisk] still the one of the first inputs.  A woman
    of 40 at 80 mmHg, first in the low region, then in the very-high
    region: no control touched, 6.9 is shown as simulated against 5.8 as
    current, not as an improvement, with a positive difference. *)
Lemma simulation_state_survives_new_props :
  let st := WhatIf.initialState (lowPressurePatient "low") in
  let originalRisk := calculateSCORE2Risk (lowPressurePatient "very-high") in
  riskPercentage (WhatIf.simulatedRisk st) = Fin 6.9
  /\ riskPercentage originalRisk = Fin 5.8
  /\ lt 0 (WhatIf.riskDifference (WhatIf.simulatedRisk st) originalRisk)
     = true
  /\ WhatIf.isImprovement (WhatIf.simulatedRisk st) originalRisk = false.
Proof.
  intros st originalRisk.
  assert (E1 : riskPercentage (WhatIf.simulatedRisk st) = Fin 6.9)
    by exact lowPressure_low.
  assert (E2 : riskPercentage originalRisk = Fin 5.8)
    by exact lowPressure_veryHigh.
  split; [exact E1|]. split; [exact E2|].
  unfold WhatIf.isImprovement, WhatIf.riskDifference. rewrite E1, E2.
  cbn [sub neg add]. split; [apply lt_Fin|apply lt_Fin_false]; lra.
Qed.

(** ** Inputs outside the validated ranges *)

Lemma round1_50 : round1 50 = 50.
Proof.
  unfold round1. replace (50 * 10) with (IZR 500) by lra.
  rewrite roundZ_IZR. lra.
Qed.

(** X24: an infinite total cholesterol passes the validation (only
    [totalCholesterol > 0] is asked for); the reported percentage is then
    the upper bound 50, the category is very-high and the three
    cholesterol recommendations are given. *)
Theorem X24_infinite_cholesterol (p : Parameters) :
  valid p -> hdlOk p -> totalCholesterol p = PInf ->
  let result := calculateSCORE2Risk p in
  validateSCORE2Inputs p = []
  /\ riskPercentage result = Fin 50
  /\ riskCategory result = "very-high"
  /\ incl cholesterolAdvice (recommendations result).
Proof.
  intros Hv Hh Ec result.
  assert (Er : risk p = 50) by (unfold risk; rewrite Ec; reflexivity).
  split; [apply validation_passes_iff; exact Hv|].
  split.
  { unfold result. rewrite (riskPercentage_Fin p Hv Hh), Er, round1_50.
    reflexivity. }
  split.
  { unfold result. rewrite (riskCategory_Fin p Hv Hh), Er.
    unfold categorizeRisk.
    rewrite (proj2 (lt_Fin_false 50 2.5)), (proj2 (lt_Fin_false 50 7.5)),
      (proj2 (lt_Fin_false 50 10)), (proj2 (lt_Fin_false 50 5)),
      (proj2 (lt_Fin_false 50 15)) by lra.
    destruct (lt (age p) 50); reflexivity. }
  unfold result, calculateSCORE2Risk. cbn [recommendations].
  rewrite generateRecommendations_gates.
  assert (Eg : cholesterolGate p = cholesterolAdvice).
  { unfold cholesterolGate, normalizeUnits. rewrite Ec.
    destruct (cholesterolUnit p =? "mg/dL"); cbn [fst div];
      [destruct (Rlt_dec 38.67 0); [lra|]|]; reflexivity. }
  rewrite Eg. do 2 apply incl_appr. apply incl_appl, incl_refl.
Qed.

Lemma X24_infinite_cholesterol_witness :
  riskPercentage
    (calculateSCORE2Risk
       (withTotalCholesterol examplePatient PInf)) = Fin 50.
Proof.
  assert (Hv : valid (withTotalCholesterol examplePatient PInf))
    by prove_valid.
  exact (proj1 (proj2 (X24_infinite_cholesterol _ Hv I eq_refl))).
Defined.

Lemma addHdlComponent_NaN (h : option num) : addHdlComponent NaN h = NaN.
Proof. unfold addHdlComponent. destruct (hdlLogArg h); reflexivity. Qed.

(** A missing or [NaN] age, pressure or total cholesterol makes the clamped
    percentage [NaN]. *)
Lemma clampedRisk_missing_number (p : Parameters) :
  age p = NaN \/ systolicBP p = NaN \/ totalCholesterol p = NaN ->
  clampedRisk p = NaN.
Proof.
  intros H. unfold clampedRisk, normalizeUnits. cbv zeta.
  rewrite let_pair_if.
  match goal with
  | |- context [addHdlComponent ?s ?h] =>
      assert (Es : s = NaN); [|rewrite Es, addHdlComponent_NaN]
  end.
  - destruct H as [E|[E|E]]; rewrite E.
    + reflexivity.
    + cbn [div Math.log mul]. rewrite add_NaN_r. reflexivity.
    + replace (if cholesterolUnit p =? "mg/dL" then div NaN 38.67 else NaN)
        with NaN by (destruct (_ =? _); reflexivity).
      cbn [div Math.log mul]. apply add_NaN_r.
  - apply percentage_NaN.
Qed.

(** X25: the engine does not refuse an input whose age, systolic pressure
    or total cholesterol is missing or not a number: it returns a result
    whose percentage and heart age are [NaN], in the category very-high.
    The validation reports every such input. *)
Theorem X25_missing_number (p : Parameters) :
  age p = NaN \/ systolicBP p = NaN \/ totalCholesterol p = NaN ->
  let result := calculateSCORE2Risk p in
  riskPercentage result = NaN
  /\ heartAge result = NaN
  /\ riskCategory result = "very-high"
  /\ validateSCORE2Inputs p <> [].
Proof.
  intros H result.
  assert (Ec := clampedRisk_missing_number p H).
  unfold result, calculateSCORE2Risk, calculateHeartAge.
  cbn [riskPercentage heartAge riskCategory]. cbv zeta. rewrite Ec.
  split; [reflexivity|]. split.
  { cbn [div sub neg add mul]. rewrite add_NaN_r. cbn [Math.round Math.min].
    destruct (age p); reflexivity. }
  split.
  { unfold categorizeRisk. destruct (lt (age p) 50); reflexivity. }
  intros Hnil. apply validation_passes_iff in Hnil.
  destruct Hnil as ((Fa & _) & _ & _ & _ & (Fb & _) & Hc).
  unfold cholOk in Hc.
  destruct H as [E|[E|E]]; rewrite E in *; contradiction.
Qed.

Lemma X25_missing_number_witness :
  riskPercentage
    (calculateSCORE2Risk (withSystolicBP examplePatient NaN)) = NaN.
Proof.
  apply (X25_missing_number (withSystolicBP examplePatient NaN)).
  right. left. reflexivity.
Defined.
